(** * Asynchronous conversion-job lifecycle: routes/conversion.py

    A shallow embedding of the job registry, the submission handler, the
    background conversion task and the status / download / cleanup
    endpoints of [routes/conversion.py], together with the helpers of
    [services/conversion_service.py] and the records of
    [models/conversion.py] they use.

    How the program is modelled:

    - A handler is a function in a state-and-exception monad [M] over a
      [World]: the job objects (a heap: the registry and a background
      task hold references to the same [ConversionJob], which the task
      mutates in place), the dict [conversion_jobs], the file system,
      and the tasks added and suspended.
    - [uuid.uuid4()], [time.time()] and the converter routines are
      oracles: the n-th call of each returns what the function
      [uuid4_at], [time_at], [converter_at] gives for n, and the world
      counts the calls.  A converter is handed two paths and the file
      system; what it does with them is arbitrary.
    - The file system is a finite map from path strings to entries (a
      regular file or a directory, with its size in bytes, a natural
      number): what the operating system finds at a path.  File
      contents are not modelled, a write or a removal acts on the one
      path string it is given (two strings that the operating system
      would resolve to one file are two files here), and nothing but
      the service changes the files.  Removing a regular file always
      succeeds; removing a directory fails.
    - Whether a file can be opened for writing is for the operating
      system to say: it depends on the directories on the way, on
      permissions, on the limits on names and on the space left, none of
      which the map records.  The world carries the answer as an oracle,
      [open_error], together with the text of the error [os.stat] raises
      for a path that is not there, [stat_error].
    - Strings are sequences of code points below 256.  A [float] is an
      IEEE-754 double, held as the rational it denotes.  A reading of
      the clock, [time_at n], stands for a double; [fsub] is the
      subtraction of doubles, of the doubles nearest to its operands,
      and [round2] is [round(x, 2)]; infinities and NaN are not
      represented.
    - Exceptions are those derived from [Exception]; [KeyboardInterrupt],
      [SystemExit] and task cancellation are outside the model.
    - [uuid.uuid4()] does not repeat, so a new job has the id of no
      earlier job.  Nothing of the kind is assumed of the converted
      name, which carries eight characters of another uuid only: two
      jobs can be given the same converted path.
    - The service runs on one event loop.  The transition system at the
      end of the definitions interleaves request handlers and the two
      halves of each background task, the point of suspension being the
      [await] of the converter.
    - The converters of [services/conversion_service.py] are modelled
      after the claims' definitions, over oracles for the libraries they
      call; [service_converter] is the converter they implement. *)

From Stdlib Require Import ZArith QArith Qround Lqa Ascii String.
From stdpp Require Import gmap strings list fin_maps functions.

Local Open Scope string_scope.
Local Open Scope list_scope.
Local Open Scope Z_scope.

(** ** Python strings

    A [str] is modelled as a Rocq [string]; a character is a code point
    below 256 (Latin-1). *)

Module Py.

(** [str.lower] on one code point: A-Z, and the Latin-1 capitals
    U+00C0..U+00DE except the multiplication sign U+00D7. *)
Definition lower_char (c : ascii) : ascii :=
  let n := nat_of_ascii c in
  if ((65 <=? n) && (n <=? 90))%nat
     || ((192 <=? n) && (n <=? 222) && negb (n =? 215))%nat
  then ascii_of_nat (n + 32)
  else c.

(** [s.lower()] *)
Fixpoint lower (s : string) : string :=
  match s with
  | EmptyString => EmptyString
  | String c s' => String (lower_char c) (lower s')
  end.

(** [s.lstrip(ch)] for a one-character argument *)
Fixpoint lstrip (ch : ascii) (s : string) : string :=
  match s with
  | String c s' => if Ascii.eqb c ch then lstrip ch s' else s
  | EmptyString => EmptyString
  end.

(** [s.rfind(ch)]: the highest index of [ch], or -1 *)
Fixpoint rfind (ch : ascii) (s : string) : Z :=
  match s with
  | EmptyString => -1
  | String c s' =>
      let r := rfind ch s' in
      if 0 <=? r then r + 1 else if Ascii.eqb c ch then 0 else -1
  end.

(** [len(s)] *)
Definition len (s : string) : Z := Z.of_nat (String.length s).

(** the slices [s[i:]] and [s[:i]] for [0 <= i] *)
Fixpoint drop (n : nat) (s : string) : string :=
  match n, s with
  | O, _ => s
  | S n', String _ s' => drop n' s'
  | S _, EmptyString => EmptyString
  end.

Fixpoint take (n : nat) (s : string) : string :=
  match n, s with
  | O, _ => EmptyString
  | S n', String c s' => String c (take n' s')
  | S _, EmptyString => EmptyString
  end.

Definition slice_from (i : Z) (s : string) : string := drop (Z.to_nat i) s.
Definition slice_to (i : Z) (s : string) : string := take (Z.to_nat i) s.

(** [s.split(sep)] for a one-character separator *)
Fixpoint split (sep : ascii) (s : string) : list string :=
  match s with
  | EmptyString => [EmptyString]
  | String c s' =>
      if Ascii.eqb c sep then EmptyString :: split sep s'
      else match split sep s' with
           | h :: t => String c h :: t
           | [] => [String c EmptyString]
           end
  end.

(** [sep.join(xs)] *)
Fixpoint join (sep : string) (xs : list string) : string :=
  match xs with
  | [] => EmptyString
  | [x] => x
  | x :: rest => x +:+ sep +:+ join sep rest
  end.

(** [s.startswith(p)] *)
Definition startswith (p s : string) : bool := String.prefix p s.

(** [x in xs] for a list of strings *)
Definition contains (x : string) (xs : list string) : bool :=
  bool_decide (x ∈ xs).

(** truthiness of an [Optional[str]]: [None] and [''] are falsy *)
Definition truthy (o : option string) : bool :=
  match o with
  | Some s => negb (String.eqb s "")
  | None => false
  end.

End Py.

(** ** pathlib.PurePosixPath, as far as the service uses it *)

Module Path.

(** The components a path string parses to: the pieces between
    slashes, without the empty ones and without ["."]. *)
Definition keep (c : string) : bool :=
  negb (String.eqb c "") && negb (String.eqb c ".").

Definition parts (p : string) : list string :=
  List.filter keep (Py.split "/" p).

(** The root: ["//"] for exactly two leading slashes, ["/"] for any
    other number of them. *)
Definition root (p : string) : string :=
  match p with
  | String "/" (String "/" (String "/" _)) => "/"
  | String "/" (String "/" _) => "//"
  | String "/" _ => "/"
  | _ => ""
  end.

(** [Path(p).name]: the final component, [''] when there is none *)
Definition name (p : string) : string := List.last (parts p) "".

(** [Path(p).suffix] *)
Definition suffix (p : string) : string :=
  let name := name p in
  let i := Py.rfind "." name in
  if (0 <? i) && (i <? Py.len name - 1) then Py.slice_from i name else "".

(** [Path(p).stem] *)
Definition stem (p : string) : string :=
  let name := name p in
  let i := Py.rfind "." name in
  if (0 <? i) && (i <? Py.len name - 1) then Py.slice_to i name else name.

(** [str(Path(p))] *)
Definition str (p : string) : string :=
  match root p +:+ Py.join "/" (parts p) with
  | EmptyString => "."
  | s => s
  end.

(** [posixpath.join(a, b)], which [a / b] parses *)
Definition join (a b : string) : string :=
  if Py.startswith "/" b then b
  else if String.eqb a "" then b
  else if String.eqb (Py.drop (String.length a - 1) a) "/" then a +:+ b
  else a +:+ "/" +:+ b.

(** [str(Path(a) / b)] *)
Definition div (a b : string) : string := str (join a b).

End Path.

(** ** models/conversion.py *)

Inductive ConversionStatus := PENDING | PROCESSING | COMPLETED | FAILED.

#[global] Instance ConversionStatus_eq_dec : EqDecision ConversionStatus.
Proof. solve_decision. Defined.

(** [status.value] *)
Definition status_value (s : ConversionStatus) : string :=
  match s with
  | PENDING => "pending"
  | PROCESSING => "processing"
  | COMPLETED => "completed"
  | FAILED => "failed"
  end.

Inductive ConversionFormat :=
  WORD_TO_PDF | PDF_TO_WORD | TXT_TO_PDF | IMAGE_TO_PDF | EXCEL_TO_PDF.

(** Timestamps and durations are Python floats (seconds), held as
    rationals. *)
Module ConversionJob.

Record t := mk {
  id : string;
  original_filename : string;
  converted_filename : string;
  from_format : string;
  to_format : string;
  status : ConversionStatus;
  file_size : Z;
  converted_file_size : option Z;
  conversion_time : option Q;
  created_at : Q;
  completed_at : option Q;
  error_message : option string;
  download_url : option string;
  file_path : option string;
  converted_file_path : option string
}.

(** attribute assignment [job.attr = v], one function per attribute
    the routes assign *)
Definition set_status v j :=
  mk (id j) (original_filename j) (converted_filename j) (from_format j)
     (to_format j) v (file_size j) (converted_file_size j)
     (conversion_time j) (created_at j) (completed_at j) (error_message j)
     (download_url j) (file_path j) (converted_file_path j).
Definition set_file_size v j :=
  mk (id j) (original_filename j) (converted_filename j) (from_format j)
     (to_format j) (status j) v (converted_file_size j)
     (conversion_time j) (created_at j) (completed_at j) (error_message j)
     (download_url j) (file_path j) (converted_file_path j).
Definition set_converted_file_size v j :=
  mk (id j) (original_filename j) (converted_filename j) (from_format j)
     (to_format j) (status j) (file_size j) v
     (conversion_time j) (created_at j) (completed_at j) (error_message j)
     (download_url j) (file_path j) (converted_file_path j).
Definition set_conversion_time v j :=
  mk (id j) (original_filename j) (converted_filename j) (from_format j)
     (to_format j) (status j) (file_size j) (converted_file_size j)
     v (created_at j) (completed_at j) (error_message j)
     (download_url j) (file_path j) (converted_file_path j).
Definition set_completed_at v j :=
  mk (id j) (original_filename j) (converted_filename j) (from_format j)
     (to_format j) (status j) (file_size j) (converted_file_size j)
     (conversion_time j) (created_at j) v (error_message j)
     (download_url j) (file_path j) (converted_file_path j).
Definition set_error_message v j :=
  mk (id j) (original_filename j) (converted_filename j) (from_format j)
     (to_format j) (status j) (file_size j) (converted_file_size j)
     (conversion_time j) (created_at j) (completed_at j) v
     (download_url j) (file_path j) (converted_file_path j).
Definition set_download_url v j :=
  mk (id j) (original_filename j) (converted_filename j) (from_format j)
     (to_format j) (status j) (file_size j) (converted_file_size j)
     (conversion_time j) (created_at j) (completed_at j) (error_message j)
     v (file_path j) (converted_file_path j).
Definition set_file_path v j :=
  mk (id j) (original_filename j) (converted_filename j) (from_format j)
     (to_format j) (status j) (file_size j) (converted_file_size j)
     (conversion_time j) (created_at j) (completed_at j) (error_message j)
     (download_url j) v (converted_file_path j).
Definition set_converted_file_path v j :=
  mk (id j) (original_filename j) (converted_filename j) (from_format j)
     (to_format j) (status j) (file_size j) (converted_file_size j)
     (conversion_time j) (created_at j) (completed_at j) (error_message j)
     (download_url j) (file_path j) v.

End ConversionJob.

Abbreviation Job := ConversionJob.t.

Record ConversionResponse := {
  resp_success : bool;
  resp_job_id : string;
  resp_original_filename : string;
  resp_converted_filename : string;
  resp_file_size : Z;
  resp_converted_file_size : option Z;
  resp_conversion_time : option Q;
  resp_download_url : string;
  resp_message : string
}.

(** ** The state the routes run in *)

(** A number of bytes is read as a Python [int] where one is expected. *)
Coercion Z.of_N : N >-> Z.

(** An entry of the file system: a regular file or a directory, with
    the size in bytes [os.path.getsize] reports.  The contents are not
    modelled. *)
Record node := { is_dir : bool; st_size : N }.

(** What the operating system answers, beyond what the map of the files
    records (the directories on the way to a path, permissions, the
    limits on names, the space left):
    - [open_error path fs], for [open(path, 'wb')] with the files [fs]:
      [None] when the file is created or truncated, [Some msg] when the
      call raises an exception [e] with [str(e) = msg];
    - [stat_error path fs]: [str(e)] of the [OSError] that
      [os.stat(path)] raises when [fs] holds nothing at [path]. *)
Record OS := {
  open_error : string → gmap string node → option string;
  stat_error : string → gmap string node → string
}.

(** A reference to a [ConversionJob] object. *)
Abbreviation ref := nat.

(** An uploaded file: its declared name and the length of its content
    in bytes. *)
Record UploadFile := { filename : string; content_length : N }.

Record World := {
  (** the job objects, by reference; [next_ref] is the next one
      [ConversionJob(...)] allocates *)
  heap : ref → Job;
  next_ref : ref;
  (** the module-level dict [conversion_jobs] *)
  conversion_jobs : gmap string ref;
  (** the file system: path ↦ entry *)
  files : gmap string node;
  (** [background_tasks.add_task(process_conversion, job)]: the tasks
      added and not yet started, over all requests *)
  background_tasks : list ref;
  (** the [process_conversion] coroutines suspended at their [await],
      each with its [start_time] *)
  suspended : list (ref * Q);
  (** how many times [uuid.uuid4()], [time.time()] /
      [datetime.utcnow()] and a converter were called so far *)
  uuid_calls : nat;
  clock_calls : nat;
  converter_calls : nat;
  (** the operating system the service runs on *)
  os : OS
}.

Definition with_heap h n (w : World) : World :=
  Build_World h n (conversion_jobs w) (files w) (background_tasks w)
    (suspended w) (uuid_calls w) (clock_calls w) (converter_calls w) (os w).
Definition with_conversion_jobs m (w : World) : World :=
  Build_World (heap w) (next_ref w) m (files w) (background_tasks w)
    (suspended w) (uuid_calls w) (clock_calls w) (converter_calls w) (os w).
Definition with_files f (w : World) : World :=
  Build_World (heap w) (next_ref w) (conversion_jobs w) f (background_tasks w)
    (suspended w) (uuid_calls w) (clock_calls w) (converter_calls w) (os w).
Definition with_tasks q s (w : World) : World :=
  Build_World (heap w) (next_ref w) (conversion_jobs w) (files w) q s
    (uuid_calls w) (clock_calls w) (converter_calls w) (os w).
Definition with_calls u c k (w : World) : World :=
  Build_World (heap w) (next_ref w) (conversion_jobs w) (files w)
    (background_tasks w) (suspended w) u c k (os w).

(** ** Exceptions and the monad of a handler

    [HTTPException] is what FastAPI turns into a response with that
    status; [Exception msg] is any other exception derived from
    [Exception], with [str(e) = msg]. *)

Inductive exn :=
| HTTPException (status_code : Z) (detail : string)
| Exception (msg : string).

Definition exn_str (e : exn) : string :=
  match e with
  | HTTPException _ detail => detail
  | Exception msg => msg
  end.

Inductive result (A : Type) :=
| Ok (a : A)
| Raise (e : exn).
Arguments Ok {A} a.
Arguments Raise {A} e.

Definition M (A : Type) : Type := World → result A * World.

Definition ret {A} (a : A) : M A := λ w, (Ok a, w).
Definition raise {A} (e : exn) : M A := λ w, (Raise e, w).
Definition bind {A B} (m : M A) (k : A → M B) : M B :=
  λ w, match m w with
       | (Ok a, w') => k a w'
       | (Raise e, w') => (Raise e, w')
       end.

#[global] Instance M_ret : MRet M := @ret.
#[global] Instance M_bind : MBind M := λ A B k m, bind m k.
#[global] Instance M_fmap : FMap M := λ A B f m, bind m (λ a, ret (f a)).

(** [try: body except Exception as e: handler(e)] *)
Definition try_except {A} (body : M A) (handler : exn → M A) : M A :=
  λ w, match body w with
       | (Ok a, w') => (Ok a, w')
       | (Raise e, w') => handler e w'
       end.

(** [try: body finally: fin] *)
Definition try_finally {A} (body : M A) (fin : M unit) : M A :=
  λ w, let '(r, w') := body w in
       match fin w' with
       | (Ok _, w'') => (r, w'')
       | (Raise e, w'') => (Raise e, w'')
       end.

(** reading and assigning attributes of a job object *)
Definition get (job : ref) : M Job := λ w, (Ok (heap w job), w).
Definition assign (job : ref) (f : Job → Job) : M unit :=
  λ w, (Ok (), with_heap (<[job := f (heap w job)]> (heap w)) (next_ref w) w).

(** [ConversionJob(...)] *)
Definition new (j : Job) : M ref :=
  λ w, (Ok (next_ref w),
        with_heap (<[next_ref w := j]> (heap w)) (S (next_ref w)) w).

(** [conversion_jobs[job.id] = job] *)
Definition store (job : ref) : M unit :=
  λ w, (Ok (), with_conversion_jobs
                 (<[ConversionJob.id (heap w job) := job]> (conversion_jobs w)) w).

(** the converter capabilities of [ConversionService] *)
Inductive capability :=
  word_to_pdf | pdf_to_word | text_to_pdf | image_to_pdf | excel_to_pdf.

(** What one call of a capability does: handed the input and output
    paths and the file system, it returns a boolean or raises, and leaves
    a file system behind.  The routines themselves (LibreOffice,
    reportlab, PIL, ...) are outside the model. *)
Definition Converter : Type :=
  capability → option string → option string → gmap string node →
  result bool * gmap string node.

(** ** Python floats

    A [float] is an IEEE-754 double (53 bits of mantissa, exponents from
    -1074 up); the model holds the rational it denotes. *)

(** the nearest integer, ties to even *)
Definition round_half_even (x : Q) : Z :=
  let f := Qfloor x in
  match Qcompare (x - inject_Z f) (1 # 2) with
  | Lt => f
  | Gt => f + 1
  | Eq => if Z.even f then f else f + 1
  end.

(** [2 ** e] *)
Definition pow2 (e : Z) : Q :=
  if 0 <=? e then inject_Z (2 ^ e) else 1 # Z.to_pos (2 ^ (- e)).

(** the integer part of the binary logarithm of a positive rational *)
Definition ilog2 (a : Q) : Z :=
  let d := Z.log2 (Qnum a) - Z.log2 (Zpos (Qden a)) in
  if Qle_bool (pow2 d) a then d else d - 1.

(** The double nearest to a rational, ties to the even mantissa.  The
    mantissa has 53 bits, fewer below [2 ** -1022]; a rational beyond
    the largest double is left as it is (the code has an infinity
    there). *)
Definition double (x : Q) : Q :=
  if Qeq_bool x 0 then 0
  else
    let a := if Qle_bool 0 x then x else (- x)%Q in
    let e := Z.max (ilog2 a - 52) (-1074) in
    let r := Qred (inject_Z (round_half_even (a / pow2 e)) * pow2 e) in
    if Qle_bool (pow2 1024) r then x
    else if Qle_bool 0 x then r else Qred (- r).

(** [a - b] on floats *)
Definition fsub (a b : Q) : Q := double (double a - double b).

(** [round(x, 2)] on a float: the decimal with two places nearest to
    [x], ties to even, and then the double nearest to that decimal *)
Definition round2 (x : Q) : Q :=
  double (Qmake (round_half_even (x * 100)) 100).

Section Service.

(** The outside world: the n-th [uuid.uuid4()] as a string, the n-th
    reading of the clock, the n-th converter run. *)
Variable uuid4_at : nat → string.
Variable time_at : nat → Q.
Variable converter_at : nat → Converter.

Definition uuid4 : M string :=
  λ w, (Ok (uuid4_at (uuid_calls w)),
        with_calls (S (uuid_calls w)) (clock_calls w) (converter_calls w) w).

(** [time.time()], [datetime.utcnow()] *)
Definition time_time : M Q :=
  λ w, (Ok (time_at (clock_calls w)),
        with_calls (uuid_calls w) (S (clock_calls w)) (converter_calls w) w).

(** [await ConversionService.<capability>(input_path, output_path)] *)
Definition convert (c : capability) (input_path output_path : option string)
  : M bool :=
  λ w, let '(r, fs) :=
         converter_at (converter_calls w) c input_path output_path (files w) in
       (r, with_calls (uuid_calls w) (clock_calls w) (S (converter_calls w))
             (with_files fs w)).

(** *** os *)

(** [os.path.exists(path)]; [None] is a TypeError *)
Definition os_path_exists (path : option string) : M bool :=
  match path with
  | None => raise (Exception
      "stat: path should be string, bytes, os.PathLike or integer, not NoneType")
  | Some p => λ w, (Ok (bool_decide (is_Some (files w !! p))), w)
  end.

(** [os.path.getsize(path)] *)
Definition os_path_getsize (path : option string) : M Z :=
  match path with
  | None => raise (Exception
      "stat: path should be string, bytes, os.PathLike or integer, not NoneType")
  | Some p => λ w,
      match files w !! p with
      | Some n => (Ok (Z.of_N (st_size n)), w)
      | None => (Raise (Exception (stat_error (os w) p (files w))), w)
      end
  end.

(** [os.remove(path)]: a directory cannot be removed *)
Definition os_remove (path : option string) : M unit :=
  match path with
  | None => raise (Exception
      "remove: path should be string, bytes or os.PathLike, not NoneType")
  | Some p => λ w,
      match files w !! p with
      | Some n =>
          if is_dir n
          then (Raise (Exception
                  ("[Errno 21] Is a directory: '" +:+ p +:+ "'")), w)
          else (Ok (), with_files (delete p (files w)) w)
      | None => (Raise (Exception
          ("[Errno 2] No such file or directory: '" +:+ p +:+ "'")), w)
      end
  end.

(** *** services/conversion_service.py *)

Definition CONVERSION_DIR : string := "/tmp/conversions".

Definition generate_unique_filename (original_name new_extension : string)
  : M string :=
  let base_name := Path.stem original_name in
  u ← uuid4;
  let unique_id := Py.slice_to 8 u in
  mret (base_name +:+ "_" +:+ unique_id +:+ "." +:+ new_extension).

(** [aiofiles.open(file_path, 'wb')] is answered by the operating
    system: it raises (no such directory, a directory in the place of
    the file, a name that is too long, ...), or the file is created
    and the content of the upload written to it. *)
Definition save_uploaded_file (file : UploadFile) (filename : string)
  : M string :=
  let file_path := Path.div CONVERSION_DIR filename in
  λ w, match open_error (os w) file_path (files w) with
       | Some msg => (Raise (Exception msg), w)
       | None =>
           (Ok file_path,
            with_files (<[file_path := Build_node false (content_length file)]>
                          (files w)) w)
       end.

Definition cleanup_file (file_path : option string) : M unit :=
  try_except
    (e ← os_path_exists file_path;
     if e : bool then os_remove file_path else mret ())
    (λ _, mret ()).

Definition max_size : Z := 50 * 1024 * 1024.

Definition validate_file (file_path : string) (allowed_extensions : list string)
  : M (bool * string) :=
  try_except
    (let file_ext := Py.lstrip "." (Py.lower (Path.suffix file_path)) in
     if negb (Py.contains file_ext allowed_extensions)
     then mret (false, "Invalid file type. Allowed: "
                         +:+ Py.join ", " allowed_extensions)
     else
       file_size ← os_path_getsize (Some file_path);
       if max_size <? file_size
       then mret (false, "File size exceeds 50MB limit")
       else
         e ← os_path_exists (Some file_path);
         if negb e then mret (false, "File not found")
         else mret (true, "Valid file"))
    (λ e, mret (false, "File validation error: " +:+ exn_str e)).

(** *** routes/conversion.py *)

Definition ALLOWED_FORMATS (f : ConversionFormat) : list string :=
  match f with
  | WORD_TO_PDF => ["doc"; "docx"]
  | PDF_TO_WORD => ["pdf"]
  | TXT_TO_PDF => ["txt"]
  | IMAGE_TO_PDF => ["jpg"; "jpeg"; "png"; "gif"; "bmp"; "tiff"]
  | EXCEL_TO_PDF => ["xls"; "xlsx"; "csv"]
  end.

(** [process_conversion], lines 40-52: the capability chosen by
    [(from_format, to_format)] is awaited; no capability for another
    pair. *)
Definition perform_conversion (job : ref) : M bool :=
  j ← get job;
  let from_format := ConversionJob.from_format j in
  let to_format := ConversionJob.to_format j in
  let file_path := ConversionJob.file_path j in
  let converted_file_path := ConversionJob.converted_file_path j in
  if String.eqb from_format "word" && String.eqb to_format "pdf"
  then convert word_to_pdf file_path converted_file_path
  else if String.eqb from_format "pdf" && String.eqb to_format "word"
  then convert pdf_to_word file_path converted_file_path
  else if String.eqb from_format "txt" && String.eqb to_format "pdf"
  then convert text_to_pdf file_path converted_file_path
  else if String.eqb from_format "image" && String.eqb to_format "pdf"
  then convert image_to_pdf file_path converted_file_path
  else if String.eqb from_format "excel" && String.eqb to_format "pdf"
  then convert excel_to_pdf file_path converted_file_path
  else mret false.

(** lines 54-62: [if success and os.path.exists(...)] *)
Definition update_job_status (job : ref) (start_time : Q) (success : bool)
  : M unit :=
  j ← get job;
  present ←
    (if success then os_path_exists (ConversionJob.converted_file_path j)
     else mret false);
  if present : bool
  then
    assign job (ConversionJob.set_status COMPLETED);;
    size ← os_path_getsize (ConversionJob.converted_file_path j);
    assign job (ConversionJob.set_converted_file_size (Some size));;
    now ← time_time;
    assign job (ConversionJob.set_conversion_time
                  (Some (round2 (fsub now start_time))));;
    assign job (ConversionJob.set_download_url
                  (Some ("/api/download/" +:+ ConversionJob.id j)))
  else
    assign job (ConversionJob.set_status FAILED);;
    assign job (ConversionJob.set_error_message (Some "Conversion failed")).

(** lines 64-66: [except Exception as e] *)
Definition conversion_error (job : ref) (e : exn) : M unit :=
  assign job (ConversionJob.set_status FAILED);;
  assign job (ConversionJob.set_error_message
                (Some ("Conversion error: " +:+ exn_str e))).

(** lines 68-70: [finally] *)
Definition conversion_finally (job : ref) : M unit :=
  now ← time_time;
  assign job (ConversionJob.set_completed_at (Some now));;
  store job.

(** lines 40-62, the part of the [try] block that runs after the
    PROCESSING write-back *)
Definition conversion_attempt (job : ref) (start_time : Q) : M unit :=
  success ← perform_conversion job;
  update_job_status job start_time success.

Definition process_conversion (job : ref) : M unit :=
  start_time ← time_time;
  try_finally
    (try_except
       (assign job (ConversionJob.set_status PROCESSING);;
        store job;;
        conversion_attempt job start_time)
       (conversion_error job))
    (conversion_finally job).

(** The coroutine is suspended once, at the [await] of the capability.
    [process_conversion_begin] is what runs up to there, and
    [process_conversion_resume] what runs from there until it returns,
    the capability's run included. *)
Definition process_conversion_begin (job : ref) : M Q :=
  start_time ← time_time;
  assign job (ConversionJob.set_status PROCESSING);;
  store job;;
  mret start_time.

Definition process_conversion_resume (job : ref) (start_time : Q) : M unit :=
  try_finally
    (try_except (conversion_attempt job start_time) (conversion_error job))
    (conversion_finally job).

(** [background_tasks.add_task(process_conversion, job)] *)
Definition add_task (job : ref) : M unit :=
  λ w, (Ok (), with_tasks (background_tasks w ++ [job]) (suspended w) w).

Definition handle_conversion (file : UploadFile)
    (conversion_type : ConversionFormat) (from_format to_format : string)
  : M ConversionResponse :=
  let file_ext := Py.lstrip "." (Py.lower (Path.suffix (filename file))) in
  let allowed_extensions := ALLOWED_FORMATS conversion_type in
  if negb (Py.contains file_ext allowed_extensions)
  then raise (HTTPException 400
                ("Invalid file type. Supported formats: "
                   +:+ Py.join ", " allowed_extensions))
  else
    converted_filename ←
      generate_unique_filename (filename file)
        (if String.eqb to_format "word" then "docx" else to_format);
    job_id ← uuid4;
    created_at ← time_time;
    job ← new (ConversionJob.mk job_id (filename file) converted_filename
                 from_format to_format PENDING 0 None None created_at None
                 None None None None);
    try_except
      (file_path ← save_uploaded_file file (job_id +:+ "_" +:+ filename file);
       assign job (ConversionJob.set_file_path (Some file_path));;
       size ← os_path_getsize (Some file_path);
       assign job (ConversionJob.set_file_size size);;
       '(is_valid, validation_message) ← validate_file file_path allowed_extensions;
       if negb is_valid
       then cleanup_file (Some file_path);;
            raise (HTTPException 400 validation_message)
       else
         let conversion_dir := "/tmp/conversions" in
         assign job (ConversionJob.set_converted_file_path
                       (Some (Path.div conversion_dir converted_filename)));;
         store job;;
         add_task job;;
         j ← get job;
         mret {| resp_success := true;
                 resp_job_id := ConversionJob.id j;
                 resp_original_filename := ConversionJob.original_filename j;
                 resp_converted_filename := ConversionJob.converted_filename j;
                 resp_file_size := ConversionJob.file_size j;
                 resp_converted_file_size := None;
                 resp_conversion_time := None;
                 resp_download_url := "/api/download/" +:+ ConversionJob.id j;
                 resp_message := "Conversion started successfully" |})
      (λ e,
         match e with
         | HTTPException _ _ => raise e
         | Exception msg =>
             j ← get job;
             (if Py.truthy (ConversionJob.file_path j)
              then cleanup_file (ConversionJob.file_path j) else mret ());;
             raise (HTTPException 500 ("Conversion failed: " +:+ msg))
         end).

Definition convert_word_to_pdf (file : UploadFile) : M ConversionResponse :=
  handle_conversion file WORD_TO_PDF "word" "pdf".
Definition convert_pdf_to_word (file : UploadFile) : M ConversionResponse :=
  handle_conversion file PDF_TO_WORD "pdf" "word".
Definition convert_txt_to_pdf (file : UploadFile) : M ConversionResponse :=
  handle_conversion file TXT_TO_PDF "txt" "pdf".
Definition convert_image_to_pdf (files : list UploadFile) : M ConversionResponse :=
  match files with
  | [] => raise (HTTPException 400 "No files provided")
  | file0 :: _ => handle_conversion file0 IMAGE_TO_PDF "image" "pdf"
  end.
Definition convert_excel_to_pdf (file : UploadFile) : M ConversionResponse :=
  handle_conversion file EXCEL_TO_PDF "excel" "pdf".

(** the dict [get_conversion_status] returns *)
Record StatusResponse := {
  st_job_id : string;
  st_status : string;
  st_progress : Z;
  st_original_filename : string;
  st_converted_filename : string;
  st_conversion_time : option Q;
  st_error_message : option string;
  st_download_url : option string
}.

(** [if job_id not in conversion_jobs: raise HTTPException(404, ...)]
    then [job = conversion_jobs[job_id]] *)
Definition lookup_job (job_id : string) : M ref :=
  λ w, match conversion_jobs w !! job_id with
       | None => (Raise (HTTPException 404 "Conversion job not found"), w)
       | Some job => (Ok job, w)
       end.

Definition get_conversion_status (job_id : string) : M StatusResponse :=
  job ← lookup_job job_id;
  j ← get job;
  mret {| st_job_id := ConversionJob.id j;
          st_status := status_value (ConversionJob.status j);
          st_progress :=
            if decide (ConversionJob.status j = COMPLETED) then 100
            else if decide (ConversionJob.status j = PROCESSING) then 50
            else 0;
          st_original_filename := ConversionJob.original_filename j;
          st_converted_filename := ConversionJob.converted_filename j;
          st_conversion_time := ConversionJob.conversion_time j;
          st_error_message := ConversionJob.error_message j;
          st_download_url :=
            if decide (ConversionJob.status j = COMPLETED)
            then ConversionJob.download_url j else None |}.

(** [FileResponse(path=..., filename=..., media_type=...)] *)
Record FileResponse := {
  fr_path : option string;
  fr_filename : string;
  fr_media_type : string
}.

Definition download_converted_file (job_id : string) : M FileResponse :=
  job ← lookup_job job_id;
  j ← get job;
  if negb (bool_decide (ConversionJob.status j = COMPLETED))
  then raise (HTTPException 400 "Conversion not completed yet")
  else
    e ← os_path_exists (ConversionJob.converted_file_path j);
    if negb e
    then raise (HTTPException 404 "Converted file not found")
    else mret {| fr_path := ConversionJob.converted_file_path j;
                 fr_filename := ConversionJob.converted_filename j;
                 fr_media_type := "application/octet-stream" |}.

(** [del conversion_jobs[job_id]] *)
Definition del (job_id : string) : M unit :=
  λ w, match conversion_jobs w !! job_id with
       | None => (Raise (Exception ("'" +:+ job_id +:+ "'")), w)
       | Some _ => (Ok (), with_conversion_jobs (delete job_id (conversion_jobs w)) w)
       end.

Definition cleanup_conversion_files (job_id : string) : M string :=
  job ← lookup_job job_id;
  j ← get job;
  (if Py.truthy (ConversionJob.file_path j)
   then cleanup_file (ConversionJob.file_path j) else mret ());;
  (if Py.truthy (ConversionJob.converted_file_path j)
   then cleanup_file (ConversionJob.converted_file_path j) else mret ());;
  del job_id;;
  mret "Files cleaned up successfully".

End Service.

(** ** The service as a transition system

    One event loop runs the request handlers and the background tasks;
    control changes hands only at an [await].  A request handler is one
    atomic step (before it stores its job, [handle_conversion] touches
    only that job and its scratch file), and a background task is two:
    up to the [await] of the capability, and from there to its end. *)

Inductive request :=
| PostWordToPdf (file : UploadFile)
| PostPdfToWord (file : UploadFile)
| PostTxtToPdf (file : UploadFile)
| PostImageToPdf (files : list UploadFile)
| PostExcelToPdf (file : UploadFile)
| GetStatus (job_id : string)
| GetDownload (job_id : string)
| DeleteCleanup (job_id : string).

Inductive response :=
| Conversion (r : ConversionResponse)
| Status (r : StatusResponse)
| File (r : FileResponse)
| Message (m : string).

Inductive event :=
| Request (r : request)
| TaskStart (job : ref)
| TaskResume (job : ref).

(** [uuid.uuid4()] does not repeat: the id of a new job is the id of
    no earlier job.  Nothing is assumed of its paths. *)
Definition unused_id (w : World) (j : Job) : Prop :=
  ∀ l, (l < next_ref w)%nat →
    ConversionJob.id j ≠ ConversionJob.id (heap w l).

Section System.

Variable uuid4_at : nat → string.
Variable time_at : nat → Q.
Variable converter_at : nat → Converter.

Definition serve (r : request) : M response :=
  match r with
  | PostWordToPdf file =>
      Conversion <$> convert_word_to_pdf uuid4_at time_at file
  | PostPdfToWord file =>
      Conversion <$> convert_pdf_to_word uuid4_at time_at file
  | PostTxtToPdf file =>
      Conversion <$> convert_txt_to_pdf uuid4_at time_at file
  | PostImageToPdf files =>
      Conversion <$> convert_image_to_pdf uuid4_at time_at files
  | PostExcelToPdf file =>
      Conversion <$> convert_excel_to_pdf uuid4_at time_at file
  | GetStatus job_id => Status <$> get_conversion_status job_id
  | GetDownload job_id => File <$> download_converted_file job_id
  | DeleteCleanup job_id => Message <$> cleanup_conversion_files job_id
  end.

(** starting the task [job]: it leaves the queue, runs to its
    [await], and is suspended there *)
Definition start_task (job : ref) (q1 q2 : list ref) (w : World) : World :=
  match process_conversion_begin time_at job
          (with_tasks (q1 ++ q2) (suspended w) w) with
  | (Ok start_time, w') =>
      with_tasks (background_tasks w') (suspended w' ++ [(job, start_time)]) w'
  | (Raise _, w') => w'
  end.

(** resuming the task [job]: the capability runs, and the coroutine
    after it, to the end *)
Definition resume_task (job : ref) (start_time : Q)
    (s1 s2 : list (ref * Q)) (w : World) : World :=
  (process_conversion_resume time_at converter_at job start_time
     (with_tasks (background_tasks w) (s1 ++ s2) w)).2.

Inductive step : World → event → World → Prop :=
| step_request r w :
    (∀ l, (next_ref w ≤ l < next_ref (serve r w).2)%nat →
          unused_id w (heap (serve r w).2 l)) →
    step w (Request r) (serve r w).2
| step_start job q1 q2 w :
    background_tasks w = q1 ++ job :: q2 →
    step w (TaskStart job) (start_task job q1 q2 w)
| step_resume job start_time s1 s2 w :
    suspended w = s1 ++ (job, start_time) :: s2 →
    step w (TaskResume job) (resume_task job start_time s1 s2 w).

(** the service starts with no job and no task *)
Definition initial (w : World) : Prop :=
  next_ref w = 0%nat ∧ conversion_jobs w = ∅
  ∧ background_tasks w = [] ∧ suspended w = [].

Inductive steps : World → list event → World → Prop :=
| steps_nil w : steps w [] w
| steps_cons w e w' es w'' :
    step w e w' → steps w' es w'' → steps w (e :: es) w''.

Definition reachable (w : World) : Prop :=
  ∃ w0 es, initial w0 ∧ steps w0 es w.

End System.


(** ** Notions the statements use *)

(** COMPLETED and FAILED are the terminal states. *)
Definition terminal (s : ConversionStatus) : Prop := s = COMPLETED ∨ s = FAILED.

(** The forward order of the life cycle: PENDING, then PROCESSING, then
    one of the terminal states, which nothing follows. *)
Definition status_le (s s' : ConversionStatus) : Prop :=
  match s, s' with
  | PENDING, _ => True
  | PROCESSING, (PROCESSING | COMPLETED | FAILED) => True
  | COMPLETED, COMPLETED => True
  | FAILED, FAILED => True
  | _, _ => False
  end.

(** the record a successful conversion leaves; [elapsed] is the float
    [time.time() - start_time] *)
Definition completed_job (j : Job) (size : Z) (elapsed now : Q) : Job :=
  ConversionJob.set_completed_at (Some now)
    (ConversionJob.set_download_url
       (Some ("/api/download/" +:+ ConversionJob.id j))
       (ConversionJob.set_conversion_time (Some (round2 elapsed))
          (ConversionJob.set_converted_file_size (Some size)
             (ConversionJob.set_status COMPLETED j)))).

(** the record a failed conversion leaves *)
Definition failed_job (j : Job) (msg : string) (now : Q) : Job :=
  ConversionJob.set_completed_at (Some now)
    (ConversionJob.set_error_message (Some msg)
       (ConversionJob.set_status FAILED j)).

Definition none_path_error : string :=
  "stat: path should be string, bytes, os.PathLike or integer, not NoneType".

(** The record of a job when its coroutine ends, from what the
    capability returned ([r]) and the file system it left ([fs]);
    [clock] counts the readings of the clock before. *)
Definition settled (time_at : nat → Q) (j : Job) (r : result bool)
    (fs : gmap string node) (start_time : Q) (clock : nat) : Job :=
  match r with
  | Ok true =>
      match ConversionJob.converted_file_path j with
      | None => failed_job j ("Conversion error: " +:+ none_path_error)
                  (time_at clock)
      | Some p =>
          match fs !! p with
          | Some n => completed_job j (st_size n)
                        (fsub (time_at clock) start_time) (time_at (S clock))
          | None => failed_job j "Conversion failed" (time_at clock)
          end
      end
  | Ok false => failed_job j "Conversion failed" (time_at clock)
  | Raise e => failed_job j ("Conversion error: " +:+ exn_str e) (time_at clock)
  end.

(** the output of a conversion: the entry at the converted path of [j]
    in [fs], if the capability returned true *)
Definition converted_output (j : Job) (r : result bool)
    (fs : gmap string node) : option node :=
  match r with
  | Ok true => p ← ConversionJob.converted_file_path j; fs !! p
  | _ => None
  end.

(** [ch not in s] *)
Fixpoint free_of (ch : ascii) (s : string) : bool :=
  match s with
  | EmptyString => true
  | String c s' => negb (Ascii.eqb c ch) && free_of ch s'
  end.

(** The suffix is a function of the name. *)
Definition suffix_of_name (name : string) : string :=
  let i := Py.rfind "." name in
  if (0 <? i) && (i <? Py.len name - 1) then Py.slice_from i name else "".

(** [Path(filename).suffix.lower().lstrip('.')] *)
Definition file_ext (filename : string) : string :=
  Py.lstrip "." (Py.lower (Path.suffix filename)).

(** the error of a submission whose extension is not whitelisted *)
Definition invalid_format (conversion_type : ConversionFormat) : exn :=
  HTTPException 400
    ("Invalid file type. Supported formats: "
       +:+ Py.join ", " (ALLOWED_FORMATS conversion_type)).

(** the error of a submission over the size limit *)
Definition file_too_large : exn :=
  HTTPException 400 "File size exceeds 50MB limit".

(** The record [handle_conversion] constructs, and the scratch path it
    saves the upload to, from the two uuids and the clock reading it
    draws in the world [w]. *)
Definition new_job (uuid4_at : nat → string) (time_at : nat → Q) (w : World)
    (file : UploadFile) (from_format to_format : string) : Job :=
  ConversionJob.mk (uuid4_at (S (uuid_calls w))) (filename file)
    (Path.stem (filename file) +:+ "_"
       +:+ Py.slice_to 8 (uuid4_at (uuid_calls w)) +:+ "."
       +:+ (if String.eqb to_format "word" then "docx" else to_format))
    from_format to_format PENDING 0 None None (time_at (clock_calls w))
    None None None None None.

Definition scratch_path (uuid4_at : nat → string) (w : World)
    (file : UploadFile) : string :=
  Path.div CONVERSION_DIR
    (uuid4_at (S (uuid_calls w)) +:+ "_" +:+ filename file).

(** the record once the upload is saved, and once the job is stored *)
Definition saved_job (uuid4_at : nat → string) (time_at : nat → Q) (w : World)
    (file : UploadFile) (from_format to_format : string) : Job :=
  ConversionJob.set_file_size (content_length file)
    (ConversionJob.set_file_path (Some (scratch_path uuid4_at w file))
       (new_job uuid4_at time_at w file from_format to_format)).

Definition queued_job (uuid4_at : nat → string) (time_at : nat → Q) (w : World)
    (file : UploadFile) (from_format to_format : string) : Job :=
  let j := saved_job uuid4_at time_at w file from_format to_format in
  ConversionJob.set_converted_file_path
    (Some (Path.div "/tmp/conversions" (ConversionJob.converted_filename j))) j.

(** what a submission leaves untouched whenever it gets as far as
    constructing its job *)
Definition submission_frame (w w' : World) : Prop :=
  next_ref w' = S (next_ref w)
  ∧ (∀ l, l ≠ next_ref w → heap w' l = heap w l)
  ∧ suspended w' = suspended w
  ∧ uuid_calls w' = S (S (uuid_calls w))
  ∧ clock_calls w' = S (clock_calls w)
  ∧ converter_calls w' = converter_calls w.

(** What a request can do to the world: nothing; remove a job and some
    of its files; or construct a job, save its upload and perhaps store
    and schedule it. *)
Inductive request_effect (w w' : World) : Prop :=
| effect_none :
    w' = w → request_effect w w'
| effect_cleanup job_id job fs :
    conversion_jobs w !! job_id = Some job →
    w' = with_conversion_jobs (delete job_id (conversion_jobs w))
           (with_files fs w) →
    (∀ q, ConversionJob.file_path (heap w job) ≠ Some q →
          ConversionJob.converted_file_path (heap w job) ≠ Some q →
          fs !! q = files w !! q) →
    request_effect w w'
| effect_submission :
    submission_frame w w' →
    ConversionJob.status (heap w' (next_ref w)) = PENDING →
    ConversionJob.download_url (heap w' (next_ref w)) = None →
    (∀ q, ConversionJob.file_path (heap w' (next_ref w)) ≠ Some q →
          files w' !! q = files w !! q) →
    (conversion_jobs w' = conversion_jobs w
     ∧ background_tasks w' = background_tasks w
     ∨ conversion_jobs w'
       = <[ConversionJob.id (heap w' (next_ref w)) := next_ref w]>
           (conversion_jobs w)
       ∧ background_tasks w' = background_tasks w ++ [next_ref w]) →
    request_effect w w'.

(** The invariant of the service. *)
Record Inv (w : World) : Prop := {
  (** the registry holds allocated jobs under their own ids *)
  inv_registry : ∀ job_id l,
    conversion_jobs w !! job_id = Some l →
    (l < next_ref w)%nat ∧ ConversionJob.id (heap w l) = job_id;
  (** no two jobs share an id *)
  inv_ids : ∀ l1 l2,
    (l1 < next_ref w)%nat → (l2 < next_ref w)%nat →
    ConversionJob.id (heap w l1) = ConversionJob.id (heap w l2) → l1 = l2;
  (** a job has at most one task, queued or suspended *)
  inv_nodup : NoDup (background_tasks w ++ (suspended w).*1);
  (** a queued task's job is PENDING *)
  inv_queued : ∀ l,
    l ∈ background_tasks w →
    (l < next_ref w)%nat ∧ ConversionJob.status (heap w l) = PENDING;
  (** a suspended task's job is PROCESSING *)
  inv_running : ∀ l,
    l ∈ (suspended w).*1 →
    (l < next_ref w)%nat ∧ ConversionJob.status (heap w l) = PROCESSING;
  (** [download_url] is set exactly on COMPLETED jobs *)
  inv_url : ∀ l,
    (l < next_ref w)%nat →
    ConversionJob.download_url (heap w l) ≠ None
    ↔ ConversionJob.status (heap w l) = COMPLETED;
  (** a COMPLETED job has a converted path *)
  inv_completed_path : ∀ l,
    (l < next_ref w)%nat →
    ConversionJob.status (heap w l) = COMPLETED →
    is_Some (ConversionJob.converted_file_path (heap w l))
}.

(** A capability writes its output path and no other. *)
Definition writes_output_only (converter_at : nat → Converter) : Prop :=
  ∀ k c input_path output_path fs p,
    output_path ≠ Some p →
    (converter_at k c input_path output_path fs).2 !! p = fs !! p.

(** [Path(p).parent], as a string *)
Definition Path_parent (p : string) : string :=
  Path.str (Path.root p +:+ Py.join "/" (removelast (Path.parts p))).

(** The PDF that LibreOffice leaves for [input_path] in the directory of
    [output_path], which [word_to_pdf] and [excel_to_pdf] then move to
    [output_path]. *)
Definition libreoffice_pdf (input_path output_path : option string)
    : option string :=
  match input_path, output_path with
  | Some i, Some o => Some (Path.div (Path_parent o) (Path.stem i +:+ ".pdf"))
  | _, _ => None
  end.

(** A capability changes no file but its output path and the PDF of
    LibreOffice.  The capabilities of the service are of this kind when
    the libraries are ([service_converter_confined]). *)
Definition confined (converter_at : nat → Converter) : Prop :=
  ∀ k c input_path output_path fs p,
    output_path ≠ Some p →
    libreoffice_pdf input_path output_path ≠ Some p →
    (converter_at k c input_path output_path fs).2 !! p = fs !! p.

(** No job works on the converted path of another: the converted path
    of a job is neither the scratch path, nor the converted path, nor
    the LibreOffice PDF of another job.  The code does not see to this:
    the converted name of a job is the stem of the upload's name
    followed by eight characters of a uuid. *)
Definition distinct_paths (w : World) : Prop :=
  ∀ l1 l2 p,
    (l1 < next_ref w)%nat → (l2 < next_ref w)%nat → l1 ≠ l2 →
    ConversionJob.converted_file_path (heap w l1) = Some p →
    ConversionJob.file_path (heap w l2) ≠ Some p
    ∧ ConversionJob.converted_file_path (heap w l2) ≠ Some p
    ∧ libreoffice_pdf (ConversionJob.file_path (heap w l2))
        (ConversionJob.converted_file_path (heap w l2)) ≠ Some p.

(** The artifact of a COMPLETED job in the registry is on disk, with the
    recorded size. *)
Definition FilesInv (w : World) : Prop :=
  ∀ job_id l,
    conversion_jobs w !! job_id = Some l →
    ConversionJob.status (heap w l) = COMPLETED →
    ∃ p n, ConversionJob.converted_file_path (heap w l) = Some p
           ∧ files w !! p = Some n
           ∧ ConversionJob.converted_file_size (heap w l)
             = Some (Z.of_N (st_size n)).

(** Between two worlds, no allocated job changed its id or moved
    backwards in the life cycle. *)
Definition forward (w w' : World) : Prop :=
  (next_ref w ≤ next_ref w')%nat
  ∧ ∀ l, (l < next_ref w)%nat →
      ConversionJob.id (heap w' l) = ConversionJob.id (heap w l)
      ∧ status_le (ConversionJob.status (heap w l))
          (ConversionJob.status (heap w' l)).

(** the job [l] has left the registry and has no task left *)
Definition retired (l : ref) (w : World) : Prop :=
  (l < next_ref w)%nat
  ∧ (conversion_jobs w !! ConversionJob.id (heap w l)) = None
  ∧ (l ∉ background_tasks w)
  ∧ (l ∉ (suspended w).*1).

Ltac unfold_M :=
  unfold mbind, M_bind, mret, M_ret, fmap, M_fmap, bind, ret, raise,
    try_except, try_finally, get, assign, store, new in *.

(** unfolds [handle_conversion] on a whitelisted extension, up to the
    saving of the upload *)
Ltac start_submission uuid4_at time_at file from_format to_format w Hc :=
  unfold handle_conversion; fold (file_ext (filename file));
  rewrite Hc; cbn [negb];
  unfold generate_unique_filename, uuid4, time_time, save_uploaded_file;
  unfold_M; cbn -[validate_file cleanup_file Path.div];
  fold (scratch_path uuid4_at w file);
  fold (new_job uuid4_at time_at w file from_format to_format).


(** ** A small run of the service, for the examples *)

Module Demo.

Definition blank : Job :=
ConversionJob.mk "" "" "" "" "" PENDING 0 None None 0 None None None None None.

(** [p] names a file directly in the directory [dir] *)
Definition child_of (dir p : string) : bool :=
let name := Py.drop (String.length dir + 1) p in
Py.startswith (dir +:+ "/") p && free_of "/" name
&& negb (String.eqb name "").

(** A machine with the directory [/tmp/conversions] and no directory
  inside it: a file can be opened for writing when it is named
  directly in [/tmp/conversions] or in [/tmp] and no directory is in
  its place. *)
Definition os : OS :=
{| open_error := λ p fs,
     if child_of "/tmp/conversions" p || child_of "/tmp" p
     then match fs !! p with
          | Some n =>
              if is_dir n
              then Some ("[Errno 21] Is a directory: '" +:+ p +:+ "'")
              else None
          | None => None
          end
     else Some ("[Errno 2] No such file or directory: '" +:+ p +:+ "'");
   stat_error := λ p _,
     "[Errno 2] No such file or directory: '" +:+ p +:+ "'" |}.

(** the service at start-up, on an empty directory *)
Definition world : World := Build_World (λ _, blank) 0 ∅ ∅ [] [] 0 0 0 os.

Definition uuid4_at (n : nat) : string :=
match n with
| O => "3f2b8c1e-77aa-4d10-9b6e-5a1c0e9d2f41"
| _ => "9a7d4e52-1c3b-4f68-8e2a-6b0f1d3c5a77"
end.

(** a clock that advances a quarter of a second per reading *)
Definition time_at (n : nat) : Q := Qmake (Z.of_nat n) 4.

(** a capability that leaves [size] bytes at its output path and
  returns true *)
Definition writes (size : N) : nat → Converter :=
λ _ _ _ output_path fs,
  (Ok true,
   match output_path with
   | Some p => <[p := Build_node false size]> fs
   | None => fs
   end).

(** capabilities that fail: by returning false, by raising, and by
  returning true without writing anything *)
Definition returns_false : nat → Converter := λ _ _ _ _ fs, (Ok false, fs).
Definition raises (msg : string) : nat → Converter :=
λ _ _ _ _ fs, (Raise (Exception msg), fs).
Definition writes_nothing : nat → Converter := λ _ _ _ _ fs, (Ok true, fs).

Definition upload : UploadFile :=
{| filename := "notes.txt"; content_length := 10240 |}.

Definition big_upload : UploadFile :=
{| filename := "thesis.docx"; content_length := 60 * 1024 * 1024 |}.


Definition job_id : string := "9a7d4e52-1c3b-4f68-8e2a-6b0f1d3c5a77".

Definition converted_path : string := "/tmp/conversions/notes_3f2b8c1e.pdf".

(** after [POST /txt-to-pdf] *)
Definition submitted : World :=
(serve uuid4_at time_at (PostTxtToPdf upload) world).2.

(** after the task ran to its [await] *)
Definition started : World := start_task time_at 0 [] [] submitted.

(** after the task ended, the capability having written [size] bytes *)
Definition completed (size : N) : World :=
resume_task time_at (writes size) 0 (time_at 1) [] [] started.

(** after [DELETE /cleanup] while the task was suspended *)
Definition cleaned : World :=
(serve uuid4_at time_at (DeleteCleanup job_id) started).2.

(** and after the task then ended *)
Definition resurrected (size : N) : World :=
resume_task time_at (writes size) 0 (time_at 1) [] [] cleaned.

(** the same world with the directory emptied behind the service's back *)
Definition artifact_lost : World := with_files ∅ (completed 2048).

Definition renamed_upload : UploadFile :=
{| filename := "setup.exe"; content_length := 1024 |}.

End Demo.


(** ** Further notions: the routes, the outcome fields, the scheduler *)

(** the response of an accepted submission, from the record of its job *)
Definition started_response (j : Job) : ConversionResponse :=
  {| resp_success := true;
     resp_job_id := ConversionJob.id j;
     resp_original_filename := ConversionJob.original_filename j;
     resp_converted_filename := ConversionJob.converted_filename j;
     resp_file_size := ConversionJob.file_size j;
     resp_converted_file_size := None;
     resp_conversion_time := None;
     resp_download_url := "/api/download/" +:+ ConversionJob.id j;
     resp_message := "Conversion started successfully" |}.

(** the error of a submission whose upload cannot be written, [msg]
    being the text of the exception [open] raised *)
Definition unwritable (msg : string) : exn :=
  HTTPException 500 ("Conversion failed: " +:+ msg).

(** The capability the jobs of a route are converted by: what
    [process_conversion] calls for the formats the route hands to
    [handle_conversion]. *)
Definition route_capability (r : request) : option capability :=
  match r with
  | PostWordToPdf _ => Some word_to_pdf
  | PostPdfToWord _ => Some pdf_to_word
  | PostTxtToPdf _ => Some text_to_pdf
  | PostImageToPdf _ => Some image_to_pdf
  | PostExcelToPdf _ => Some excel_to_pdf
  | _ => None
  end.

(** the extension of the files a route produces *)
Definition route_suffix (r : request) : string :=
  match r with
  | PostPdfToWord _ => ".docx"
  | _ => ".pdf"
  end.

(** The capability [process_conversion] calls for a pair of formats
    (lines 43-52), if it has one. *)
Definition capability_for (from_format to_format : string)
    : option capability :=
  if String.eqb from_format "word" && String.eqb to_format "pdf"
  then Some word_to_pdf
  else if String.eqb from_format "pdf" && String.eqb to_format "word"
  then Some pdf_to_word
  else if String.eqb from_format "txt" && String.eqb to_format "pdf"
  then Some text_to_pdf
  else if String.eqb from_format "image" && String.eqb to_format "pdf"
  then Some image_to_pdf
  else if String.eqb from_format "excel" && String.eqb to_format "pdf"
  then Some excel_to_pdf
  else None.

(** The fields that describe the outcome of a job are set by the end of
    its task and by nothing else. *)
Record Outcome (w : World) : Prop := {
  out_error_message : ∀ l,
    (l < next_ref w)%nat →
    ConversionJob.error_message (heap w l) ≠ None
    ↔ ConversionJob.status (heap w l) = FAILED;
  out_converted_file_size : ∀ l,
    (l < next_ref w)%nat →
    ConversionJob.converted_file_size (heap w l) ≠ None
    ↔ ConversionJob.status (heap w l) = COMPLETED;
  out_conversion_time : ∀ l,
    (l < next_ref w)%nat →
    ConversionJob.conversion_time (heap w l) ≠ None
    ↔ ConversionJob.status (heap w l) = COMPLETED;
  out_completed_at : ∀ l,
    (l < next_ref w)%nat →
    ConversionJob.completed_at (heap w l) ≠ None
    ↔ terminal (ConversionJob.status (heap w l))
}.

(** The status of a job mirrors where its task is: a PENDING job of the
    registry has its task in the queue, a PROCESSING job has its
    coroutine suspended, and a job with a task has both its paths. *)
Record Scheduled (w : World) : Prop := {
  sched_pending : ∀ job_id l,
    conversion_jobs w !! job_id = Some l →
    ConversionJob.status (heap w l) = PENDING → l ∈ background_tasks w;
  sched_processing : ∀ l,
    (l < next_ref w)%nat →
    ConversionJob.status (heap w l) = PROCESSING → l ∈ (suspended w).*1;
  sched_paths : ∀ l,
    l ∈ background_tasks w ++ (suspended w).*1 →
    is_Some (ConversionJob.file_path (heap w l))
    ∧ is_Some (ConversionJob.converted_file_path (heap w l))
}.

(** a capability that never raises *)
Definition never_raises (converter_at : nat → Converter) : Prop :=
  ∀ k c input_path output_path fs,
    ∃ b, (converter_at k c input_path output_path fs).1 = Ok b.

(** every FAILED job carries the message of the [else] branch *)
Definition plain_failures (w : World) : Prop :=
  ∀ l, (l < next_ref w)%nat →
    ConversionJob.status (heap w l) = FAILED →
    ConversionJob.error_message (heap w l) = Some "Conversion failed".

(** the events of the background tasks *)
Definition task_event (e : event) : bool :=
  match e with
  | Request _ => false
  | TaskStart _ | TaskResume _ => true
  end.

(** the fields of a record that are its input: all but the status and
    the outcome *)
Definition same_inputs (j j' : Job) : Prop :=
  ConversionJob.id j' = ConversionJob.id j
  ∧ ConversionJob.original_filename j' = ConversionJob.original_filename j
  ∧ ConversionJob.converted_filename j' = ConversionJob.converted_filename j
  ∧ ConversionJob.from_format j' = ConversionJob.from_format j
  ∧ ConversionJob.to_format j' = ConversionJob.to_format j
  ∧ ConversionJob.file_size j' = ConversionJob.file_size j
  ∧ ConversionJob.created_at j' = ConversionJob.created_at j
  ∧ ConversionJob.file_path j' = ConversionJob.file_path j
  ∧ ConversionJob.converted_file_path j' = ConversionJob.converted_file_path j.



(** ** services/conversion_service.py: the converters

    The converters call LibreOffice, python-docx, reportlab, PyPDF2, PIL
    and openpyxl.  Each of these calls is an oracle here: a function of
    its arguments and the file system that returns a value or raises,
    and leaves a file system behind.  What the service itself computes
    (the paths, the story of a PDF, the body of a Word document, the
    drawing of a workbook) and the order of the calls are modelled as
    they are written.  A document or a canvas is built in memory and
    reaches the disk when it is saved, so the calls that build it are
    one oracle with the call that saves it; what is printed is not
    modelled. *)

(** *** More of [str] *)

Module PyStr.

Definition LF : ascii := "010"%char.

(** [c.isspace()] for a code point below 256 *)
Definition isspace (c : ascii) : bool :=
  let n := nat_of_ascii c in
  ((9 <=? n) && (n <=? 13) || (28 <=? n) && (n <=? 32)
   || (n =? 133) || (n =? 160))%nat.

(** [s.lstrip()], [s.rstrip()], [s.strip()] *)
Fixpoint lstrip (s : string) : string :=
  match s with
  | String c s' => if isspace c then lstrip s' else s
  | EmptyString => EmptyString
  end.

Fixpoint rstrip (s : string) : string :=
  match s with
  | String c s' =>
      match rstrip s' with
      | EmptyString => if isspace c then EmptyString else String c EmptyString
      | r => String c r
      end
  | EmptyString => EmptyString
  end.

Definition strip (s : string) : string := rstrip (lstrip s).

(** truthiness of a [str] *)
Definition truthy (s : string) : bool := negb (String.eqb s "").

(** [s.split(sep)] for a separator that is not empty: the text is
    scanned from the left, and [skip] characters of a separator that
    was found are still to be passed over *)
Fixpoint split_from (sep : string) (skip : nat) (s : string) : list string :=
  match s with
  | EmptyString => [EmptyString]
  | String c s' =>
      match skip with
      | S k => split_from sep k s'
      | O =>
          if String.prefix sep s
          then EmptyString :: split_from sep (String.length sep - 1) s'
          else match split_from sep 0 s' with
               | h :: t => String c h :: t
               | [] => [String c EmptyString]
               end
      end
  end.

Definition split (sep s : string) : list string := split_from sep 0 s.

(** [s.replace(ch, new)] for a one-character [ch] *)
Fixpoint replace (ch : ascii) (new : string) (s : string) : string :=
  match s with
  | EmptyString => EmptyString
  | String c s' =>
      if Ascii.eqb c ch then new +:+ replace ch new s'
      else String c (replace ch new s')
  end.

(** the separator of paragraphs, two line feeds *)
Definition blank_line : string := String LF (String LF EmptyString).

End PyStr.

(** *** What the libraries are handed *)

(** a paragraph of a Word document: [para.text], [para.style.name] *)
Record docx_paragraph := { para_text : string; style_name : string }.

(** the flowables of a reportlab story *)
Inductive flowable :=
| Paragraph (text : string) (style : string)
| Spacer (width height : Z).

(** what is added to a new Word document *)
Inductive docx_block :=
| add_page_break
| add_paragraph (text : string).

(** the drawing operations on a reportlab canvas; coordinates are
    Python floats, taken as exact rationals *)
Inductive canvas_op :=
| setFont (name : string) (size : Z)
| drawString (x y : Q) (text : string)
| showPage.

(** a workbook read with [data_only=True]: its sheets in order, each
    with its title and its rows of cells, a cell being [None] or the
    [str] of its value *)
Definition workbook : Type := list (string * list (list (option string))).

(** [workbook.sheetnames] and [workbook[sheet_name]] *)
Definition sheetnames (wb : workbook) : list string := wb.*1.

Fixpoint getitem (wb : workbook) (sheet_name : string)
    : list (list (option string)) :=
  match wb with
  | [] => []
  | (title, rows) :: wb' =>
      if String.eqb title sheet_name then rows else getitem wb' sheet_name
  end.

(** [reportlab.lib.pagesizes.A4]: 210 mm by 297 mm, in points *)
Definition mm : Q := 360 # 127.
Definition A4 : Q * Q := (210 * mm, 297 * mm)%Q.

(** a call of a library: from the file system to a result and a file
    system *)
Definition External (A : Type) : Type :=
  gmap string node → result A * gmap string node.

Record Libraries := {
  (** [platform.system()] *)
  platform_system : string;
  (** [subprocess.run(args, capture_output=True, text=True, timeout=60)
      .returncode] *)
  subprocess_run : list (option string) → External Z;
  (** [Document(input_path).paragraphs] *)
  Document : option string → External (list docx_paragraph);
  (** [SimpleDocTemplate(output_path, pagesize=A4)], the flowables, and
      [pdf_doc.build(story)] *)
  SimpleDocTemplate_build : option string → list flowable → External unit;
  (** [open(input_path, 'rb')], [PyPDF2.PdfReader(file)] and
      [page.extract_text()] of each page *)
  PdfReader_pages : option string → External (list string);
  (** [Document()], what is added to it, and [doc.save(output_path)] *)
  Document_save : list docx_block → option string → External unit;
  (** [aiofiles.open(input_path, 'r', encoding='utf-8')] and [f.read()] *)
  aiofiles_read : option string → External string;
  (** PIL images: [Image.open(path)], [image.mode],
      [image.convert(mode)], and [image.save(output_path, "PDF")] with
      [save_all] and [append_images] *)
  Image : Type;
  Image_open : option string → External Image;
  Image_mode : Image → string;
  Image_convert : Image → string → result Image;
  Image_save : Image → option string → bool → list Image → External unit;
  (** [openpyxl.load_workbook(input_path, data_only=True)] and the
      values of its cells *)
  load_workbook : option string → External workbook;
  (** [canvas.Canvas(output_path, pagesize=A4)], what is drawn on it,
      and [c.save()] *)
  Canvas_save : option string → list canvas_op → External unit
}.

(** a library call inside the service *)
Definition call {A} (f : External A) : M A :=
  λ w, let '(r, fs) := f (files w) in (r, with_files fs w).

(** a value or an exception, inside the service *)
Definition lift {A} (r : result A) : M A := λ w, (r, w).

(** [Path(p)]: [None] is a TypeError *)
Definition PurePath (p : option string) : M string :=
  match p with
  | Some s => mret s
  | None => raise (Exception
      "expected str, bytes or os.PathLike object, not NoneType")
  end.

(** [xs[i]] *)
Definition index {A} (xs : list A) (i : nat) : M A :=
  match xs !! i with
  | Some x => mret x
  | None => raise (Exception "list index out of range")
  end.

(** [os.rename(src, dst)]: the entry at [src] moves to [dst] and
    replaces what is there; a file does not replace a directory, nor a
    directory a file.  (A directory holds nothing in this model.) *)
Definition os_rename (src : string) (dst : option string) : M unit :=
  match dst with
  | None => raise (Exception
      "rename: dst should be string, bytes or os.PathLike, not NoneType")
  | Some d => λ w,
      match files w !! src with
      | None => (Raise (Exception
          ("[Errno 2] No such file or directory: '" +:+ src +:+ "' -> '"
             +:+ d +:+ "'")), w)
      | Some n =>
          match files w !! d with
          | Some m =>
              if is_dir m && negb (is_dir n)
              then (Raise (Exception
                      ("[Errno 21] Is a directory: '" +:+ src +:+ "' -> '"
                         +:+ d +:+ "'")), w)
              else if negb (is_dir m) && is_dir n
              then (Raise (Exception
                      ("[Errno 20] Not a directory: '" +:+ src +:+ "' -> '"
                         +:+ d +:+ "'")), w)
              else (Ok (), with_files (<[d := n]> (delete src (files w))) w)
          | None => (Ok (), with_files (<[d := n]> (delete src (files w))) w)
          end
      end
  end.

(** *** What the service computes *)

(** [_manual_word_to_pdf], lines 93-106: the story of a Word document *)
Definition word_story (paragraphs : list docx_paragraph) : list flowable :=
  flat_map
    (λ para,
       if PyStr.truthy (PyStr.strip (para_text para))
       then [Paragraph (para_text para)
               (if Py.startswith "Heading" (style_name para)
                then "Heading1" else "Normal");
             Spacer 1 6]
       else [])
    paragraphs.

(** [_manual_pdf_to_word], lines 134-144: the body of the Word document,
    from the text of the pages; [first] tells whether the page is the
    first one ([i == 0]) *)
Definition page_paragraphs (page_text : string) : list docx_block :=
  flat_map
    (λ para_text,
       if PyStr.truthy (PyStr.strip para_text)
       then [add_paragraph (PyStr.strip para_text)]
       else [])
    (PyStr.split PyStr.blank_line page_text).

Fixpoint docx_pages (first : bool) (text_content : list string)
    : list docx_block :=
  match text_content with
  | [] => []
  | page_text :: rest =>
      (if first then [] else [add_page_break])
        ++ page_paragraphs page_text ++ docx_pages false rest
  end.

Definition docx_body (text_content : list string) : list docx_block :=
  docx_pages true text_content.

(** [text_to_pdf], lines 159-175: the story of a text *)
Definition text_story (text_content : string) : list flowable :=
  let paragraphs := PyStr.split PyStr.blank_line text_content in
  let story :=
    flat_map
      (λ para_text,
         if PyStr.truthy (PyStr.strip para_text)
         then [Paragraph (PyStr.replace PyStr.LF "<br/>" para_text) "Normal";
               Spacer 1 12]
         else [])
      paragraphs in
  match story with
  | [] => [Paragraph (PyStr.replace PyStr.LF "<br/>" text_content) "Normal"]
  | _ => story
  end.

(** [_manual_excel_to_pdf], lines 273-278: the cells of a row *)
Fixpoint draw_cells (x_position y_position : Q) (row : list (option string))
    : list canvas_op :=
  match row with
  | [] => []
  | cell_value :: row' =>
      match cell_value with
      | Some text => [drawString x_position y_position (Py.slice_to 20 text)]
      | None => []
      end ++ draw_cells (x_position + 100) y_position row'
  end.

(** lines 268-283: the rows of a sheet, from the row [row_idx] on; the
    drawing and the [y_position] it ends at *)
Fixpoint draw_rows (height : Q) (row_idx : Z) (y_position : Q)
    (rows : list (list (option string))) : list canvas_op * Q :=
  match rows with
  | [] => ([], y_position)
  | row :: rows' =>
      let new_page := negb (Qle_bool 50 y_position) in
      let y := if new_page then (height - 50)%Q else y_position in
      let ops := (if new_page then [showPage] else []) ++ draw_cells 50 y row in
      let y := (y - 15)%Q in
      if 100 <? row_idx then (ops, y)
      else let '(rest, y') := draw_rows height (row_idx + 1) y rows' in
           (ops ++ rest, y')
  end.

(** lines 257-288: the sheets named [names] of the workbook [wb] *)
Fixpoint draw_sheets (height : Q) (wb : workbook) (y_position : Q)
    (names : list string) : list canvas_op :=
  match names with
  | [] => []
  | sheet_name :: names' =>
      let sheet := getitem wb sheet_name in
      let title :=
        [setFont "Helvetica-Bold" 16;
         drawString 50 y_position ("Sheet: " +:+ sheet_name)] in
      let '(body, y) := draw_rows height 0 (y_position - 30)%Q sheet in
      let last_sheet :=
        String.eqb sheet_name (List.last (sheetnames wb) "") in
      title ++ [setFont "Helvetica" 10] ++ body
        ++ (if last_sheet then [] else [showPage])
        ++ draw_sheets height wb
             (if last_sheet then y else (height - 50)%Q) names'
  end.

(** lines 252-288: what is drawn for a workbook *)
Definition excel_canvas (wb : workbook) : list canvas_op :=
  let height := A4.2 in
  draw_sheets height wb (height - 50)%Q (sheetnames wb).

(** *** The converters *)

Module ConversionService.

Section Converters.

Variable lib : Libraries.

(** the call of LibreOffice of [word_to_pdf] and [excel_to_pdf] *)
Definition libreoffice (input_path output_path : option string) : M Z :=
  out ← PurePath output_path;
  call (subprocess_run lib
          [Some "libreoffice"; Some "--headless"; Some "--convert-to";
           Some "pdf"; Some "--outdir"; Some (Path_parent out); input_path]).

(** LibreOffice names the PDF after the input; it is moved to the
    output path if it is there and is not the output path *)
Definition move_generated_pdf (input_path output_path : option string)
  : M unit :=
  inp ← PurePath input_path;
  let input_base := Path.stem inp in
  out ← PurePath output_path;
  let generated_pdf := Path.div (Path_parent out) (input_base +:+ ".pdf") in
  e ← os_path_exists (Some generated_pdf);
  if e && negb (String.eqb generated_pdf out)
  then os_rename generated_pdf output_path
  else mret ().

Definition _manual_word_to_pdf (input_path output_path : option string)
  : M unit :=
  paragraphs ← call (Document lib input_path);
  call (SimpleDocTemplate_build lib output_path (word_story paragraphs)).

Definition word_to_pdf (input_path output_path : option string) : M bool :=
  try_except
    (returncode ← libreoffice input_path output_path;
     (if returncode =? 0
      then move_generated_pdf input_path output_path
      else _manual_word_to_pdf input_path output_path);;
     os_path_exists output_path)
    (λ _, mret false).

Definition _manual_pdf_to_word (input_path output_path : option string)
  : M unit :=
  text_content ← call (PdfReader_pages lib input_path);
  call (Document_save lib (docx_body text_content) output_path).

Definition pdf_to_word (input_path output_path : option string) : M bool :=
  try_except
    (_manual_pdf_to_word input_path output_path;;
     os_path_exists output_path)
    (λ _, mret false).

Definition text_to_pdf (input_path output_path : option string) : M bool :=
  try_except
    (text_content ← call (aiofiles_read lib input_path);
     call (SimpleDocTemplate_build lib output_path (text_story text_content));;
     mret true)
    (λ _, mret false).

(** [Image.open(path)], converted to RGB if it is not *)
Definition open_rgb (path : option string) : M (Image lib) :=
  image ← call (Image_open lib path);
  if negb (String.eqb (Image_mode lib image) "RGB")
  then lift (Image_convert lib image "RGB")
  else mret image.

Fixpoint open_all (input_paths : list (option string))
  : M (list (Image lib)) :=
  match input_paths with
  | [] => mret []
  | img_path :: rest =>
      img ← open_rgb img_path;
      images ← open_all rest;
      mret (img :: images)
  end.

Definition image_to_pdf (input_paths : list (option string))
    (output_path : option string) : M bool :=
  try_except
    ((if (length input_paths =? 1)%nat
      then
        path ← index input_paths 0;
        image ← open_rgb path;
        call (Image_save lib image output_path false [])
      else
        images ← open_all input_paths;
        first ← index images 0;
        call (Image_save lib first output_path true (List.tl images)));;
     mret true)
    (λ _, mret false).

Definition _manual_excel_to_pdf (input_path output_path : option string)
  : M unit :=
  wb ← call (load_workbook lib input_path);
  call (Canvas_save lib output_path (excel_canvas wb)).

(** The [return] inside the [if] leaves the function; [None] stands
    for falling through to the manual conversion. *)
Definition excel_libreoffice (input_path output_path : option string)
  : M (option bool) :=
  if negb (String.eqb (platform_system lib) "Windows")
  then
    returncode ← libreoffice input_path output_path;
    if returncode =? 0
    then move_generated_pdf input_path output_path;;
         e ← os_path_exists output_path;
         mret (Some e)
    else mret None
  else mret None.

Definition excel_to_pdf (input_path output_path : option string) : M bool :=
  try_except
    (returned ← excel_libreoffice input_path output_path;
     match returned with
     | Some e => mret e
     | None =>
         _manual_excel_to_pdf input_path output_path;;
         mret true
     end)
    (λ _, mret false).

End Converters.

End ConversionService.

(** The converters do not ask the operating system of the world, so any
    stands in for it. *)
Definition no_os : OS :=
  {| open_error := λ _ _, None; stat_error := λ _ _, "" |}.

(** a world with these files and nothing else *)
Definition only_files (fs : gmap string node) : World :=
  Build_World
    (λ _, ConversionJob.mk "" "" "" "" "" PENDING 0 None None 0 None None
            None None None)
    0 ∅ fs [] [] 0 0 0 no_os.

(** The capabilities [process_conversion] awaits, as the service
    implements them over the libraries [lib]; the image capability is
    called with the list [[job.file_path]]. *)
Definition service_converter (lib : Libraries) : Converter :=
  λ c input_path output_path fs,
    let run (m : M bool) := let '(r, w) := m (only_files fs) in (r, files w) in
    match c with
    | word_to_pdf =>
        run (ConversionService.word_to_pdf lib input_path output_path)
    | pdf_to_word =>
        run (ConversionService.pdf_to_word lib input_path output_path)
    | text_to_pdf =>
        run (ConversionService.text_to_pdf lib input_path output_path)
    | image_to_pdf =>
        run (ConversionService.image_to_pdf lib [input_path] output_path)
    | excel_to_pdf =>
        run (ConversionService.excel_to_pdf lib input_path output_path)
    end.

(** [m] leaves what is at the path [p] as it is *)
Definition keeps {A} (p : string) (m : M A) : Prop :=
  ∀ w, files (m w).2 !! p = files w !! p.

(** Libraries that keep to their files: a library that reads leaves the
    file system as it is, a library that writes changes nothing but the
    path it is given, and LibreOffice changes nothing but the PDF it
    names after its input in the output directory. *)
Record well_behaved (lib : Libraries) : Prop := {
  subprocess_run_frame : ∀ outdir input_path fs p,
    (∀ i, input_path = Some i →
          p ≠ Path.div outdir (Path.stem i +:+ ".pdf")) →
    (subprocess_run lib
       [Some "libreoffice"; Some "--headless"; Some "--convert-to";
        Some "pdf"; Some "--outdir"; Some outdir; input_path] fs).2 !! p
    = fs !! p;
  Document_frame : ∀ input_path fs,
    (Document lib input_path fs).2 = fs;
  SimpleDocTemplate_build_frame : ∀ output_path story fs p,
    output_path ≠ Some p →
    (SimpleDocTemplate_build lib output_path story fs).2 !! p = fs !! p;
  PdfReader_pages_frame : ∀ input_path fs,
    (PdfReader_pages lib input_path fs).2 = fs;
  Document_save_frame : ∀ body output_path fs p,
    output_path ≠ Some p →
    (Document_save lib body output_path fs).2 !! p = fs !! p;
  aiofiles_read_frame : ∀ input_path fs,
    (aiofiles_read lib input_path fs).2 = fs;
  Image_open_frame : ∀ path fs, (Image_open lib path fs).2 = fs;
  Image_save_frame : ∀ image output_path save_all append_images fs p,
    output_path ≠ Some p →
    (Image_save lib image output_path save_all append_images fs).2 !! p
    = fs !! p;
  load_workbook_frame : ∀ input_path fs,
    (load_workbook lib input_path fs).2 = fs;
  Canvas_save_frame : ∀ output_path ops fs p,
    output_path ≠ Some p →
    (Canvas_save lib output_path ops fs).2 !! p = fs !! p
}.

(** *** Notions the statements about the converters use *)

(** a text of white space only *)
Fixpoint all_space (s : string) : bool :=
  match s with
  | EmptyString => true
  | String c s' => PyStr.isspace c && all_space s'
  end.

Definition is_page_break (b : docx_block) : bool :=
  match b with
  | add_page_break => true
  | add_paragraph _ => false
  end.

(** a paragraph of a story holds no line feed, and is in the style
    [style]; a spacer has the height [height] *)
Definition flowable_ok (style : string) (height : Z) (f : flowable) : Prop :=
  match f with
  | Paragraph text style' => free_of PyStr.LF text = true ∧ style' = style
  | Spacer w h => w = 1 ∧ h = height
  end.

(** a text is drawn inside the top and bottom margins of a page of the
    height [height], at or right of the left margin *)
Definition on_page (height : Q) (op : canvas_op) : Prop :=
  match op with
  | drawString x y _ => (50 <= x)%Q ∧ (50 <= y)%Q ∧ (y <= height - 50)%Q
  | _ => True
  end.

(** the text of a cell is drawn cut to twenty characters *)
Definition cut_to_20 (op : canvas_op) : Prop :=
  match op with
  | drawString _ _ text => (String.length text ≤ 20)%nat
  | _ => True
  end.

Definition is_drawString (op : canvas_op) : bool :=
  match op with
  | drawString _ _ _ => true
  | _ => false
  end.

(** the cells of the rows that are not [None] *)
Definition filled_cells (rows : list (list (option string))) : list string :=
  omap id (concat rows).

(** a workbook with the rows after the 102nd removed from every sheet *)
Definition first_102_rows (wb : workbook) : workbook :=
  prod_map id (take 102) <$> wb.


(** ** A second run, with two jobs, and libraries that work *)

Module Sample.

Definition uuid4_at (n : nat) : string :=
match n with
| 0%nat => "3f2b8c1e-77aa-4d10-9b6e-5a1c0e9d2f41"
| 1%nat => "9a7d4e52-1c3b-4f68-8e2a-6b0f1d3c5a77"
| 2%nat => "c41d7a90-52be-4e0c-a1f3-08d2b6e7c915"
| _ => "e0b6f3a2-9d14-47c8-b5a6-3c7f1e2d4b80"
end.

Definition report : UploadFile :=
{| filename := "report.docx"; content_length := 20480 |}.

Definition second_id : string := "e0b6f3a2-9d14-47c8-b5a6-3c7f1e2d4b80".

(** after [POST /txt-to-pdf] and [POST /word-to-pdf] *)
Definition one_submitted : World :=
(serve uuid4_at Demo.time_at (PostTxtToPdf Demo.upload) Demo.world).2.

Definition two_submitted : World :=
(serve uuid4_at Demo.time_at (PostWordToPdf report) one_submitted).2.

(** after the task of the first job ran to its [await], and to its end *)
Definition first_started : World :=
start_task Demo.time_at 0 [] [1%nat] two_submitted.

Definition first_completed : World :=
resume_task Demo.time_at (Demo.writes 2048) 0 (Demo.time_at 2) [] []
  first_started.

(** after [DELETE /cleanup] of the second job *)
Definition second_cleaned : World :=
(cleanup_conversion_files second_id first_completed).2.

(** the state in which the capability of the first job of [Demo]
  answered False *)
Definition failed : World :=
resume_task Demo.time_at Demo.returns_false 0 (Demo.time_at 1) [] []
  Demo.started.

(** a job with formats no route submits *)
Definition odd_job : Job :=
ConversionJob.mk "0d4c2b1a-6e5f-4a3b-9c8d-7e6f5a4b3c2d" "notes.pdf"
  "notes_0d4c2b1a.txt" "pdf" "txt" PENDING 512 None None 0 None None None
  (Some "/tmp/conversions/0d4c2b1a_notes.pdf")
  (Some "/tmp/conversions/notes_0d4c2b1a.txt").

Definition odd_world : World :=
Build_World (λ _, odd_job) 1 ∅ ∅ [0%nat] [] 0 0 0 Demo.os.

Definition sales : workbook :=
[("Q1", [[Some "region"; Some "units"; None];
         [Some "north"; Some "1200"; Some "a remark that is longer than twenty characters"]]);
 ("Q2", [[Some "region"; Some "units"]; []; [Some "south"; Some "900"]])].

Definition written (output_path : option string) (size : N)
  (fs : gmap string node) : gmap string node :=
match output_path with
| Some p => <[p := Build_node false size]> fs
| None => fs
end.

(** An installation on which every library does its work: LibreOffice
  leaves a PDF named after its input in the output directory, and the
  writers leave a file at the path they are given. *)
Definition lib : Libraries :=
{| platform_system := "Linux";
   subprocess_run := λ args fs,
     (Ok 0,
      match args !! 5%nat, args !! 6%nat with
      | Some (Some outdir), Some (Some input_path) =>
          written (Some (Path.div outdir (Path.stem input_path +:+ ".pdf")))
            4096 fs
      | _, _ => fs
      end);
   Document := λ _ fs,
     (Ok [{| para_text := "Minutes"; style_name := "Heading 1" |};
          {| para_text := "   "; style_name := "Normal" |};
          {| para_text := "Agreed."; style_name := "Normal" |}], fs);
   SimpleDocTemplate_build := λ output_path _ fs,
     (Ok (), written output_path 1024 fs);
   PdfReader_pages := λ _ fs, (Ok ["Page one"; ""; " Page three "], fs);
   Document_save := λ _ output_path fs,
     (Ok (), written output_path 3072 fs);
   aiofiles_read := λ _ fs, (Ok "first line", fs);
   Image := string;
   Image_open := λ _ fs, (Ok "P", fs);
   Image_mode := λ mode, mode;
   Image_convert := λ _ mode, Ok mode;
   Image_save := λ _ output_path _ _ fs,
     (Ok (), written output_path 2048 fs);
   load_workbook := λ _ fs, (Ok sales, fs);
   Canvas_save := λ output_path _ fs, (Ok (), written output_path 512 fs) |}.

(** the capabilities of the service, over these libraries *)
Definition converters : nat → Converter := λ _, service_converter lib.

(** The run of the two jobs with the capabilities of the service: the
  task of the first job ends, then the task of the second job runs to
  its [await] and ends. *)
Definition first_converted : World :=
resume_task Demo.time_at converters 0 (Demo.time_at 2) [] [] first_started.

Definition second_started : World :=
start_task Demo.time_at 1 [] [] first_converted.

Definition second_converted : World :=
resume_task Demo.time_at converters 1 (Demo.time_at 5) [] [] second_started.

(** after [DELETE /cleanup] of the first job *)
Definition first_cleaned : World :=
(cleanup_conversion_files Demo.job_id second_converted).2.

Definition docx : string := "/tmp/conversions/9a7d4e52_report.docx".
Definition pdf : string := "/tmp/conversions/report_3f2b8c1e.pdf".
Definition generated_pdf : string := "/tmp/conversions/9a7d4e52_report.pdf".

End Sample.

(** ** A run in which two jobs share their converted path *)

Module Clash.

(** four uuids, all different, the first and the third with the same
  first eight characters *)
Definition uuid4_at (n : nat) : string :=
match n with
| 0%nat => "3f2b8c1e-77aa-4d10-9b6e-5a1c0e9d2f41"
| 1%nat => "9a7d4e52-1c3b-4f68-8e2a-6b0f1d3c5a77"
| 2%nat => "3f2b8c1e-0c55-4b7e-a9d1-6e2f8a4c7b13"
| _ => "e0b6f3a2-9d14-47c8-b5a6-3c7f1e2d4b80"
end.

(** after [POST /txt-to-pdf] of [notes.txt], twice *)
Definition one_submitted : World :=
(serve uuid4_at Demo.time_at (PostTxtToPdf Demo.upload) Demo.world).2.

Definition two_submitted : World :=
(serve uuid4_at Demo.time_at (PostTxtToPdf Demo.upload) one_submitted).2.

(** after the task of the first job ran to its [await], and to its end *)
Definition first_started : World :=
start_task Demo.time_at 0 [] [1%nat] two_submitted.

Definition first_converted : World :=
resume_task Demo.time_at Sample.converters 0 (Demo.time_at 2) [] []
  first_started.

(** after [DELETE /cleanup] of the second job *)
Definition second_cleaned : World :=
(serve uuid4_at Demo.time_at (DeleteCleanup Sample.second_id)
   first_converted).2.

End Clash.



(** ** Strings and paths *)

Section Strings.

Implicit Types s t pre : string.

Lemma append_nil_l s : "" +:+ s = s.
Proof. reflexivity. Qed.

Lemma append_cons c s t : String c s +:+ t = String c (s +:+ t).
Proof. reflexivity. Qed.

Lemma append_assoc s t u : (s +:+ t) +:+ u = s +:+ t +:+ u.
Proof.
  induction s as [|c s IH]; [done|]. by rewrite !append_cons, IH.
Qed.

Lemma append_eq_nil s t : s +:+ t = "" → s = "" ∧ t = "".
Proof. destruct s; [done | discriminate]. Qed.

Lemma len_append s t : Py.len (s +:+ t) = Py.len s + Py.len t.
Proof.
  unfold Py.len. induction s as [|c s IH]; [done|].
  rewrite append_cons. simpl String.length. rewrite !Nat2Z.inj_succ. lia.
Qed.

Lemma len_nonneg s : 0 ≤ Py.len s.
Proof. unfold Py.len. lia. Qed.


Lemma rfind_append ch pre s :
  0 ≤ Py.rfind ch s →
  Py.rfind ch (pre +:+ s) = Py.len pre + Py.rfind ch s.
Proof.
  intros Hs. unfold Py.len.
  induction pre as [|c pre IH]; [rewrite append_nil_l; simpl; lia|].
  rewrite append_cons. simpl. rewrite IH, Nat2Z.inj_succ.
  destruct (Z.leb_spec 0 (Z.of_nat (String.length pre) + Py.rfind ch s)); lia.
Qed.

Lemma drop_append pre s n :
  Py.drop (String.length pre + n) (pre +:+ s) = Py.drop n s.
Proof. induction pre as [|c pre IH]; [done|]. by rewrite append_cons. Qed.

Lemma slice_from_append pre s i :
  0 ≤ i → Py.slice_from (Py.len pre + i) (pre +:+ s) = Py.slice_from i s.
Proof.
  intros Hi. unfold Py.slice_from, Py.len.
  rewrite Z2Nat.inj_add, Nat2Z.id by lia. apply drop_append.
Qed.


Lemma split_not_nil sep s : Py.split sep s ≠ [].
Proof.
  destruct s as [|c s]; simpl; [done|].
  destruct (Ascii.eqb c sep); [done|]. by destruct (Py.split sep s).
Qed.

End Strings.

Section Paths.

Implicit Types s t pre p : string.

Lemma suffix_is_suffix_of_name p : Path.suffix p = suffix_of_name (Path.name p).
Proof. reflexivity. Qed.

Lemma suffix_of_name_append pre name :
  suffix_of_name name ≠ "" →
  suffix_of_name (pre +:+ name) = suffix_of_name name.
Proof.
  unfold suffix_of_name. intros Hne.
  destruct ((0 <? Py.rfind "." name) && (Py.rfind "." name <? Py.len name - 1))
    eqn:E; [|done].
  apply andb_prop in E as [E1%Z.ltb_lt E2%Z.ltb_lt].
  rewrite rfind_append, len_append by lia.
  pose proof (len_nonneg pre).
  replace ((0 <? _) && _) with true.
  - apply slice_from_append. lia.
  - symmetry. apply andb_true_intro. split; apply Z.ltb_lt; lia.
Qed.

Lemma last_filter_cons {A} (f : A → bool) x y l d :
  List.filter f l ≠ [] →
  List.last (List.filter f (x :: l)) d = List.last (List.filter f (y :: l)) d.
Proof.
  intros Hne. simpl.
  destruct (List.filter f l) as [|z l'] eqn:E; [done|].
  by destruct (f x), (f y).
Qed.

Lemma name_cons c s :
  Path.name s ≠ "" → ∃ pre, Path.name (String c s) = pre +:+ Path.name s.
Proof.
  unfold Path.name, Path.parts. intros Hne. cbn [Py.split].
  destruct (Ascii.eqb c "/").
  { by exists "". }
  destruct (Py.split "/" s) as [|h t] eqn:Hs; [by apply split_not_nil in Hs|].
  destruct (List.filter Path.keep t) as [|z t'] eqn:Ht.
  - cbn [List.filter] in *. rewrite Ht in *.
    destruct (Path.keep h) eqn:Hk; [|done]. cbn [List.last] in *.
    assert (Path.keep (String c h) = true) as ->.
    { unfold Path.keep. destruct h as [|c' h]; [done|].
      simpl. by destruct (Ascii.eqb c "."). }
    by exists (String c "").
  - exists "". rewrite append_nil_l.
    apply last_filter_cons. by rewrite Ht.
Qed.

Lemma name_append pre s :
  Path.name s ≠ "" → ∃ pre', Path.name (pre +:+ s) = pre' +:+ Path.name s.
Proof.
  intros Hne. induction pre as [|c pre [pre' IH]].
  { by exists "". }
  rewrite append_cons.
  destruct (name_cons c (pre +:+ s)) as [q Hq].
  { rewrite IH. intros [_ ?]%append_eq_nil. done. }
  exists (q +:+ pre'). by rewrite Hq, IH, append_assoc.
Qed.

Lemma suffix_append pre s :
  Path.suffix s ≠ "" → Path.suffix (pre +:+ s) = Path.suffix s.
Proof.
  rewrite !suffix_is_suffix_of_name. intros Hne.
  destruct (name_append pre s) as [pre' ->].
  { intros E. by rewrite E in Hne. }
  by apply suffix_of_name_append.
Qed.

Lemma split_free sep s : free_of sep s = true → Py.split sep s = [s].
Proof.
  induction s as [|c s IH]; [done|]. cbn [free_of Py.split].
  intros [Hc Hs]%andb_prop. apply negb_true_iff in Hc. rewrite Hc.
  by rewrite IH.
Qed.

Lemma split_elems_free sep s :
  Forall (λ x, free_of sep x = true) (Py.split sep s).
Proof.
  induction s as [|c s IH]; cbn [Py.split]; [by repeat constructor|].
  destruct (Ascii.eqb c sep) eqn:Hc; [by constructor|].
  destruct (Py.split sep s) as [|h t].
  { constructor; [|constructor]. cbn [free_of]. by rewrite Hc. }
  inversion IH; subst. constructor; [|done].
  cbn [free_of]. by rewrite Hc.
Qed.

Lemma split_append_sep sep x rest :
  free_of sep x = true →
  Py.split sep (x +:+ String sep rest) = x :: Py.split sep rest.
Proof.
  induction x as [|c x IH]; cbn [free_of].
  - intros _. rewrite append_nil_l. cbn [Py.split].
    by rewrite Ascii.eqb_refl.
  - intros [Hc Hx]%andb_prop. apply negb_true_iff in Hc.
    rewrite append_cons. cbn [Py.split]. by rewrite Hc, IH.
Qed.

Lemma join_cons sep x y rest :
  Py.join sep (x :: y :: rest) = x +:+ sep +:+ Py.join sep (y :: rest).
Proof. reflexivity. Qed.

Lemma split_join sep xs :
  Forall (λ x, free_of sep x = true) xs → xs ≠ [] →
  Py.split sep (Py.join (String sep "") xs) = xs.
Proof.
  induction 1 as [|x xs Hx Hxs IH]; [done|]. intros _.
  destruct xs as [|y xs]; [by apply split_free|].
  rewrite join_cons, append_cons, append_nil_l, split_append_sep by done.
  by rewrite IH.
Qed.

Lemma parts_join xs :
  Forall (λ x, free_of "/" x = true ∧ Path.keep x = true) xs →
  Path.parts (Py.join "/" xs) = xs.
Proof.
  intros Hxs. unfold Path.parts. destruct xs as [|x xs]; [reflexivity|].
  rewrite split_join; [| |done].
  - induction Hxs as [|y ys [_ Hy] _ IH]; [done|].
    cbn [List.filter]. by rewrite Hy, IH.
  - eapply Forall_impl; [|exact Hxs]. by intros ? [? _].
Qed.

Lemma parts_elems p :
  Forall (λ x, free_of "/" x = true ∧ Path.keep x = true) (Path.parts p).
Proof.
  unfold Path.parts.
  induction (split_elems_free "/" p) as [|x xs Hx _ IH]; [constructor|].
  cbn [List.filter]. destruct (Path.keep x) eqn:Hk; [|done].
  by constructor.
Qed.


Lemma parts_root_append p s :
  Path.parts (Path.root p +:+ s) = Path.parts s.
Proof.
  unfold Path.root.
  repeat match goal with
         | |- context [match ?x with _ => _ end] => destruct x; try done
         end.
Qed.

Lemma parts_str p : Path.parts (Path.str p) = Path.parts p.
Proof.
  unfold Path.str.
  transitivity (Path.parts (Path.root p +:+ Py.join "/" (Path.parts p))).
  { by destruct (Path.root p +:+ Py.join "/" (Path.parts p)). }
  rewrite parts_root_append. apply parts_join, parts_elems.
Qed.

Lemma suffix_str p : Path.suffix (Path.str p) = Path.suffix p.
Proof. unfold Path.suffix, Path.name. by rewrite parts_str. Qed.

Lemma join_is_append a b : ∃ pre, Path.join a b = pre +:+ b.
Proof.
  unfold Path.join.
  destruct (Py.startswith "/" b); [by exists ""|].
  destruct (String.eqb a ""); [by exists ""|].
  destruct (String.eqb _ "/"); [by exists a|].
  exists (a +:+ "/"). by rewrite append_assoc.
Qed.

(** A file saved under [dir / (prefix + filename)] has the suffix of
    [filename], when that has one. *)
Lemma suffix_div dir pre filename :
  Path.suffix filename ≠ "" →
  Path.suffix (Path.div dir (pre +:+ filename)) = Path.suffix filename.
Proof.
  intros Hne. unfold Path.div. rewrite suffix_str.
  destruct (join_is_append dir (pre +:+ filename)) as [q ->].
  rewrite <- append_assoc. by apply suffix_append.
Qed.

Lemma file_ext_div dir pre filename :
  file_ext filename ≠ "" →
  file_ext (Path.div dir (pre +:+ filename)) = file_ext filename.
Proof.
  unfold file_ext. intros Hne. rewrite suffix_div; [done|].
  intros E. by rewrite E in Hne.
Qed.

End Paths.


(** ** The background task *)

Section Task.

Variable time_at : nat → Q.
Variable converter_at : nat → Converter.

(** The coroutine is its two halves, one after the other. *)
Lemma process_conversion_split job w :
  process_conversion time_at converter_at job w
  = (start_time ← process_conversion_begin time_at job;
     process_conversion_resume time_at converter_at job start_time) w.
Proof. reflexivity. Qed.

Lemma process_conversion_begin_spec job w :
  ∃ w', process_conversion_begin time_at job w
        = (Ok (time_at (clock_calls w)), w')
    ∧ heap w' job = ConversionJob.set_status PROCESSING (heap w job)
    ∧ (∀ l, l ≠ job → heap w' l = heap w l)
    ∧ next_ref w' = next_ref w
    ∧ conversion_jobs w'
      = <[ConversionJob.id (heap w job) := job]> (conversion_jobs w)
    ∧ files w' = files w
    ∧ background_tasks w' = background_tasks w
    ∧ suspended w' = suspended w
    ∧ uuid_calls w' = uuid_calls w
    ∧ clock_calls w' = S (clock_calls w)
    ∧ converter_calls w' = converter_calls w.
Proof.
  eexists. split; [reflexivity|]. simpl.
  rewrite !fn_lookup_insert. split_and!; try done.
  intros l Hl. by rewrite fn_lookup_insert_ne.
Qed.

Lemma convert_frame c i o w :
  let w' := (convert converter_at c i o w).2 in
  heap w' = heap w ∧ next_ref w' = next_ref w
  ∧ conversion_jobs w' = conversion_jobs w
  ∧ background_tasks w' = background_tasks w ∧ suspended w' = suspended w
  ∧ uuid_calls w' = uuid_calls w ∧ clock_calls w' = clock_calls w.
Proof. unfold convert. destruct (converter_at _ _ _ _ _); simpl. tauto. Qed.

Lemma perform_conversion_frame job w :
  let w' := (perform_conversion converter_at job w).2 in
  heap w' = heap w ∧ next_ref w' = next_ref w
  ∧ conversion_jobs w' = conversion_jobs w
  ∧ background_tasks w' = background_tasks w ∧ suspended w' = suspended w
  ∧ uuid_calls w' = uuid_calls w ∧ clock_calls w' = clock_calls w.
Proof.
  unfold perform_conversion. unfold_M. cbv zeta.
  repeat match goal with
         | |- context [if ?b then _ else _] => destruct b
         end; try apply convert_frame. simpl. tauto.
Qed.

(** What the guarded block returns: it raises what the capability
    raised, raises on a missing output path after a success, and
    returns otherwise. *)
Lemma conversion_attempt_result job start_time w r w1 :
  perform_conversion converter_at job w = (r, w1) →
  (conversion_attempt time_at converter_at job start_time w).1
  = match r with
    | Raise e => Raise e
    | Ok true =>
        match ConversionJob.converted_file_path (heap w job) with
        | None => Raise (Exception none_path_error)
        | Some _ => Ok ()
        end
    | Ok false => Ok ()
    end.
Proof.
  intros Hp. pose proof (perform_conversion_frame job w) as Hf.
  rewrite Hp in Hf. simpl in Hf. destruct Hf as (Hh & _).
  unfold conversion_attempt. unfold mbind at 1, M_bind at 1, bind at 1.
  rewrite Hp. destruct r as [[|]|e]; [| done..].
  unfold update_job_status, os_path_exists, os_path_getsize. unfold_M.
  simpl. rewrite Hh.
  destruct (ConversionJob.converted_file_path (heap w job)) as [p|]; [|done].
  simpl. destruct (files w1 !! p) as [n|] eqn:Hn; simpl; by rewrite ?Hn.
Qed.

Lemma process_conversion_resume_spec job start_time w r w1 :
  perform_conversion converter_at job w = (r, w1) →
  ∃ w', process_conversion_resume time_at converter_at job start_time w
        = (Ok (), w')
    ∧ heap w' job
      = settled time_at (heap w job) r (files w1) start_time (clock_calls w)
    ∧ (∀ l, l ≠ job → heap w' l = heap w l)
    ∧ next_ref w' = next_ref w
    ∧ conversion_jobs w'
      = <[ConversionJob.id (heap w job) := job]> (conversion_jobs w)
    ∧ files w' = files w1
    ∧ background_tasks w' = background_tasks w
    ∧ suspended w' = suspended w
    ∧ uuid_calls w' = uuid_calls w.
Proof.
  intros Hp. pose proof (perform_conversion_frame job w) as Hf.
  rewrite Hp in Hf. simpl in Hf.
  destruct Hf as (Hh & Hn & Hj & Hb & Hs & Hu & Hc).
  unfold process_conversion_resume, conversion_attempt, try_finally, try_except.
  unfold mbind at 1, M_bind at 1, bind at 1. rewrite Hp.
  unfold settled.
  destruct r as [[|]|e]; simpl.
  - unfold update_job_status, os_path_exists, os_path_getsize. unfold_M.
    simpl. rewrite Hh.
    destruct (ConversionJob.converted_file_path (heap w job)) as [p|]; simpl.
    + destruct (files w1 !! p) as [n|] eqn:Hn'; simpl; rewrite ?Hn'; simpl.
      all: eexists; split; [reflexivity|]; simpl; rewrite !fn_lookup_insert.
      all: simpl; rewrite ?Hh, ?Hc, ?Hj; split_and!; try done.
      all: intros l Hl; rewrite !fn_lookup_insert_ne by done; done.
    + eexists; split; [reflexivity|]. simpl. rewrite !fn_lookup_insert.
      simpl. rewrite ?Hh, ?Hc, ?Hj. split_and!; try done.
      intros l Hl. rewrite !fn_lookup_insert_ne by done. done.
  - unfold update_job_status, os_path_exists, os_path_getsize. unfold_M.
    simpl. eexists; split; [reflexivity|]. simpl. rewrite !fn_lookup_insert.
    simpl. rewrite ?Hh, ?Hc, ?Hj. split_and!; try done.
    intros l Hl. rewrite !fn_lookup_insert_ne by done. done.
  - unfold_M. simpl.
    eexists; split; [reflexivity|]. simpl. rewrite !fn_lookup_insert. simpl.
    rewrite ?Hh, ?Hc, ?Hj. split_and!; try done.
    intros l Hl. rewrite !fn_lookup_insert_ne by done. done.
Qed.

Lemma settled_status j r fs start_time clock :
  ConversionJob.status (settled time_at j r fs start_time clock)
  = match converted_output j r fs with
    | Some _ => COMPLETED
    | None => FAILED
    end.
Proof.
  unfold settled, converted_output.
  destruct r as [[|]|e]; try done. simpl.
  destruct (ConversionJob.converted_file_path j) as [p|]; [|done]. simpl.
  by destruct (fs !! p).
Qed.

Lemma settled_terminal j r fs start_time clock :
  terminal (ConversionJob.status (settled time_at j r fs start_time clock)).
Proof.
  rewrite settled_status. unfold terminal. destruct (converted_output _ _ _); eauto.
Qed.

(** The whole coroutine, from the run of the capability. *)
Lemma process_conversion_spec job w :
  ∃ start_time w0 r w1 w',
    process_conversion_begin time_at job w = (Ok start_time, w0)
    ∧ start_time = time_at (clock_calls w)
    ∧ perform_conversion converter_at job w0 = (r, w1)
    ∧ process_conversion time_at converter_at job w = (Ok (), w')
    ∧ process_conversion_resume time_at converter_at job start_time w0
      = (Ok (), w')
    ∧ heap w' job
      = settled time_at (ConversionJob.set_status PROCESSING (heap w job))
          r (files w1) start_time (S (clock_calls w))
    ∧ conversion_jobs w' !! ConversionJob.id (heap w job) = Some job.
Proof.
  destruct (process_conversion_begin_spec job w)
    as (w0 & Hb & Hj & _ & _ & Hreg & _ & _ & _ & _ & Hc & _).
  destruct (perform_conversion converter_at job w0) as [r w1] eqn:Hp.
  destruct (process_conversion_resume_spec job (time_at (clock_calls w)) _ _ _ Hp)
    as (w' & Hr & Hj' & _ & _ & Hreg' & _).
  exists (time_at (clock_calls w)), w0, r, w1, w'.
  split_and!; try done.
  - rewrite process_conversion_split. unfold mbind, M_bind, bind.
    by rewrite Hb.
  - by rewrite Hj', Hj, Hc.
  - rewrite Hreg', Hj. simpl. by rewrite lookup_insert_eq.
Qed.

(** The second half alone, wherever it is resumed, returns and leaves
    the job in a terminal state. *)
Lemma process_conversion_resume_terminal job start_time w :
  ∃ w', process_conversion_resume time_at converter_at job start_time w
        = (Ok (), w')
    ∧ terminal (ConversionJob.status (heap w' job)).
Proof.
  destruct (perform_conversion converter_at job w) as [r w1] eqn:Hp.
  destruct (process_conversion_resume_spec job start_time _ _ _ Hp)
    as (w' & Hr & Hj & _).
  exists w'. split; [done|]. rewrite Hj. apply settled_terminal.
Qed.

(** C1. [process_conversion] returns to its caller without an
    exception whatever the capability does, and the job is then
    COMPLETED or FAILED, never PROCESSING; when the guarded block
    raised, the job is FAILED and [error_message] holds the text of
    the exception. *)
Theorem process_conversion_never_propagates job w :
  ∃ w', process_conversion time_at converter_at job w = (Ok (), w')
    ∧ terminal (ConversionJob.status (heap w' job))
    ∧ ConversionJob.status (heap w' job) ≠ PROCESSING
    ∧ (let '(_, w0) := process_conversion_begin time_at job w in
       match conversion_attempt time_at converter_at job
               (time_at (clock_calls w)) w0 with
       | (Raise e, _) =>
           ConversionJob.status (heap w' job) = FAILED
           ∧ ConversionJob.error_message (heap w' job)
             = Some ("Conversion error: " +:+ exn_str e)
       | (Ok _, _) => True
       end).
Proof.
  destruct (process_conversion_spec job w)
    as (t0 & w0 & r & w1 & w' & Hb & -> & Hp & Hrun & _ & Hj & _).
  exists w'. split; [done|].
  pose proof (settled_terminal (ConversionJob.set_status PROCESSING (heap w job))
                r (files w1) (time_at (clock_calls w)) (S (clock_calls w))) as Ht.
  rewrite <- Hj in Ht. split; [done|]. split.
  { destruct Ht as [-> | ->]; discriminate. }
  rewrite Hb.
  pose proof (conversion_attempt_result job (time_at (clock_calls w)) _ _ _ Hp)
    as Hres.
  destruct (conversion_attempt _ _ _ _ _) as [[[]|e] w2]; [done|].
  simpl in Hres. rewrite Hj.
  destruct (process_conversion_begin_spec job w) as (w0' & Hb' & Hj0 & _).
  rewrite Hb in Hb'. injection Hb' as <-. rewrite Hj0 in Hres.
  unfold settled. destruct r as [[|]|e']; simpl in *.
  - destruct (ConversionJob.converted_file_path (heap w job)); [done|].
    by injection Hres as ->.
  - done.
  - by injection Hres as ->.
Qed.

(** [process_conversion], lines 43-52, as a table *)
Lemma perform_conversion_dispatch job w :
  perform_conversion converter_at job w
  = match capability_for (ConversionJob.from_format (heap w job))
            (ConversionJob.to_format (heap w job)) with
    | Some c =>
        convert converter_at c (ConversionJob.file_path (heap w job))
          (ConversionJob.converted_file_path (heap w job)) w
    | None => (Ok false, w)
    end.
Proof.
  unfold perform_conversion, capability_for. unfold_M.
  repeat match goal with
         | |- context [if ?b then _ else _] => destruct b
         end; done.
Qed.

(** C5. The capability of the job's formats is called on its two
    paths.  When it returns true and the output path is then on disk,
    the job is COMPLETED with [converted_file_size] the size on disk,
    [conversion_time] the float [time.time() - start_time] rounded to
    two decimals, [download_url] and [completed_at] set; in every
    other case (false, an exception, no output, no capability for the
    formats) it is FAILED with [error_message] and [completed_at]
    set. *)
Theorem process_conversion_outcome job w :
  let j := heap w job in
  let start_time := time_at (clock_calls w) in
  let '(answer, fs) :=
    match capability_for (ConversionJob.from_format j)
            (ConversionJob.to_format j) with
    | Some c =>
        converter_at (converter_calls w) c (ConversionJob.file_path j)
          (ConversionJob.converted_file_path j) (files w)
    | None => (Ok false, files w)
    end in
  let w' := (process_conversion time_at converter_at job w).2 in
  let j' := heap w' job in
  files w' = fs
  ∧ match converted_output j answer fs with
    | Some n =>
        ConversionJob.status j' = COMPLETED
        ∧ ConversionJob.converted_file_size j' = Some (Z.of_N (st_size n))
        ∧ ConversionJob.conversion_time j'
          = Some (round2 (fsub (time_at (S (clock_calls w))) start_time))
        ∧ ConversionJob.download_url j'
          = Some ("/api/download/" +:+ ConversionJob.id j)
        ∧ ConversionJob.completed_at j'
          = Some (time_at (S (S (clock_calls w))))
    | None =>
        ConversionJob.status j' = FAILED
        ∧ is_Some (ConversionJob.error_message j')
        ∧ ConversionJob.completed_at j' = Some (time_at (S (clock_calls w)))
    end.
Proof.
  destruct (process_conversion_spec job w)
    as (t0 & w0 & r & w1 & w' & Hb & -> & Hp & Hrun & Hres & Hj & _).
  destruct (process_conversion_begin_spec job w)
    as (w0' & Hb' & Hj0 & _ & _ & _ & Hfs0 & _ & _ & _ & _ & Hk0).
  rewrite Hb in Hb'. injection Hb' as <-.
  destruct (process_conversion_resume_spec job (time_at (clock_calls w))
              _ _ _ Hp) as (w'' & E & _ & _ & _ & _ & Hfs' & _).
  rewrite Hres in E. injection E as <-.
  rewrite perform_conversion_dispatch, Hj0 in Hp.
  cbn [ConversionJob.from_format ConversionJob.to_format
         ConversionJob.file_path ConversionJob.converted_file_path
         ConversionJob.set_status] in Hp.
  cbv zeta. rewrite Hrun. cbn [snd]. rewrite Hj, Hfs'.
  assert (match capability_for (ConversionJob.from_format (heap w job))
                  (ConversionJob.to_format (heap w job)) with
          | Some c =>
              converter_at (converter_calls w) c
                (ConversionJob.file_path (heap w job))
                (ConversionJob.converted_file_path (heap w job)) (files w)
          | None => (Ok false, files w)
          end = (r, files w1)) as ->.
  { destruct (capability_for _ _) as [c|].
    - unfold convert in Hp. rewrite Hk0, Hfs0 in Hp.
      destruct (converter_at _ _ _ _ _) as [answer fs].
      by injection Hp as <- <-.
    - injection Hp as <- <-. by rewrite Hfs0. }
  split; [done|]. unfold converted_output, settled.
  destruct r as [[|]|e]; simpl; eauto.
  destruct (ConversionJob.converted_file_path (heap w job)) as [p|];
    simpl; eauto.
  destruct (files w1 !! p) as [n|]; simpl; eauto 10.
Qed.

End Task.


(** ** Submission *)

Section Submission.

Variable uuid4_at : nat → string.
Variable time_at : nat → Q.

Lemma cleanup_file_none w : cleanup_file None w = (Ok (), w).
Proof. reflexivity. Qed.

Lemma cleanup_file_absent p w :
  files w !! p = None → cleanup_file (Some p) w = (Ok (), w).
Proof.
  intros Hp. unfold cleanup_file, os_path_exists. unfold_M.
  rewrite bool_decide_false; [done|]. rewrite Hp. by intros [? ?].
Qed.

Lemma cleanup_file_directory p n w :
  files w !! p = Some n → is_dir n = true →
  cleanup_file (Some p) w = (Ok (), w).
Proof.
  intros Hp Hd. unfold cleanup_file, os_path_exists, os_remove. unfold_M.
  rewrite bool_decide_true by (rewrite Hp; eauto). by rewrite Hp, Hd.
Qed.

Lemma cleanup_file_regular p n w :
  files w !! p = Some n → is_dir n = false →
  cleanup_file (Some p) w = (Ok (), with_files (delete p (files w)) w).
Proof.
  intros Hp Hd. unfold cleanup_file, os_path_exists, os_remove. unfold_M.
  rewrite bool_decide_true by (rewrite Hp; eauto). by rewrite Hp, Hd.
Qed.

(** [cleanup_file] never raises, and touches nothing but the file. *)
Lemma cleanup_file_spec path w :
  ∃ fs, cleanup_file path w = (Ok (), with_files fs w)
    ∧ (∀ q, path ≠ Some q → fs !! q = files w !! q)
    ∧ (∀ q, fs !! q = files w !! q ∨ fs !! q = None).
Proof.
  assert (w = with_files (files w) w) as Hw by by destruct w.
  destruct path as [p|].
  2:{ exists (files w). rewrite cleanup_file_none. rewrite <- Hw. eauto. }
  destruct (files w !! p) as [n|] eqn:Hp.
  2:{ exists (files w). rewrite cleanup_file_absent, <- Hw by done. eauto. }
  destruct (is_dir n) eqn:Hd.
  { exists (files w). erewrite cleanup_file_directory, <- Hw by done. eauto. }
  exists (delete p (files w)). erewrite cleanup_file_regular by done.
  split; [done|]. split.
  - intros q Hq. apply lookup_delete_ne. congruence.
  - intros q. destruct (decide (p = q)) as [->|].
    + right. apply lookup_delete_eq.
    + left. by apply lookup_delete_ne.
Qed.

Lemma validate_file_present path allowed n w :
  files w !! path = Some n →
  validate_file path allowed w
  = (Ok (if negb (Py.contains (file_ext path) allowed)
         then (false, "Invalid file type. Allowed: " +:+ Py.join ", " allowed)
         else if max_size <? st_size n
              then (false, "File size exceeds 50MB limit")
              else (true, "Valid file")), w).
Proof.
  intros Hp. unfold validate_file, os_path_getsize, os_path_exists, file_ext.
  unfold_M. destruct (negb _); [done|]. rewrite Hp.
  destruct (max_size <? st_size n); [done|].
  by rewrite bool_decide_true by (rewrite Hp; eauto).
Qed.

Lemma handle_conversion_invalid file conversion_type from_format to_format w :
  Py.contains (file_ext (filename file)) (ALLOWED_FORMATS conversion_type)
  = false →
  handle_conversion uuid4_at time_at file conversion_type from_format
    to_format w
  = (Raise (invalid_format conversion_type), w).
Proof.
  intros Hc. unfold handle_conversion. fold (file_ext (filename file)).
  by rewrite Hc.
Qed.

Lemma allowed_nonempty conversion_type ext :
  Py.contains ext (ALLOWED_FORMATS conversion_type) = true → ext ≠ "".
Proof. intros H ->. by destruct conversion_type. Qed.

Lemma scratch_ext file conversion_type w :
  Py.contains (file_ext (filename file)) (ALLOWED_FORMATS conversion_type)
  = true →
  file_ext (scratch_path uuid4_at w file) = file_ext (filename file).
Proof.
  intros Hc%allowed_nonempty. unfold scratch_path.
  rewrite <- append_assoc. by apply file_ext_div.
Qed.

Lemma handle_conversion_unwritable file conversion_type from_format
    to_format w msg :
  Py.contains (file_ext (filename file)) (ALLOWED_FORMATS conversion_type)
  = true →
  open_error (os w) (scratch_path uuid4_at w file) (files w) = Some msg →
  ∃ w', handle_conversion uuid4_at time_at file conversion_type from_format
          to_format w
        = (Raise (HTTPException 500 ("Conversion failed: " +:+ msg)), w')
    ∧ submission_frame w w'
    ∧ heap w' (next_ref w)
      = new_job uuid4_at time_at w file from_format to_format
    ∧ files w' = files w
    ∧ conversion_jobs w' = conversion_jobs w
    ∧ background_tasks w' = background_tasks w.
Proof.
  intros Hc Ho. start_submission uuid4_at time_at file from_format to_format w Hc.
  rewrite Ho. cbn. rewrite fn_lookup_insert. cbn.
  eexists. split; [reflexivity|]. unfold submission_frame. cbn.
  rewrite fn_lookup_insert. split_and!; try done.
  intros l Hl. by rewrite fn_lookup_insert_ne.
Qed.

Lemma handle_conversion_too_large file conversion_type from_format
    to_format w :
  Py.contains (file_ext (filename file)) (ALLOWED_FORMATS conversion_type)
  = true →
  open_error (os w) (scratch_path uuid4_at w file) (files w) = None →
  max_size < content_length file →
  ∃ w', handle_conversion uuid4_at time_at file conversion_type from_format
          to_format w
        = (Raise file_too_large, w')
    ∧ submission_frame w w'
    ∧ heap w' (next_ref w)
      = saved_job uuid4_at time_at w file from_format to_format
    ∧ files w' = delete (scratch_path uuid4_at w file) (files w)
    ∧ conversion_jobs w' = conversion_jobs w
    ∧ background_tasks w' = background_tasks w.
Proof.
  intros Hc Ho Hsz%Z.ltb_lt. start_submission uuid4_at time_at file from_format to_format w Hc.
  rewrite Ho.
  cbn -[validate_file cleanup_file]; rewrite lookup_insert_eq.
  erewrite validate_file_present by (cbn; apply lookup_insert_eq).
  rewrite (scratch_ext _ conversion_type), Hc by done.
  cbn [negb st_size]; rewrite Hsz; cbn -[cleanup_file].
  erewrite cleanup_file_regular by (cbn; first [apply lookup_insert_eq|done]).
  cbn; eexists; (split; [reflexivity|]).
  unfold submission_frame; cbn; rewrite !fn_lookup_insert.
  rewrite delete_insert_eq.
  split_and!; try done.
  intros l Hl; by rewrite !fn_lookup_insert_ne.
Qed.

Lemma handle_conversion_accepted file conversion_type from_format
    to_format w :
  Py.contains (file_ext (filename file)) (ALLOWED_FORMATS conversion_type)
  = true →
  open_error (os w) (scratch_path uuid4_at w file) (files w) = None →
  content_length file ≤ max_size →
  let j := queued_job uuid4_at time_at w file from_format to_format in
  ∃ w', handle_conversion uuid4_at time_at file conversion_type from_format
          to_format w
        = (Ok {| resp_success := true;
                 resp_job_id := ConversionJob.id j;
                 resp_original_filename := filename file;
                 resp_converted_filename := ConversionJob.converted_filename j;
                 resp_file_size := content_length file;
                 resp_converted_file_size := None;
                 resp_conversion_time := None;
                 resp_download_url := "/api/download/" +:+ ConversionJob.id j;
                 resp_message := "Conversion started successfully" |}, w')
    ∧ submission_frame w w'
    ∧ heap w' (next_ref w) = j
    ∧ files w' = <[scratch_path uuid4_at w file
                   := Build_node false (content_length file)]> (files w)
    ∧ conversion_jobs w'
      = <[ConversionJob.id j := next_ref w]> (conversion_jobs w)
    ∧ background_tasks w' = background_tasks w ++ [next_ref w].
Proof.
  intros Hc Ho Hsz j. start_submission uuid4_at time_at file from_format to_format w Hc.
  assert ((max_size <? content_length file) = false) as Hsz' by lia.
  rewrite Ho.
  cbn -[validate_file cleanup_file]; rewrite lookup_insert_eq.
  erewrite validate_file_present by (cbn; apply lookup_insert_eq).
  rewrite (scratch_ext _ conversion_type), Hc by done.
  cbn [negb st_size]; rewrite Hsz'; cbn.
  rewrite !fn_lookup_insert; cbn; eexists; (split; [reflexivity|]).
  unfold submission_frame; cbn; rewrite !fn_lookup_insert.
  split_and!; try done.
  intros l Hl; by rewrite !fn_lookup_insert_ne.
Qed.

(** The four ways a submission goes. *)
Lemma handle_conversion_cases file conversion_type from_format to_format w :
  let run := handle_conversion uuid4_at time_at file conversion_type
               from_format to_format w in
  let listed := Py.contains (file_ext (filename file))
                  (ALLOWED_FORMATS conversion_type) in
  let scratch := scratch_path uuid4_at w file in
  let opened := open_error (os w) scratch (files w) in
  (listed = false ∧ run = (Raise (invalid_format conversion_type), w))
  ∨ (listed = true
     ∧ ∃ msg w', opened = Some msg
         ∧ run = (Raise (unwritable msg), w')
         ∧ submission_frame w w'
         ∧ heap w' (next_ref w)
           = new_job uuid4_at time_at w file from_format to_format
         ∧ files w' = files w
         ∧ conversion_jobs w' = conversion_jobs w
         ∧ background_tasks w' = background_tasks w)
  ∨ (listed = true
     ∧ opened = None
     ∧ max_size < content_length file
     ∧ ∃ w', run = (Raise file_too_large, w')
         ∧ submission_frame w w'
         ∧ heap w' (next_ref w)
           = saved_job uuid4_at time_at w file from_format to_format
         ∧ files w' = delete scratch (files w)
         ∧ conversion_jobs w' = conversion_jobs w
         ∧ background_tasks w' = background_tasks w)
  ∨ (listed = true
     ∧ opened = None
     ∧ content_length file ≤ max_size
     ∧ ∃ w', run = (Ok (started_response
                          (queued_job uuid4_at time_at w file from_format
                             to_format)), w')
         ∧ submission_frame w w'
         ∧ heap w' (next_ref w)
           = queued_job uuid4_at time_at w file from_format to_format
         ∧ files w' = <[scratch := Build_node false (content_length file)]>
                        (files w)
         ∧ conversion_jobs w'
           = <[uuid4_at (S (uuid_calls w)) := next_ref w]> (conversion_jobs w)
         ∧ background_tasks w' = background_tasks w ++ [next_ref w]).
Proof.
  intros run listed scratch opened. subst run.
  destruct listed eqn:Hc; subst listed.
  2:{ left. split; [done|]. by apply handle_conversion_invalid. }
  right. destruct opened as [msg|] eqn:Ho; subst opened.
  { left. split; [done|].
    destruct (handle_conversion_unwritable file conversion_type from_format
                to_format w msg Hc Ho) as (w' & H).
    by exists msg, w'. }
  right. destruct (Z.le_gt_cases (content_length file) max_size) as [Hsz|Hsz].
  - right. split; [done|]. split; [done|]. split; [done|].
    apply (handle_conversion_accepted file conversion_type from_format
             to_format w Hc Ho Hsz).
  - left. split; [done|]. split; [done|]. split; [lia|].
    apply (handle_conversion_too_large file conversion_type from_format
             to_format w Hc Ho). lia.
Qed.

End Submission.


(** ** Status, download, cleanup *)

Section Endpoints.

Implicit Types w : World.

Lemma lookup_job_found job_id job w :
  conversion_jobs w !! job_id = Some job → lookup_job job_id w = (Ok job, w).
Proof. intros H. unfold lookup_job. by rewrite H. Qed.

Lemma lookup_job_missing job_id w :
  conversion_jobs w !! job_id = None →
  lookup_job job_id w = (Raise (HTTPException 404 "Conversion job not found"), w).
Proof. intros H. unfold lookup_job. by rewrite H. Qed.

Lemma get_conversion_status_missing job_id w :
  conversion_jobs w !! job_id = None →
  get_conversion_status job_id w
  = (Raise (HTTPException 404 "Conversion job not found"), w).
Proof.
  intros H. unfold get_conversion_status. unfold_M.
  by rewrite lookup_job_missing.
Qed.

Lemma download_converted_file_missing job_id w :
  conversion_jobs w !! job_id = None →
  download_converted_file job_id w
  = (Raise (HTTPException 404 "Conversion job not found"), w).
Proof.
  intros H. unfold download_converted_file. unfold_M.
  by rewrite lookup_job_missing.
Qed.

Lemma cleanup_conversion_files_missing job_id w :
  conversion_jobs w !! job_id = None →
  cleanup_conversion_files job_id w
  = (Raise (HTTPException 404 "Conversion job not found"), w).
Proof.
  intros H. unfold cleanup_conversion_files. unfold_M.
  by rewrite lookup_job_missing.
Qed.

(** Reading never changes the world. *)
Lemma get_conversion_status_pure job_id w :
  (get_conversion_status job_id w).2 = w.
Proof.
  unfold get_conversion_status, lookup_job. unfold_M.
  by destruct (conversion_jobs w !! job_id).
Qed.

Lemma download_converted_file_pure job_id w :
  (download_converted_file job_id w).2 = w.
Proof.
  unfold download_converted_file, lookup_job, os_path_exists. unfold_M.
  destruct (conversion_jobs w !! job_id) as [job|]; [|done]. simpl.
  destruct (negb _); [done|].
  destruct (ConversionJob.converted_file_path (heap w job)); [|done].
  by destruct (negb _).
Qed.

(** [if path: cleanup_file(path)] *)
Lemma guarded_cleanup_spec path w :
  ∃ fs, (if Py.truthy path then cleanup_file path else mret ()) w
        = (Ok (), with_files fs w)
    ∧ (∀ q, path ≠ Some q → fs !! q = files w !! q)
    ∧ (∀ q, fs !! q = files w !! q ∨ fs !! q = None)
    ∧ (∀ q n, path = Some q → q ≠ "" → files w !! q = Some n →
              is_dir n = false → fs !! q = None).
Proof.
  destruct (Py.truthy path) eqn:Ht.
  - destruct (cleanup_file_spec path w) as (fs & Hrun & Hne & Hsub).
    destruct path as [p|]; [|done].
    destruct (files w !! p) as [n|] eqn:Hp.
    + destruct (is_dir n) eqn:Hd.
      * exists fs. split_and!; try done. intros q n' [= <-] _ Hq. congruence.
      * exists (delete p (files w)).
        rewrite (cleanup_file_regular p n) by done. split_and!; try done.
        -- intros q Hq. apply lookup_delete_ne. congruence.
        -- intros q. destruct (decide (p = q)) as [->|].
           ++ right. apply lookup_delete_eq.
           ++ left. by apply lookup_delete_ne.
        -- intros q n' [= <-] _ _ _. apply lookup_delete_eq.
    + exists fs. split_and!; try done. intros q n' [= <-] _ Hq. congruence.
  - exists (files w). assert (w = with_files (files w) w) as <- by by destruct w.
    split_and!; eauto.
    intros q n -> Hq. simpl in Ht. apply negb_false_iff in Ht.
    by apply String.eqb_eq in Ht.
Qed.

Lemma cleanup_conversion_files_found job_id job w :
  conversion_jobs w !! job_id = Some job →
  let j := heap w job in
  ∃ fs, cleanup_conversion_files job_id w
        = (Ok "Files cleaned up successfully",
           with_conversion_jobs (delete job_id (conversion_jobs w))
             (with_files fs w))
    ∧ (∀ q, ConversionJob.file_path j ≠ Some q →
            ConversionJob.converted_file_path j ≠ Some q →
            fs !! q = files w !! q)
    ∧ (∀ q, fs !! q = files w !! q ∨ fs !! q = None)
    ∧ (∀ q n, ConversionJob.file_path j = Some q
              ∨ ConversionJob.converted_file_path j = Some q →
              q ≠ "" → files w !! q = Some n → is_dir n = false →
              fs !! q = None).
Proof.
  intros Hjob j. unfold cleanup_conversion_files.
  unfold mbind at 1, M_bind at 1, bind at 1.
  rewrite (lookup_job_found _ _ _ Hjob).
  unfold mbind at 1, M_bind at 1, bind at 1, get. fold j.
  destruct (guarded_cleanup_spec (ConversionJob.file_path j) w)
    as (fs1 & Hrun1 & Hne1 & Hsub1 & Hdel1).
  unfold mbind at 1, M_bind at 1, bind at 1. rewrite Hrun1.
  destruct (guarded_cleanup_spec (ConversionJob.converted_file_path j)
              (with_files fs1 w)) as (fs2 & Hrun2 & Hne2 & Hsub2 & Hdel2).
  unfold mbind at 1, M_bind at 1, bind at 1. rewrite Hrun2.
  unfold del. unfold_M. simpl in *. rewrite Hjob.
  exists fs2. split_and!; try done.
  - intros q Hq1 Hq2. by rewrite Hne2, Hne1.
  - intros q. destruct (Hsub2 q) as [->|]; eauto.
  - intros q n [Hq|Hq] Hne Hn Hd.
    + destruct (Hsub2 q) as [->|]; eauto.
    + destruct (Hsub1 q) as [E|E].
      * eapply Hdel2; eauto. by rewrite E.
      * destruct (Hsub2 q) as [->|]; eauto.
Qed.

End Endpoints.


(** ** The transition system *)

Section Effects.

Variable uuid4_at : nat → string.
Variable time_at : nat → Q.
Variable converter_at : nat → Converter.

Lemma fmap_world {A B} (f : A → B) (m : M A) (w : World) :
  ((f <$> m) w).2 = (m w).2.
Proof. unfold fmap, M_fmap, bind, ret. by destruct (m w) as [[a|e] w']. Qed.

Lemma handle_conversion_effect file conversion_type from_format to_format w :
  request_effect w
    (handle_conversion uuid4_at time_at file conversion_type from_format
       to_format w).2.
Proof.
  destruct (handle_conversion_cases uuid4_at time_at file conversion_type
              from_format to_format w)
    as [[_ ->]|[(_ & msg & w' & _ & -> & Hf & Hj & Hfs & Hreg & Hq)
       |[(_ & _ & _ & w' & -> & Hf & Hj & Hfs & Hreg & Hq)
        |(_ & _ & _ & w' & -> & Hf & Hj & Hfs & Hreg & Hq)]]].
  - by apply effect_none.
  - apply effect_submission; simpl; rewrite ?Hj; auto.
    intros. by rewrite Hfs.
  - apply effect_submission; simpl; rewrite ?Hj; auto.
    intros q Hq'. rewrite Hfs, lookup_delete_ne; [done|].
    simpl in Hq'. congruence.
  - apply effect_submission; simpl; rewrite ?Hj; auto.
    intros q Hq'. rewrite Hfs, lookup_insert_ne; [done|].
    simpl in Hq'. congruence.
Qed.

Lemma serve_effect r w : request_effect w (serve uuid4_at time_at r w).2.
Proof.
  destruct r as [file|file|file|files|file|job_id|job_id|job_id];
    unfold serve; rewrite fmap_world.
  1-3,5: apply handle_conversion_effect.
  - destruct files as [|file0 ?]; [by apply effect_none|].
    apply handle_conversion_effect.
  - apply effect_none, get_conversion_status_pure.
  - apply effect_none, download_converted_file_pure.
  - destruct (conversion_jobs w !! job_id) as [job|] eqn:Hjob.
    + destruct (cleanup_conversion_files_found _ _ _ Hjob)
        as (fs & -> & Hne & _).
      by eapply effect_cleanup.
    + rewrite cleanup_conversion_files_missing by done. by apply effect_none.
Qed.

(** what starting a task does *)
Lemma start_task_spec job q1 q2 w :
  let w' := start_task time_at job q1 q2 w in
  heap w' job = ConversionJob.set_status PROCESSING (heap w job)
  ∧ (∀ l, l ≠ job → heap w' l = heap w l)
  ∧ next_ref w' = next_ref w
  ∧ conversion_jobs w'
    = <[ConversionJob.id (heap w job) := job]> (conversion_jobs w)
  ∧ files w' = files w
  ∧ background_tasks w' = q1 ++ q2
  ∧ suspended w' = suspended w ++ [(job, time_at (clock_calls w))].
Proof.
  unfold start_task.
  destruct (process_conversion_begin_spec time_at job
              (with_tasks (q1 ++ q2) (suspended w) w))
    as (w' & -> & Hj & Hh & Hn & Hreg & Hfs & Hq & Hs & _).
  simpl in *. rewrite Hq, Hs. by split_and!.
Qed.

(** what resuming a task does *)
Lemma resume_task_spec job start_time s1 s2 w :
  let w' := resume_task time_at converter_at job start_time s1 s2 w in
  let '(r, w1) :=
    perform_conversion converter_at job
      (with_tasks (background_tasks w) (s1 ++ s2) w) in
  heap w' job
  = settled time_at (heap w job) r (files w1) start_time (clock_calls w)
  ∧ (∀ l, l ≠ job → heap w' l = heap w l)
  ∧ next_ref w' = next_ref w
  ∧ conversion_jobs w'
    = <[ConversionJob.id (heap w job) := job]> (conversion_jobs w)
  ∧ files w' = files w1
  ∧ background_tasks w' = background_tasks w
  ∧ suspended w' = s1 ++ s2.
Proof.
  unfold resume_task.
  destruct (perform_conversion _ _ _) as [r w1] eqn:Hp.
  destruct (process_conversion_resume_spec time_at converter_at job start_time
              _ _ _ Hp) as (w' & -> & Hj & Hh & Hn & Hreg & Hfs & Hq & Hs & _).
  simpl in *. by split_and!.
Qed.

End Effects.


(** ** The invariant *)

Section Invariant.

Variable uuid4_at : nat → string.
Variable time_at : nat → Q.
Variable converter_at : nat → Converter.

Lemma settled_id j r fs start_time clock :
  ConversionJob.id (settled time_at j r fs start_time clock)
  = ConversionJob.id j.
Proof.
  unfold settled. destruct r as [[|]|e]; try done.
  destruct (ConversionJob.converted_file_path j) as [p|]; [|done].
  by destruct (fs !! p).
Qed.

Lemma settled_paths j r fs start_time clock :
  ConversionJob.file_path (settled time_at j r fs start_time clock)
  = ConversionJob.file_path j
  ∧ ConversionJob.converted_file_path (settled time_at j r fs start_time clock)
    = ConversionJob.converted_file_path j.
Proof.
  unfold settled. destruct r as [[|]|e]; try done.
  destruct (ConversionJob.converted_file_path j) as [p|] eqn:Hp; [|done].
  by destruct (fs !! p).
Qed.

Lemma settled_download_url j r fs start_time clock :
  ConversionJob.download_url (settled time_at j r fs start_time clock)
  = match converted_output j r fs with
    | Some _ => Some ("/api/download/" +:+ ConversionJob.id j)
    | None => ConversionJob.download_url j
    end.
Proof.
  unfold settled, converted_output. destruct r as [[|]|e]; try done. simpl.
  destruct (ConversionJob.converted_file_path j) as [p|]; [|done]. simpl.
  by destruct (fs !! p).
Qed.

Lemma settled_converted_file_size j r fs start_time clock n :
  converted_output j r fs = Some n →
  ConversionJob.converted_file_size (settled time_at j r fs start_time clock)
  = Some (Z.of_N (st_size n)).
Proof.
  unfold settled, converted_output. destruct r as [[|]|e]; try done. simpl.
  destruct (ConversionJob.converted_file_path j) as [p|]; [|done]. simpl.
  destruct (fs !! p); [|done]. by intros [= ->].
Qed.

Lemma converted_output_path j r fs n :
  converted_output j r fs = Some n →
  ∃ p, ConversionJob.converted_file_path j = Some p ∧ fs !! p = Some n.
Proof.
  unfold converted_output. destruct r as [[|]|e]; try done. simpl.
  destruct (ConversionJob.converted_file_path j) as [p|]; [|done]. eauto.
Qed.

Lemma status_le_refl s : status_le s s.
Proof. by destruct s. Qed.

Lemma status_le_trans s1 s2 s3 :
  status_le s1 s2 → status_le s2 s3 → status_le s1 s3.
Proof. by destruct s1, s2, s3. Qed.

Lemma forward_refl w : forward w w.
Proof. split; [done|]. intros l _. split; [done|apply status_le_refl]. Qed.

Lemma forward_same_heap w w' :
  heap w' = heap w → next_ref w' = next_ref w → forward w w'.
Proof.
  intros Hh Hn. split; [lia|]. intros l _. rewrite Hh.
  split; [done|apply status_le_refl].
Qed.

Lemma forward_trans w1 w2 w3 : forward w1 w2 → forward w2 w3 → forward w1 w3.
Proof.
  intros [Hn1 H1] [Hn2 H2]. split; [lia|]. intros l Hl.
  destruct (H1 l Hl) as [Hi1 Hs1]. destruct (H2 l) as [Hi2 Hs2]; [lia|].
  split; [congruence|]. by eapply status_le_trans.
Qed.

Lemma Inv_initial w : initial w → Inv w.
Proof.
  intros (Hn & Hreg & Hq & Hs). split.
  - intros job_id l. by rewrite Hreg, lookup_empty.
  - intros l1 l2. lia.
  - rewrite Hq, Hs. constructor.
  - intros l. rewrite Hq. by intros ?%elem_of_nil.
  - intros l. rewrite Hs. by intros ?%elem_of_nil.
  - intros l. lia.
  - intros l. lia.
Qed.

Lemma Inv_request w w' :
  Inv w → request_effect w w' →
  (∀ l, (next_ref w ≤ l < next_ref w')%nat → unused_id w (heap w' l)) →
  Inv w' ∧ forward w w'.
Proof.
  intros [Hreg Hids Hnd Hq Hrun Hurl Hcp] Heff Hfresh.
  destruct Heff as [-> | job_id job fs Hjob -> Hfs
                   | (Hn & Hh & Hs & _) Hst Hu Hfs Hsub].
  - split; [by split | apply forward_refl].
  - split; [|by apply forward_same_heap]. split; simpl; try done.
    intros job_id' l [_ Hl]%lookup_delete_Some. by apply Hreg.
  - assert (∀ l, (l < next_ref w)%nat → heap w' l = heap w l) as Hold.
    { intros l Hl. apply Hh. lia. }
    assert (∀ l, (l < next_ref w)%nat →
                 ConversionJob.id (heap w' (next_ref w))
                 ≠ ConversionJob.id (heap w l)) as Hnew'.
    { intros l Hl. apply (Hfresh (next_ref w)); [lia|done]. }
    split.
    + split.
      * intros job_id l Hl.
        assert (conversion_jobs w !! job_id = Some l
                ∨ l = next_ref w
                  ∧ job_id = ConversionJob.id (heap w' (next_ref w))) as [Ho|[-> ->]].
        { destruct Hsub as [[E _]|[E _]]; rewrite E in Hl; [by left|].
          apply lookup_insert_Some in Hl as [[<- <-]|[_ Hl]]; eauto. }
        -- destruct (Hreg _ _ Ho) as [Hlt Hid]. rewrite Hn, Hold by done.
           split; [lia|done].
        -- rewrite Hn. split; [lia|done].
      * intros l1 l2. rewrite Hn. intros Hl1 Hl2 E.
        destruct (decide (l1 = next_ref w)) as [->|Hne1],
                 (decide (l2 = next_ref w)) as [->|Hne2]; try done.
        -- rewrite (Hold l2) in E by lia. exfalso. eapply Hnew'; [|done]. lia.
        -- rewrite (Hold l1) in E by lia. exfalso. eapply Hnew'; [|done]. lia.
        -- rewrite !Hold in E by lia. apply Hids; [lia..|done].
      * rewrite Hs. destruct Hsub as [[_ E]|[_ E]]; rewrite E; [done|].
        rewrite <- app_assoc.
        apply list.NoDup_app in Hnd as (Hnd1 & Hdisj & Hnd2).
        apply list.NoDup_app. split; [done|]. split.
        -- intros l Hl [->%list_elem_of_singleton|Hl']%elem_of_app.
           ++ destruct (Hq _ Hl). lia.
           ++ by eapply Hdisj.
        -- apply list.NoDup_cons. split; [|done].
           intros Hl. destruct (Hrun _ Hl). lia.
      * intros l Hl.
        assert (l ∈ background_tasks w ∨ l = next_ref w) as [Ho| ->].
        { destruct Hsub as [[_ E]|[_ E]]; rewrite E in Hl; [by left|].
          apply elem_of_app in Hl as [?|?%list_elem_of_singleton]; eauto. }
        -- destruct (Hq _ Ho) as [Hlt Hst']. rewrite Hn, Hold by done.
           split; [lia|done].
        -- rewrite Hn. split; [lia|done].
      * intros l. rewrite Hs. intros Hl. destruct (Hrun _ Hl) as [Hlt Hst'].
        rewrite Hn, Hold by done. split; [lia|done].
      * intros l. rewrite Hn. intros Hl.
        destruct (decide (l = next_ref w)) as [->|Hne].
        -- rewrite Hst, Hu. split; [done|discriminate].
        -- rewrite Hold by lia. apply Hurl. lia.
      * intros l. rewrite Hn. intros Hl.
        destruct (decide (l = next_ref w)) as [->|Hne].
        -- rewrite Hst. discriminate.
        -- rewrite Hold by lia. apply Hcp. lia.
    + split; [lia|]. intros l Hl. rewrite Hold by done.
      split; [done | apply status_le_refl].
Qed.

Lemma Inv_start job q1 q2 w :
  Inv w → background_tasks w = q1 ++ job :: q2 →
  Inv (start_task time_at job q1 q2 w)
  ∧ forward w (start_task time_at job q1 q2 w).
Proof.
  intros [Hreg Hids Hnd Hq Hrun Hurl Hcp] Hjob.
  pose proof (start_task_spec time_at job q1 q2 w) as Hspec.
  cbv zeta in Hspec. revert Hspec.
  generalize (start_task time_at job q1 q2 w).
  intros w' (Hj & Hh & Hn & Hreg' & _ & Hq' & Hs').
  assert (job ∈ background_tasks w) as Hin.
  { rewrite Hjob. apply elem_of_app. right. by left. }
  destruct (Hq _ Hin) as [Hlt Hst].
  assert (∀ l, ConversionJob.id (heap w' l) = ConversionJob.id (heap w l))
    as Hid.
  { intros l. destruct (decide (l = job)) as [->|]; [by rewrite Hj|].
    by rewrite Hh. }
  rewrite Hjob in Hnd.
  assert (NoDup (job :: (q1 ++ q2) ++ (suspended w).*1)) as Hnd'.
  { eapply NoDup_Permutation_proper; [|exact Hnd].
    rewrite <- !app_assoc. simpl. by rewrite Permutation_middle. }
  apply list.NoDup_cons in Hnd' as [Hfresh Hnd'].
  split.
  - split.
    + intros job_id l. rewrite Hreg', Hn, Hid.
      intros [[<- <-]|[_ Hl]]%lookup_insert_Some; [done|]. by apply Hreg.
    + intros l1 l2. rewrite Hn, !Hid. apply Hids.
    + rewrite Hq', Hs', fmap_app. simpl. rewrite app_assoc.
      apply list.NoDup_app. split; [done|]. split; [|apply NoDup_singleton].
      intros l Hl ->%list_elem_of_singleton. done.
    + intros l. rewrite Hq', Hn. intros Hl.
      assert (l ≠ job) as Hne.
      { intros ->. apply Hfresh, elem_of_app. by left. }
      rewrite Hh by done. apply Hq. rewrite Hjob.
      apply elem_of_app in Hl as [?|?]; apply elem_of_app; [by left|].
      right. by right.
    + intros l. rewrite Hs', fmap_app, Hn. simpl.
      intros [Hl| ->%list_elem_of_singleton]%elem_of_app.
      * assert (l ≠ job) as Hne.
        { intros ->. apply Hfresh, elem_of_app. by right. }
        rewrite Hh by done. by apply Hrun.
      * by rewrite Hj.
    + intros l. rewrite Hn. intros Hl.
      destruct (decide (l = job)) as [->|]; [|rewrite Hh by done; by apply Hurl].
      rewrite Hj. simpl. split; [|discriminate].
      intros Hu%Hurl; [congruence|done].
    + intros l. rewrite Hn. intros Hl.
      destruct (decide (l = job)) as [->|]; [|rewrite Hh by done; by apply Hcp].
      rewrite Hj. simpl. discriminate.
  - split; [lia|]. intros l Hl. split; [apply Hid|].
    destruct (decide (l = job)) as [->|].
    + rewrite Hj, Hst. done.
    + rewrite Hh by done. apply status_le_refl.
Qed.

Lemma Inv_resume job start_time s1 s2 w :
  Inv w → suspended w = s1 ++ (job, start_time) :: s2 →
  Inv (resume_task time_at converter_at job start_time s1 s2 w)
  ∧ forward w (resume_task time_at converter_at job start_time s1 s2 w).
Proof.
  intros [Hreg Hids Hnd Hq Hrun Hurl Hcp] Hjob.
  pose proof (resume_task_spec time_at converter_at job start_time s1 s2 w)
    as Hspec.
  cbv zeta in Hspec. destruct (perform_conversion _ _ _) as [r w1].
  revert Hspec.
  generalize (resume_task time_at converter_at job start_time s1 s2 w).
  intros w' (Hj & Hh & Hn & Hreg' & _ & Hq' & Hs').
  assert (job ∈ (suspended w).*1) as Hin.
  { rewrite Hjob, fmap_app. apply elem_of_app. right. by left. }
  destruct (Hrun _ Hin) as [Hlt Hst].
  assert (∀ l, ConversionJob.id (heap w' l) = ConversionJob.id (heap w l))
    as Hid.
  { intros l. destruct (decide (l = job)) as [->|]; [|by rewrite Hh].
    rewrite Hj. apply settled_id. }
  rewrite Hjob, fmap_app in Hnd. simpl in Hnd.
  assert (NoDup (job :: background_tasks w ++ (s1 ++ s2).*1)) as Hnd'.
  { eapply NoDup_Permutation_proper; [|exact Hnd].
    rewrite fmap_app, !app_assoc. by rewrite Permutation_middle. }
  apply list.NoDup_cons in Hnd' as [Hfresh Hnd'].
  split.
  - split.
    + intros job_id l. rewrite Hreg', Hn, Hid.
      intros [[<- <-]|[_ Hl]]%lookup_insert_Some; [done|]. by apply Hreg.
    + intros l1 l2. rewrite Hn, !Hid. apply Hids.
    + by rewrite Hq', Hs'.
    + intros l. rewrite Hq', Hn. intros Hl.
      assert (l ≠ job) as Hne.
      { intros ->. apply Hfresh, elem_of_app. by left. }
      rewrite Hh by done. by apply Hq.
    + intros l. rewrite Hs', Hn. intros Hl.
      assert (l ≠ job) as Hne.
      { intros ->. apply Hfresh, elem_of_app. by right. }
      rewrite Hh by done. apply Hrun. rewrite Hjob, fmap_app. simpl.
      rewrite fmap_app in Hl.
      apply elem_of_app in Hl as [?|?]; apply elem_of_app; [by left|].
      right. by right.
    + intros l. rewrite Hn. intros Hl.
      destruct (decide (l = job)) as [->|]; [|rewrite Hh by done; by apply Hurl].
      rewrite Hj, settled_download_url, settled_status.
      destruct (converted_output _ _ _); [done|].
      split; [|discriminate]. intros Hu%Hurl; [congruence|done].
    + intros l. rewrite Hn. intros Hl.
      destruct (decide (l = job)) as [->|]; [|rewrite Hh by done; by apply Hcp].
      rewrite Hj, settled_status.
      destruct (converted_output _ _ _) as [n|] eqn:Ho; [|discriminate].
      intros _. apply converted_output_path in Ho as (p & Hp & _).
      destruct (settled_paths (heap w job) r (files w1) start_time
                  (clock_calls w)) as [_ ->]. eauto.
  - split; [lia|]. intros l Hl. split; [apply Hid|].
    destruct (decide (l = job)) as [->|].
    + rewrite Hj, settled_status, Hst. by destruct (converted_output _ _ _).
    + rewrite Hh by done. apply status_le_refl.
Qed.

Lemma Inv_step w e w' :
  Inv w → step uuid4_at time_at converter_at w e w' → Inv w' ∧ forward w w'.
Proof.
  intros HI Hstep. destruct Hstep as [r w Hfresh|job q1 q2 w Hq|job t s1 s2 w Hs].
  - apply Inv_request; [done | apply serve_effect | done].
  - by apply Inv_start.
  - by apply Inv_resume.
Qed.

Lemma Inv_steps w es w' :
  Inv w → steps uuid4_at time_at converter_at w es w' → Inv w' ∧ forward w w'.
Proof.
  intros HI Hsteps. induction Hsteps as [w|w e w' es w'' Hstep _ IH].
  - split; [done | apply forward_refl].
  - destruct (Inv_step _ _ _ HI Hstep) as [HI' Hf].
    destruct (IH HI') as [HI'' Hf']. split; [done|].
    by eapply forward_trans.
Qed.

Lemma Inv_reachable w : reachable uuid4_at time_at converter_at w → Inv w.
Proof.
  intros (w0 & es & H0%Inv_initial & Hsteps).
  by destruct (Inv_steps _ _ _ H0 Hsteps).
Qed.

End Invariant.


(** ** The artifacts of COMPLETED jobs *)

Section Artifacts.

Variable uuid4_at : nat → string.
Variable time_at : nat → Q.
Variable converter_at : nat → Converter.
Hypothesis converter_frame : confined converter_at.

Lemma convert_files c i o w p :
  o ≠ Some p → libreoffice_pdf i o ≠ Some p →
  files (convert converter_at c i o w).2 !! p = files w !! p.
Proof.
  intros Ho Hl. unfold convert.
  pose proof (converter_frame (converter_calls w) c i o (files w) p Ho Hl)
    as Hf.
  by destruct (converter_at _ _ _ _ _).
Qed.

Lemma perform_conversion_files job w p :
  ConversionJob.converted_file_path (heap w job) ≠ Some p →
  libreoffice_pdf (ConversionJob.file_path (heap w job))
    (ConversionJob.converted_file_path (heap w job)) ≠ Some p →
  files (perform_conversion converter_at job w).2 !! p = files w !! p.
Proof.
  intros Ho Hl. rewrite perform_conversion_dispatch.
  destruct (capability_for _ _); [by apply convert_files|done].
Qed.

(** a step allocates at most new jobs, and leaves the paths of the
    jobs there are *)
Lemma paths_step w e w' :
  step uuid4_at time_at converter_at w e w' →
  (next_ref w ≤ next_ref w')%nat
  ∧ ∀ l, (l < next_ref w)%nat →
      ConversionJob.file_path (heap w' l)
      = ConversionJob.file_path (heap w l)
      ∧ ConversionJob.converted_file_path (heap w' l)
        = ConversionJob.converted_file_path (heap w l).
Proof.
  intros [r w0 _|job q1 q2 w0 _|job t s1 s2 w0 _].
  - destruct (serve_effect uuid4_at time_at r w0)
      as [-> | job_id job fs _ -> _ | (Hn & Hh & _) _ _ _ _]; [done..|].
    split; [lia|]. intros l Hl. rewrite Hh; [done|lia].
  - destruct (start_task_spec time_at job q1 q2 w0) as (Hj & Hh & -> & _).
    split; [done|]. intros l _.
    destruct (decide (l = job)) as [->|]; [by rewrite Hj|by rewrite Hh].
  - pose proof (resume_task_spec time_at converter_at job t s1 s2 w0)
      as Hspec.
    cbv zeta in Hspec. destruct (perform_conversion _ _ _) as [r w1].
    destruct Hspec as (Hj & Hh & -> & _).
    split; [done|]. intros l _.
    destruct (decide (l = job)) as [->|]; [|by rewrite Hh].
    rewrite Hj. apply settled_paths.
Qed.

(** paths that are distinct at the end of a run were distinct all
    along *)
Lemma distinct_paths_step w e w' :
  step uuid4_at time_at converter_at w e w' →
  distinct_paths w' → distinct_paths w.
Proof.
  intros [Hn Hp]%paths_step Hd l1 l2 p Hl1 Hl2 Hne Hpath.
  destruct (Hp l1 Hl1) as [_ E1], (Hp l2 Hl2) as [E2 E2'].
  rewrite <- E2, <- E2'. apply (Hd l1 l2 p); [lia|lia|done|congruence].
Qed.

Lemma distinct_paths_steps w es w' :
  steps uuid4_at time_at converter_at w es w' →
  distinct_paths w' → distinct_paths w.
Proof.
  induction 1 as [w|w e w1 es w2 Hstep _ IH]; [done|].
  intros Hd. eapply distinct_paths_step; eauto.
Qed.

Lemma FilesInv_initial w : initial w → FilesInv w.
Proof. intros (Hn & Hreg & _) job_id l. by rewrite Hreg, lookup_empty. Qed.

Lemma FilesInv_request w w' :
  Inv w → FilesInv w → request_effect w w' → distinct_paths w' →
  FilesInv w'.
Proof.
  intros [Hreg Hids _ _ _ _ _] Hart Heff Hpaths.
  destruct Heff as [-> | job_id job fs Hjob -> Hfs
                   | (Hn & Hh & Hs & _) Hst Hu Hfs Hsub].
  - done.
  - intros job_id' l. simpl. intros [Hne Hl]%lookup_delete_Some Hc.
    destruct (Hart _ _ Hl Hc) as (p & n & Hp & Hn & Hsz).
    exists p, n. split; [done|]. split; [|done].
    destruct (Hreg _ _ Hl) as [Hlt Hid], (Hreg _ _ Hjob) as [Hlt' Hid'].
    assert (l ≠ job) as Hlj by congruence.
    destruct (Hpaths l job p Hlt Hlt' Hlj Hp) as (? & ? & _).
    by rewrite Hfs.
  - assert (∀ l, (l < next_ref w)%nat → heap w' l = heap w l) as Hold.
    { intros l Hl. apply Hh. lia. }
    intros job_id l Hl Hc.
    assert (conversion_jobs w !! job_id = Some l) as Ho.
    { destruct Hsub as [[E _]|[E _]]; rewrite E in Hl; [done|].
      apply lookup_insert_Some in Hl as [[_ <-]|[_ Hl]]; [|done].
      congruence. }
    destruct (Hreg _ _ Ho) as [Hlt _].
    assert (ConversionJob.converted_file_path (heap w' l)
            = ConversionJob.converted_file_path (heap w l)) as E
      by by rewrite Hold.
    rewrite Hold in Hc |- * by done.
    destruct (Hart _ _ Ho Hc) as (p & n & Hp & Hn' & Hsz).
    exists p, n. split; [done|]. split; [|done].
    rewrite Hfs; [done|].
    apply (Hpaths l (next_ref w) p); [lia|lia|lia|congruence].
Qed.

Lemma FilesInv_start job q1 q2 w :
  FilesInv w → FilesInv (start_task time_at job q1 q2 w).
Proof.
  intros Hart.
  pose proof (start_task_spec time_at job q1 q2 w) as Hspec.
  cbv zeta in Hspec. revert Hspec.
  generalize (start_task time_at job q1 q2 w).
  intros w' (Hj & Hh & Hn & Hreg' & Hfs & _).
  intros job_id l. rewrite Hreg', Hfs. intros Hl Hc.
  assert (l ≠ job) as Hne.
  { intros ->. by rewrite Hj in Hc. }
  apply lookup_insert_Some in Hl as [[_ <-]|[_ Hl]]; [done|].
  rewrite Hh in Hc by done. rewrite Hh by done. by eapply Hart.
Qed.

Lemma FilesInv_resume job start_time s1 s2 w :
  Inv w → FilesInv w → distinct_paths w →
  suspended w = s1 ++ (job, start_time) :: s2 →
  FilesInv (resume_task time_at converter_at job start_time s1 s2 w).
Proof.
  intros [Hreg _ _ _ Hrun _ _] Hart Hpaths Hjob.
  pose proof (resume_task_spec time_at converter_at job start_time s1 s2 w)
    as Hspec.
  cbv zeta in Hspec.
  pose proof (perform_conversion_files job
                (with_tasks (background_tasks w) (s1 ++ s2) w)) as Hframe.
  destruct (perform_conversion _ _ _) as [r w1]. simpl in Hframe.
  revert Hspec.
  generalize (resume_task time_at converter_at job start_time s1 s2 w).
  intros w' (Hj & Hh & Hn & Hreg' & Hfs & _).
  assert (job ∈ (suspended w).*1) as Hin.
  { rewrite Hjob, fmap_app. apply elem_of_app. right. by left. }
  destruct (Hrun _ Hin) as [Hlt Hst].
  intros job_id l. rewrite Hreg', Hfs. intros Hl Hc.
  destruct (decide (l = job)) as [->|Hne].
  - rewrite Hj, settled_status in Hc.
    destruct (converted_output _ _ _) as [n|] eqn:Ho; [|done].
    destruct (converted_output_path _ _ _ _ Ho) as (p & Hpath & Hn').
    exists p, n. rewrite Hj.
    destruct (settled_paths time_at (heap w job) r (files w1) start_time
                (clock_calls w)) as [_ ->].
    split; [done|]. split; [done|]. by apply settled_converted_file_size.
  - apply lookup_insert_Some in Hl as [[_ <-]|[_ Hl]]; [done|].
    rewrite Hh in Hc by done. rewrite Hh by done.
    destruct (Hart _ _ Hl Hc) as (p & n & Hpath & Hn' & Hsz).
    exists p, n. split; [done|]. split; [|done].
    destruct (Hreg _ _ Hl) as [Hlt' _].
    destruct (Hpaths l job p Hlt' Hlt Hne Hpath) as (_ & Hcp & Hlo).
    by rewrite Hframe.
Qed.

Lemma FilesInv_steps w es w' :
  Inv w → FilesInv w → steps uuid4_at time_at converter_at w es w' →
  distinct_paths w' → FilesInv w'.
Proof.
  intros HI HF Hsteps.
  induction Hsteps as [w|w e w' es w'' Hstep Hsteps IH]; [done|].
  intros Hd.
  pose proof (distinct_paths_steps _ _ _ Hsteps Hd) as Hd'.
  destruct (Inv_step _ _ _ _ _ _ HI Hstep) as [HI' _].
  apply IH; [done| |done].
  pose proof (distinct_paths_step _ _ _ Hstep Hd') as Hd0.
  destruct Hstep as [r w Hfresh|job q1 q2 w Hq|job t s1 s2 w Hs].
  - apply (FilesInv_request w); [done|done|apply serve_effect|done].
  - by apply FilesInv_start.
  - by apply FilesInv_resume.
Qed.

(** In a world the service reaches in which no job works on the
    converted path of another, the artifacts of the COMPLETED jobs of
    the registry are on disk. *)
Lemma FilesInv_reachable w :
  reachable uuid4_at time_at converter_at w → distinct_paths w →
  FilesInv w.
Proof.
  intros (w0 & es & H0 & Hsteps) Hd.
  eapply FilesInv_steps; [by apply Inv_initial|by apply FilesInv_initial|..];
    done.
Qed.

End Artifacts.

Lemma writes_output_only_confined converter_at :
  writes_output_only converter_at → confined converter_at.
Proof. intros H k c i o fs p Ho _. by apply H. Qed.


(** ** After a cleanup *)

Section Cleanup.

Variable uuid4_at : nat → string.
Variable time_at : nat → Q.
Variable converter_at : nat → Converter.

Lemma retired_step l w e w' :
  Inv w → retired l w → step uuid4_at time_at converter_at w e w' →
  retired l w'
  ∧ ConversionJob.id (heap w' l) = ConversionJob.id (heap w l).
Proof.
  intros HI (Hlt & Habs & Hq & Hs) Hstep.
  destruct (Inv_step _ _ _ _ _ _ HI Hstep) as [_ [Hn Hf]].
  destruct (Hf l Hlt) as [Hid _]. split; [|done].
  unfold retired. rewrite Hid. split; [lia|].
  destruct Hstep as [r w Hfresh|job q1 q2 w Hjob|job t s1 s2 w Hjob].
  - destruct (serve_effect uuid4_at time_at r w)
      as [-> | job_id job fs Hjob -> Hfs
         | (Hn' & Hh & Hs' & _) Hst Hu Hfs Hsub]; [done|..].
    + simpl. split_and!; try done.
      apply lookup_delete_None. by right.
    + rewrite Hs'. split_and!; [|  |done].
      * destruct Hsub as [[-> _]|[-> _]]; [done|].
        rewrite lookup_insert_ne; [done|].
        apply (Hfresh (next_ref w)); [lia|done].
      * destruct Hsub as [[_ ->]|[_ ->]]; [done|].
        intros [?| ->%list_elem_of_singleton]%elem_of_app; [done|lia].
  - destruct (start_task_spec time_at job q1 q2 w)
      as (_ & _ & _ & -> & _ & -> & ->).
    assert (job ∈ background_tasks w) as Hin.
    { rewrite Hjob. apply elem_of_app. right. by left. }
    assert (job ≠ l) as Hne by congruence.
    destruct (inv_queued _ HI _ Hin) as [Hlt' _].
    split_and!.
    + rewrite lookup_insert_ne; [done|].
      intros E. by apply Hne, (inv_ids _ HI).
    + intros Hin'. apply Hq. rewrite Hjob.
      apply elem_of_app in Hin' as [?|?]; apply elem_of_app; [by left|].
      right. by right.
    + rewrite fmap_app. simpl.
      by intros [?| ->%list_elem_of_singleton]%elem_of_app.
  - pose proof (resume_task_spec time_at converter_at job t s1 s2 w) as Hspec.
    cbv zeta in Hspec. destruct (perform_conversion _ _ _) as [r w1].
    destruct Hspec as (_ & _ & _ & -> & _ & -> & ->).
    assert (job ∈ (suspended w).*1) as Hin.
    { rewrite Hjob, fmap_app. apply elem_of_app. right. by left. }
    assert (job ≠ l) as Hne by congruence.
    destruct (inv_running _ HI _ Hin) as [Hlt' _].
    split_and!; [|done|].
    + rewrite lookup_insert_ne; [done|].
      intros E. by apply Hne, (inv_ids _ HI).
    + intros Hin'. apply Hs. rewrite Hjob, fmap_app. simpl.
      rewrite fmap_app in Hin'.
      apply elem_of_app in Hin' as [?|?]; apply elem_of_app; [by left|].
      right. by right.
Qed.

(** Once a job has left the registry with no task of its own left to
    run, its id stays out of the registry whatever the service does,
    and the three endpoints answer 404 for it. *)
Lemma retired_stays_absent l w es w' :
  Inv w → retired l w → steps uuid4_at time_at converter_at w es w' →
  let job_id := ConversionJob.id (heap w l) in
  conversion_jobs w' !! job_id = None
  ∧ (get_conversion_status job_id w').1
    = Raise (HTTPException 404 "Conversion job not found")
  ∧ (download_converted_file job_id w').1
    = Raise (HTTPException 404 "Conversion job not found")
  ∧ (cleanup_conversion_files job_id w').1
    = Raise (HTTPException 404 "Conversion job not found").
Proof.
  intros HI Hr Hsteps job_id.
  assert (retired l w'
          ∧ ConversionJob.id (heap w' l) = ConversionJob.id (heap w l))
    as [(_ & Habs & _) Hid].
  { induction Hsteps as [w|w e w' es w'' Hstep _ IH]; [done|].
    destruct (retired_step _ _ _ _ HI Hr Hstep) as [Hr' Hid'].
    destruct (Inv_step _ _ _ _ _ _ HI Hstep) as [HI' _].
    destruct (IH HI' Hr') as [Hr'' Hid'']. split; [done|congruence]. }
  rewrite Hid in Habs. split; [done|].
  by rewrite get_conversion_status_missing, download_converted_file_missing,
       cleanup_conversion_files_missing.
Qed.

(** A cleanup of a job in the registry succeeds and removes the
    entry; the files of the job that are regular files are removed,
    and a directory in their place is left alone without an error. *)
Lemma cleanup_conversion_files_removes job_id job w :
  conversion_jobs w !! job_id = Some job →
  let '(r, w') := cleanup_conversion_files job_id w in
  r = Ok "Files cleaned up successfully"
  ∧ conversion_jobs w' = delete job_id (conversion_jobs w)
  ∧ conversion_jobs w' !! job_id = None
  ∧ heap w' = heap w
  ∧ background_tasks w' = background_tasks w
  ∧ suspended w' = suspended w
  ∧ (∀ q n, ConversionJob.file_path (heap w job) = Some q
            ∨ ConversionJob.converted_file_path (heap w job) = Some q →
            q ≠ "" → files w !! q = Some n → is_dir n = false →
            files w' !! q = None).
Proof.
  intros Hjob.
  destruct (cleanup_conversion_files_found _ _ _ Hjob)
    as (fs & -> & _ & _ & Hdel).
  simpl. split_and!; try done. apply lookup_delete_eq.
Qed.

End Cleanup.


(** ** The converters of the service keep to their files *)

Section Confined.

Context {A B : Type}.
Implicit Types p : string.

Lemma keeps_ret p (a : A) : keeps p (mret a).
Proof. by intros w. Qed.

Lemma keeps_raise p e : keeps p (raise e : M A).
Proof. by intros w. Qed.

Lemma keeps_lift p (r : result A) : keeps p (lift r).
Proof. by intros w. Qed.

Lemma keeps_bind p (m : M A) (k : A → M B) :
  keeps p m → (∀ a, keeps p (k a)) → keeps p (m ≫= k).
Proof.
  intros Hm Hk w. unfold mbind, M_bind, bind.
  specialize (Hm w). destruct (m w) as [[a|e] w']; [|done].
  cbn [snd] in Hm. by rewrite Hk.
Qed.

Lemma keeps_try_except p (m : M A) (h : exn → M A) :
  keeps p m → (∀ e, keeps p (h e)) → keeps p (try_except m h).
Proof.
  intros Hm Hh w. unfold try_except.
  specialize (Hm w). destruct (m w) as [[a|e] w']; [done|].
  cbn [snd] in Hm. by rewrite Hh.
Qed.

Lemma keeps_call p (f : External A) :
  (∀ fs, (f fs).2 !! p = fs !! p) → keeps p (call f).
Proof.
  intros Hf w. unfold call. specialize (Hf (files w)).
  by destruct (f (files w)).
Qed.

Lemma keeps_call_reader p (f : External A) :
  (∀ fs, (f fs).2 = fs) → keeps p (call f).
Proof. intros Hf. apply keeps_call. intros fs. by rewrite Hf. Qed.

Lemma keeps_index p (xs : list A) i : keeps p (index xs i).
Proof. intros w. unfold index. by destruct (xs !! i). Qed.

End Confined.

Lemma keeps_PurePath p path : keeps p (PurePath path).
Proof. intros w. destruct path; reflexivity. Qed.

Lemma keeps_PurePath_bind {B} p path (k : string → M B) :
  (∀ s, path = Some s → keeps p (k s)) → keeps p (PurePath path ≫= k).
Proof.
  destruct path as [s|]; intros Hk w; [exact (Hk s eq_refl w)|reflexivity].
Qed.

Lemma keeps_os_path_exists p path : keeps p (os_path_exists path).
Proof. intros w. destruct path; reflexivity. Qed.

Lemma keeps_os_rename p src dst :
  p ≠ src → dst ≠ Some p → keeps p (os_rename src dst).
Proof.
  intros Hs Hd w. destruct dst as [d|]; [|reflexivity]. unfold os_rename.
  assert (d ≠ p) by congruence.
  destruct (files w !! src) as [n|]; [|reflexivity].
  destruct (files w !! d) as [m|].
  - destruct (is_dir m && negb (is_dir n)); [reflexivity|].
    destruct (negb (is_dir m) && is_dir n); [reflexivity|].
    cbn. by rewrite lookup_insert_ne, lookup_delete_ne.
  - cbn. by rewrite lookup_insert_ne, lookup_delete_ne.
Qed.

Lemma run_keeps {A} p (m : M A) fs :
  keeps p m →
  (let '(r, w) := m (only_files fs) in (r, files w)).2 !! p = fs !! p.
Proof.
  intros Hm. specialize (Hm (only_files fs)).
  destruct (m (only_files fs)). exact Hm.
Qed.

Section ConfinedConverters.

Variable lib : Libraries.
Hypothesis Hlib : well_behaved lib.

Implicit Types p : string.
Implicit Types input_path output_path : option string.

Lemma keeps_libreoffice p input_path output_path :
  libreoffice_pdf input_path output_path ≠ Some p →
  keeps p (ConversionService.libreoffice lib input_path output_path).
Proof.
  intros Hp. unfold ConversionService.libreoffice.
  apply keeps_PurePath_bind. intros out ->.
  apply keeps_call. intros fs. apply (subprocess_run_frame _ Hlib).
  intros i -> ->. by apply Hp.
Qed.

Lemma keeps_move_generated_pdf p input_path output_path :
  output_path ≠ Some p →
  libreoffice_pdf input_path output_path ≠ Some p →
  keeps p (ConversionService.move_generated_pdf input_path output_path).
Proof.
  intros Ho Hp. unfold ConversionService.move_generated_pdf.
  apply keeps_PurePath_bind. intros inp ->.
  apply keeps_PurePath_bind. intros out ->.
  apply keeps_bind; [apply keeps_os_path_exists|]. intros e.
  destruct (e && _); [|apply keeps_ret].
  apply keeps_os_rename; [|done]. intros ->. by apply Hp.
Qed.

Lemma keeps_manual_word_to_pdf p input_path output_path :
  output_path ≠ Some p →
  keeps p (ConversionService._manual_word_to_pdf lib input_path output_path).
Proof.
  intros Ho. unfold ConversionService._manual_word_to_pdf.
  apply keeps_bind;
    [apply keeps_call_reader, (Document_frame _ Hlib)|].
  intros paragraphs. apply keeps_call. intros fs.
  by apply (SimpleDocTemplate_build_frame _ Hlib).
Qed.

Lemma keeps_word_to_pdf p input_path output_path :
  output_path ≠ Some p →
  libreoffice_pdf input_path output_path ≠ Some p →
  keeps p (ConversionService.word_to_pdf lib input_path output_path).
Proof.
  intros Ho Hp. unfold ConversionService.word_to_pdf.
  apply keeps_try_except; [|intros; apply keeps_ret].
  apply keeps_bind; [by apply keeps_libreoffice|]. intros returncode.
  apply keeps_bind; [|intros; apply keeps_os_path_exists].
  destruct (returncode =? 0);
    [by apply keeps_move_generated_pdf|by apply keeps_manual_word_to_pdf].
Qed.

Lemma keeps_pdf_to_word p input_path output_path :
  output_path ≠ Some p →
  keeps p (ConversionService.pdf_to_word lib input_path output_path).
Proof.
  intros Ho. unfold ConversionService.pdf_to_word.
  apply keeps_try_except; [|intros; apply keeps_ret].
  apply keeps_bind; [|intros; apply keeps_os_path_exists].
  unfold ConversionService._manual_pdf_to_word.
  apply keeps_bind;
    [apply keeps_call_reader, (PdfReader_pages_frame _ Hlib)|].
  intros text_content. apply keeps_call. intros fs.
  by apply (Document_save_frame _ Hlib).
Qed.

Lemma keeps_text_to_pdf p input_path output_path :
  output_path ≠ Some p →
  keeps p (ConversionService.text_to_pdf lib input_path output_path).
Proof.
  intros Ho. unfold ConversionService.text_to_pdf.
  apply keeps_try_except; [|intros; apply keeps_ret].
  apply keeps_bind;
    [apply keeps_call_reader, (aiofiles_read_frame _ Hlib)|].
  intros text_content.
  apply keeps_bind; [|intros; apply keeps_ret].
  apply keeps_call. intros fs.
  by apply (SimpleDocTemplate_build_frame _ Hlib).
Qed.

Lemma keeps_open_rgb p path :
  keeps p (ConversionService.open_rgb lib path).
Proof.
  unfold ConversionService.open_rgb.
  apply keeps_bind; [apply keeps_call_reader, (Image_open_frame _ Hlib)|].
  intros image. destruct (negb _); [apply keeps_lift|apply keeps_ret].
Qed.

Lemma keeps_open_all p input_paths :
  keeps p (ConversionService.open_all lib input_paths).
Proof.
  induction input_paths as [|img_path rest IH]; [apply keeps_ret|].
  cbn [ConversionService.open_all].
  apply keeps_bind; [apply keeps_open_rgb|]. intros img.
  apply keeps_bind; [exact IH|]. intros images. apply keeps_ret.
Qed.

Lemma keeps_image_to_pdf p input_paths output_path :
  output_path ≠ Some p →
  keeps p (ConversionService.image_to_pdf lib input_paths output_path).
Proof.
  intros Ho. unfold ConversionService.image_to_pdf.
  apply keeps_try_except; [|intros; apply keeps_ret].
  apply keeps_bind; [|intros; apply keeps_ret].
  destruct (length input_paths =? 1)%nat.
  - apply keeps_bind; [apply keeps_index|]. intros path.
    apply keeps_bind; [apply keeps_open_rgb|]. intros image.
    apply keeps_call. intros fs. by apply (Image_save_frame _ Hlib).
  - apply keeps_bind; [apply keeps_open_all|]. intros images.
    apply keeps_bind; [apply keeps_index|]. intros first.
    apply keeps_call. intros fs. by apply (Image_save_frame _ Hlib).
Qed.

Lemma keeps_manual_excel_to_pdf p input_path output_path :
  output_path ≠ Some p →
  keeps p (ConversionService._manual_excel_to_pdf lib input_path output_path).
Proof.
  intros Ho. unfold ConversionService._manual_excel_to_pdf.
  apply keeps_bind;
    [apply keeps_call_reader, (load_workbook_frame _ Hlib)|].
  intros wb. apply keeps_call. intros fs.
  by apply (Canvas_save_frame _ Hlib).
Qed.

Lemma keeps_excel_to_pdf p input_path output_path :
  output_path ≠ Some p →
  libreoffice_pdf input_path output_path ≠ Some p →
  keeps p (ConversionService.excel_to_pdf lib input_path output_path).
Proof.
  intros Ho Hp. unfold ConversionService.excel_to_pdf.
  apply keeps_try_except; [|intros; apply keeps_ret].
  apply keeps_bind.
  - unfold ConversionService.excel_libreoffice.
    destruct (negb _); [|apply keeps_ret].
    apply keeps_bind; [by apply keeps_libreoffice|]. intros returncode.
    destruct (returncode =? 0); [|apply keeps_ret].
    apply keeps_bind; [by apply keeps_move_generated_pdf|]. intros _.
    apply keeps_bind; [apply keeps_os_path_exists|]. intros e.
    apply keeps_ret.
  - intros [e|]; [apply keeps_ret|].
    apply keeps_bind; [by apply keeps_manual_excel_to_pdf|].
    intros; apply keeps_ret.
Qed.

(** The capabilities of the service, over libraries that keep to
    their files, change nothing but their output path and the PDF
    that LibreOffice leaves beside it. *)
Lemma service_converter_confined :
  confined (λ _, service_converter lib).
Proof.
  intros k c input_path output_path fs p Ho Hp.
  destruct c; cbn beta iota delta [service_converter]; apply run_keeps.
  - by apply keeps_word_to_pdf.
  - by apply keeps_pdf_to_word.
  - by apply keeps_text_to_pdf.
  - by apply keeps_image_to_pdf.
  - by apply keeps_excel_to_pdf.
Qed.

End ConfinedConverters.


(** ** The claims about the endpoints *)

Section EndpointClaims.

Variable uuid4_at : nat → string.
Variable time_at : nat → Q.
Variable converter_at : nat → Converter.

(** C7. [download(id)] fails with 404 "Conversion job not found" for
    an id not in the registry, with 400 "Conversion not completed yet"
    for a job that is not COMPLETED, with 404 "Converted file not
    found" for a COMPLETED job whose converted path is not on disk,
    and otherwise returns the response that streams the converted
    file under the converted filename; in a reachable world a COMPLETED
    job always has a converted path, so the four cases are all there
    are. *)
Theorem download_converted_file_cases job_id w :
  (conversion_jobs w !! job_id = None →
   download_converted_file job_id w
   = (Raise (HTTPException 404 "Conversion job not found"), w))
  ∧ (∀ job, conversion_jobs w !! job_id = Some job →
       ConversionJob.status (heap w job) ≠ COMPLETED →
       download_converted_file job_id w
       = (Raise (HTTPException 400 "Conversion not completed yet"), w))
  ∧ (∀ job p, conversion_jobs w !! job_id = Some job →
       ConversionJob.status (heap w job) = COMPLETED →
       ConversionJob.converted_file_path (heap w job) = Some p →
       files w !! p = None →
       download_converted_file job_id w
       = (Raise (HTTPException 404 "Converted file not found"), w))
  ∧ (∀ job p n, conversion_jobs w !! job_id = Some job →
       ConversionJob.status (heap w job) = COMPLETED →
       ConversionJob.converted_file_path (heap w job) = Some p →
       files w !! p = Some n →
       download_converted_file job_id w
       = (Ok {| fr_path := Some p;
                fr_filename := ConversionJob.converted_filename (heap w job);
                fr_media_type := "application/octet-stream" |}, w))
  ∧ (reachable uuid4_at time_at converter_at w →
     ∀ job, conversion_jobs w !! job_id = Some job →
       ConversionJob.status (heap w job) = COMPLETED →
       is_Some (ConversionJob.converted_file_path (heap w job))).
Proof.
  split_and!.
  - apply download_converted_file_missing.
  - intros job Hjob Hst. unfold download_converted_file. unfold_M.
    rewrite (lookup_job_found _ _ _ Hjob).
    by rewrite bool_decide_false.
  - intros job p Hjob Hst Hp Hfs. unfold download_converted_file. unfold_M.
    rewrite (lookup_job_found _ _ _ Hjob).
    rewrite bool_decide_true by done. simpl. rewrite Hp. simpl.
    rewrite bool_decide_false; [done|]. rewrite Hfs. by intros [? ?].
  - intros job p n Hjob Hst Hp Hfs. unfold download_converted_file. unfold_M.
    rewrite (lookup_job_found _ _ _ Hjob).
    rewrite bool_decide_true by done. simpl. rewrite Hp. simpl.
    rewrite bool_decide_true; [done|]. rewrite Hfs. eauto.
  - intros HI%Inv_reachable job Hjob Hst.
    destruct (inv_registry _ HI _ _ Hjob) as [Hlt _].
    by apply (inv_completed_path _ HI).
Qed.

(** the progress the status endpoint reports for a status *)
Lemma get_conversion_status_found job_id job w :
  conversion_jobs w !! job_id = Some job →
  ∃ st, get_conversion_status job_id w = (Ok st, w)
    ∧ st_status st = status_value (ConversionJob.status (heap w job))
    ∧ st_progress st = match ConversionJob.status (heap w job) with
                       | PENDING => 0
                       | PROCESSING => 50
                       | COMPLETED => 100
                       | FAILED => 0
                       end
    ∧ st_download_url st
      = match ConversionJob.status (heap w job) with
        | COMPLETED => ConversionJob.download_url (heap w job)
        | _ => None
        end.
Proof.
  intros Hjob. unfold get_conversion_status. unfold_M.
  rewrite (lookup_job_found _ _ _ Hjob). eexists. split; [reflexivity|].
  simpl. by destruct (ConversionJob.status (heap w job)).
Qed.

(** C9. For an id in the registry the status endpoint reports a
    progress that is a function of the status alone: 0 for PENDING, 50
    for PROCESSING, 100 for COMPLETED, 0 for FAILED.  Right after a
    successful submission, and in any reachable world as long as the
    job's task is still queued, it reports "pending" with progress 0. *)
Theorem get_conversion_status_progress :
  (∀ w job_id job,
     conversion_jobs w !! job_id = Some job →
     ∃ st, get_conversion_status job_id w = (Ok st, w)
       ∧ st_status st = status_value (ConversionJob.status (heap w job))
       ∧ st_progress st = match ConversionJob.status (heap w job) with
                          | PENDING => 0
                          | PROCESSING => 50
                          | COMPLETED => 100
                          | FAILED => 0
                          end)
  ∧ (∀ w file conversion_type from_format to_format r w',
       handle_conversion uuid4_at time_at file conversion_type from_format
         to_format w = (Ok r, w') →
       ∃ st, get_conversion_status (resp_job_id r) w' = (Ok st, w')
         ∧ st_status st = "pending" ∧ st_progress st = 0)
  ∧ (∀ w job_id job,
       reachable uuid4_at time_at converter_at w →
       conversion_jobs w !! job_id = Some job →
       job ∈ background_tasks w →
       ∃ st, get_conversion_status job_id w = (Ok st, w)
         ∧ st_status st = "pending" ∧ st_progress st = 0).
Proof.
  split_and!.
  - intros w job_id job Hjob.
    destruct (get_conversion_status_found _ _ _ Hjob) as (st & ? & ? & ? & _).
    eauto.
  - intros w file conversion_type from_format to_format r w' Hrun.
    assert (∃ n, conversion_jobs w' !! resp_job_id r = Some n
                 ∧ ConversionJob.status (heap w' n) = PENDING)
      as (n & Hjob & Hst).
    { destruct (handle_conversion_cases uuid4_at time_at file conversion_type
                  from_format to_format w)
        as [[_ E]|[(_ & msg & w1 & _ & E & _)|[(_ & _ & _ & w1 & E & _)
           |(_ & _ & _ & w1 & E & _ & Hj & _ & Hreg & _)]]];
        rewrite Hrun in E; try discriminate E.
      injection E as -> ->. exists (next_ref w). rewrite Hreg, Hj. simpl.
      by rewrite lookup_insert_eq. }
    destruct (get_conversion_status_found _ _ _ Hjob) as (st & ? & Hs & Hp & _).
    exists st. rewrite Hs, Hp, Hst. done.
  - intros w job_id job HI%Inv_reachable Hjob Hq.
    destruct (inv_queued _ HI _ Hq) as [_ Hst].
    destruct (get_conversion_status_found _ _ _ Hjob) as (st & ? & Hs & Hp & _).
    exists st. rewrite Hs, Hp, Hst. done.
Qed.

(** C6. In a reachable world a job in the registry has a
    [download_url] exactly when it is COMPLETED, and the status
    endpoint returns a null [download_url] for a PENDING, PROCESSING or
    FAILED job and a non-null one for a COMPLETED job. *)
Theorem download_url_iff_completed w job_id job :
  reachable uuid4_at time_at converter_at w →
  conversion_jobs w !! job_id = Some job →
  (ConversionJob.download_url (heap w job) ≠ None
   ↔ ConversionJob.status (heap w job) = COMPLETED)
  ∧ ∃ st, get_conversion_status job_id w = (Ok st, w)
      ∧ (ConversionJob.status (heap w job) ≠ COMPLETED →
         st_download_url st = None)
      ∧ (ConversionJob.status (heap w job) = COMPLETED →
         st_download_url st ≠ None).
Proof.
  intros HI%Inv_reachable Hjob.
  destruct (inv_registry _ HI _ _ Hjob) as [Hlt _].
  pose proof (inv_url _ HI _ Hlt) as Hurl. split; [done|].
  destruct (get_conversion_status_found _ _ _ Hjob) as (st & ? & _ & _ & Hu).
  exists st. split; [done|]. rewrite Hu.
  destruct (ConversionJob.status (heap w job)); split; try done.
  intros _. by apply Hurl.
Qed.


End EndpointClaims.

Section ArtifactClaim.

Variable uuid4_at : nat → string.
Variable time_at : nat → Q.
Variable converter_at : nat → Converter.


End ArtifactClaim.


(** ** The claims about submission *)

Section SubmissionClaims.

Variable uuid4_at : nat → string.
Variable time_at : nat → Q.


Lemma handle_conversion_valid_type file conversion_type from_format
    to_format w :
  Py.contains (file_ext (filename file)) (ALLOWED_FORMATS conversion_type)
  = true →
  (handle_conversion uuid4_at time_at file conversion_type from_format
     to_format w).1 ≠ Raise (invalid_format conversion_type).
Proof.
  intros Hc.
  destruct (handle_conversion_cases uuid4_at time_at file conversion_type
              from_format to_format w)
    as [[Hc' _]|[(_ & msg & w' & _ & -> & _)|[(_ & _ & _ & w' & -> & _)
       |(_ & _ & _ & w' & -> & _)]]]; [congruence|done..].
Qed.

Lemma whitelisted_lower conversion_type e :
  e ∈ ALLOWED_FORMATS conversion_type →
  Py.lstrip "." (Py.lower ("." +:+ e)) = e.
Proof.
  destruct conversion_type; simpl; intros H;
    repeat (apply elem_of_cons in H as [->|H]; [reflexivity|]);
    by apply elem_of_nil in H.
Qed.

(** C10. The extension check is case-insensitive.  A submission is
    rejected for its type exactly when the lower-cased suffix of the
    filename, without its dot, is not in the whitelist; so two
    filenames with the same lower-cased suffix are both rejected or
    both not, and a filename whose suffix is a whitelisted extension in
    any letter case is not rejected (".PNG" for image-to-pdf). *)
Theorem extension_check_case_insensitive conversion_type from_format
    to_format w :
  (∀ file,
     (handle_conversion uuid4_at time_at file conversion_type from_format
        to_format w).1 = Raise (invalid_format conversion_type)
     ↔ Py.contains (Py.lstrip "." (Py.lower (Path.suffix (filename file))))
         (ALLOWED_FORMATS conversion_type) = false)
  ∧ (∀ file1 file2,
       Py.lower (Path.suffix (filename file1))
       = Py.lower (Path.suffix (filename file2)) →
       (handle_conversion uuid4_at time_at file1 conversion_type from_format
          to_format w).1 = Raise (invalid_format conversion_type)
       ↔ (handle_conversion uuid4_at time_at file2 conversion_type from_format
            to_format w).1 = Raise (invalid_format conversion_type))
  ∧ (∀ file e,
       e ∈ ALLOWED_FORMATS conversion_type →
       Py.lower (Path.suffix (filename file)) = Py.lower ("." +:+ e) →
       (handle_conversion uuid4_at time_at file conversion_type from_format
          to_format w).1 ≠ Raise (invalid_format conversion_type))
  ∧ (∀ content_length,
       (handle_conversion uuid4_at time_at
          {| filename := "photo.PNG"; content_length := content_length |}
          IMAGE_TO_PDF from_format to_format w).1
       ≠ Raise (invalid_format IMAGE_TO_PDF)).
Proof.
  assert (∀ file,
     (handle_conversion uuid4_at time_at file conversion_type from_format
        to_format w).1 = Raise (invalid_format conversion_type)
     ↔ Py.contains (file_ext (filename file))
         (ALLOWED_FORMATS conversion_type) = false) as Hiff.
  { intros file. split.
    - intros Hr. destruct (Py.contains _ _) eqn:Hc; [|done].
      by apply handle_conversion_valid_type in Hr.
    - intros Hc. by rewrite handle_conversion_invalid. }
  split_and!.
  - done.
  - intros file1 file2 E. rewrite !Hiff. unfold file_ext. by rewrite E.
  - intros file e He E. apply handle_conversion_valid_type.
    unfold file_ext. rewrite E, (whitelisted_lower conversion_type) by done.
    by apply bool_decide_eq_true.
  - intros sz. by apply handle_conversion_valid_type.
Qed.

End SubmissionClaims.


(** ** Examples *)

Example suffix_examples :
  Path.suffix "report.final.DOCX" = ".DOCX" ∧ Path.suffix ".bashrc" = ""
  ∧ Path.suffix "a.b/c" = "" ∧ Path.suffix "dir/x.png/" = ".png"
  ∧ Path.suffix "trailing." = ""
  ∧ Path.stem "dir/report.final.docx" = "report.final"
  ∧ Path.div "/tmp/conversions" "ab_x//y/./z.txt" = "/tmp/conversions/ab_x/y/z.txt".
Proof. repeat split; vm_compute; reflexivity. Qed.

(** Floats: 0.1 is not the rational 1/10; [round(x, 2)] rounds the
    double it is given, ties to even, and gives a double; with the clock
    at 0.1 and then at 1.405 the difference is a little less than 1.305
    and is rounded to 1.3. *)
Example round2_examples :
  double (1 # 10) = (3602879701896397 # 36028797018963968)%Q
  ∧ round2 (5 # 4) = (5 # 4)%Q ∧ round2 (1 # 8) = double (12 # 100)
  ∧ round2 (3 # 8) = double (38 # 100)
  ∧ round2 (double (2675 # 1000)) = double (267 # 100)
  ∧ Qle_bool (1305 # 1000) (fsub (1405 # 1000) (1 # 10)) = false
  ∧ round2 (fsub (1405 # 1000) (1 # 10)) = double (13 # 10).
Proof. repeat split; vm_compute; reflexivity. Qed.


Lemma demo_fresh (w w' : World) :
  next_ref w = 0%nat →
  ∀ l, (next_ref w ≤ l < next_ref w')%nat → unused_id w (heap w' l).
Proof. intros Hn l _ l' Hl'. lia. Qed.

Lemma demo_submitted_queue : background_tasks Demo.submitted = [] ++ 0%nat :: [].
Proof. vm_compute. reflexivity. Qed.

Lemma demo_started_suspended :
  suspended Demo.started = [] ++ (0%nat, Demo.time_at 1) :: [].
Proof. vm_compute. reflexivity. Qed.

Lemma demo_cleaned_suspended :
  suspended Demo.cleaned = [] ++ (0%nat, Demo.time_at 1) :: [].
Proof. vm_compute. reflexivity. Qed.

Lemma demo_submitted_step converter_at :
  step Demo.uuid4_at Demo.time_at converter_at Demo.world
    (Request (PostTxtToPdf Demo.upload)) Demo.submitted.
Proof.
  exact (step_request Demo.uuid4_at Demo.time_at converter_at
           (PostTxtToPdf Demo.upload) Demo.world
           (demo_fresh Demo.world _ eq_refl)).
Qed.

Lemma demo_started_step converter_at :
  step Demo.uuid4_at Demo.time_at converter_at Demo.submitted
    (TaskStart 0) Demo.started.
Proof.
  exact (step_start Demo.uuid4_at Demo.time_at converter_at 0 [] []
           Demo.submitted demo_submitted_queue).
Qed.

Lemma demo_completed_step size :
  step Demo.uuid4_at Demo.time_at (Demo.writes size) Demo.started
    (TaskResume 0) (Demo.completed size).
Proof.
  exact (step_resume Demo.uuid4_at Demo.time_at (Demo.writes size) 0
           (Demo.time_at 1) [] [] Demo.started demo_started_suspended).
Qed.

Lemma demo_submitted_steps converter_at :
  steps Demo.uuid4_at Demo.time_at converter_at Demo.world
    [Request (PostTxtToPdf Demo.upload)] Demo.submitted.
Proof.
  eapply steps_cons; [apply demo_submitted_step | apply steps_nil].
Qed.

Lemma demo_completed_steps size :
  steps Demo.uuid4_at Demo.time_at (Demo.writes size) Demo.world
    [Request (PostTxtToPdf Demo.upload); TaskStart 0; TaskResume 0]
    (Demo.completed size).
Proof.
  eapply steps_cons; [apply demo_submitted_step|].
  eapply steps_cons; [apply demo_started_step|].
  eapply steps_cons; [apply demo_completed_step | apply steps_nil].
Qed.

Lemma demo_initial : initial Demo.world.
Proof. by repeat split. Qed.

Lemma demo_completed_reachable size :
  reachable Demo.uuid4_at Demo.time_at (Demo.writes size) (Demo.completed size).
Proof. eexists _, _. split; [apply demo_initial|apply demo_completed_steps]. Qed.

Lemma demo_submitted_reachable converter_at :
  reachable Demo.uuid4_at Demo.time_at converter_at Demo.submitted.
Proof. eexists _, _. split; [apply demo_initial|apply demo_submitted_steps]. Qed.

Example demo_submitted_job :
  conversion_jobs Demo.submitted !! Demo.job_id = Some 0%nat
  ∧ background_tasks Demo.submitted = [0%nat]
  ∧ ConversionJob.status (heap Demo.submitted 0) = PENDING
  ∧ ConversionJob.converted_file_path (heap Demo.submitted 0)
    = Some Demo.converted_path
  ∧ ConversionJob.file_path (heap Demo.submitted 0)
    = Some "/tmp/conversions/9a7d4e52-1c3b-4f68-8e2a-6b0f1d3c5a77_notes.txt".
Proof. repeat split; vm_compute; reflexivity. Qed.

Example demo_completed_job :
  conversion_jobs (Demo.completed 2048) !! Demo.job_id = Some 0%nat
  ∧ ConversionJob.status (heap (Demo.completed 2048) 0) = COMPLETED
  ∧ ConversionJob.converted_file_size (heap (Demo.completed 2048) 0) = Some 2048
  ∧ ConversionJob.conversion_time (heap (Demo.completed 2048) 0)
    = Some (1 # 4)%Q
  ∧ files (Demo.completed 2048) !! Demo.converted_path
    = Some (Build_node false 2048).
Proof. repeat split; vm_compute; reflexivity. Qed.

Example demo_failed_jobs :
  let failed converter_at :=
    heap (resume_task Demo.time_at converter_at 0 (Demo.time_at 1) [] []
            Demo.started) 0 in
  (ConversionJob.status (failed Demo.returns_false) = FAILED
   ∧ ConversionJob.error_message (failed Demo.returns_false)
     = Some "Conversion failed")
  ∧ (ConversionJob.status (failed (Demo.raises "timed out")) = FAILED
     ∧ ConversionJob.error_message (failed (Demo.raises "timed out"))
       = Some "Conversion error: timed out")
  ∧ (ConversionJob.status (failed Demo.writes_nothing) = FAILED
     ∧ ConversionJob.error_message (failed Demo.writes_nothing)
       = Some "Conversion failed"
     ∧ ConversionJob.download_url (failed Demo.writes_nothing) = None
     ∧ ConversionJob.completed_at (failed Demo.writes_nothing)
       = Some (Demo.time_at 2)).
Proof. repeat split; vm_compute; reflexivity. Qed.

Example demo_rejected_uploads :
  (handle_conversion Demo.uuid4_at Demo.time_at Demo.renamed_upload
     IMAGE_TO_PDF "image" "pdf" Demo.world).1
  = Raise (HTTPException 400
             "Invalid file type. Supported formats: jpg, jpeg, png, gif, bmp, tiff")
  ∧ (handle_conversion Demo.uuid4_at Demo.time_at Demo.big_upload
       WORD_TO_PDF "word" "pdf" Demo.world).1
    = Raise (HTTPException 400 "File size exceeds 50MB limit")
  ∧ files (handle_conversion Demo.uuid4_at Demo.time_at Demo.big_upload
             WORD_TO_PDF "word" "pdf" Demo.world).2 = ∅.
Proof. repeat split; vm_compute; reflexivity. Qed.


(** ** The claims on the example run *)

Lemma demo_run_from_submitted size :
  steps Demo.uuid4_at Demo.time_at (Demo.writes size) Demo.submitted
    [TaskStart 0; TaskResume 0] (Demo.completed size).
Proof.
  eapply steps_cons; [apply demo_started_step|].
  eapply steps_cons; [apply demo_completed_step | apply steps_nil].
Qed.






Lemma download_url_iff_completed_witness :
  (ConversionJob.download_url (heap (Demo.completed 2048) 0) ≠ None
   ↔ ConversionJob.status (heap (Demo.completed 2048) 0) = COMPLETED)
  ∧ ∃ st, get_conversion_status Demo.job_id (Demo.completed 2048)
          = (Ok st, Demo.completed 2048)
      ∧ (ConversionJob.status (heap (Demo.completed 2048) 0) ≠ COMPLETED →
         st_download_url st = None)
      ∧ (ConversionJob.status (heap (Demo.completed 2048) 0) = COMPLETED →
         st_download_url st ≠ None).
Proof.
  apply (download_url_iff_completed Demo.uuid4_at Demo.time_at
           (Demo.writes 2048) (Demo.completed 2048) Demo.job_id 0%nat).
  - apply demo_completed_reachable.
  - vm_compute. reflexivity.
Defined.

Lemma download_converted_file_cases_witness :
  download_converted_file "no-such-id" Demo.world
  = (Raise (HTTPException 404 "Conversion job not found"), Demo.world)
  ∧ download_converted_file Demo.job_id Demo.started
    = (Raise (HTTPException 400 "Conversion not completed yet"), Demo.started)
  ∧ download_converted_file Demo.job_id Demo.artifact_lost
    = (Raise (HTTPException 404 "Converted file not found"), Demo.artifact_lost)
  ∧ download_converted_file Demo.job_id (Demo.completed 2048)
    = (Ok {| fr_path := Some Demo.converted_path;
             fr_filename :=
               ConversionJob.converted_filename (heap (Demo.completed 2048) 0);
             fr_media_type := "application/octet-stream" |},
       Demo.completed 2048)
  ∧ is_Some (ConversionJob.converted_file_path (heap (Demo.completed 2048) 0)).
Proof.
  destruct (download_converted_file_cases Demo.uuid4_at Demo.time_at
              (Demo.writes 2048) "no-such-id" Demo.world) as (Hmissing & _).
  destruct (download_converted_file_cases Demo.uuid4_at Demo.time_at
              (Demo.writes 2048) Demo.job_id Demo.started)
    as (_ & Hnot_ready & _).
  destruct (download_converted_file_cases Demo.uuid4_at Demo.time_at
              (Demo.writes 2048) Demo.job_id Demo.artifact_lost)
    as (_ & _ & Hlost & _).
  destruct (download_converted_file_cases Demo.uuid4_at Demo.time_at
              (Demo.writes 2048) Demo.job_id (Demo.completed 2048))
    as (_ & _ & _ & Hfile & Hpath).
  split_and!.
  - apply Hmissing. vm_compute. reflexivity.
  - apply (Hnot_ready 0%nat).
    + vm_compute. reflexivity.
    + vm_compute. discriminate.
  - apply (Hlost 0%nat Demo.converted_path); vm_compute; reflexivity.
  - apply (Hfile 0%nat Demo.converted_path (Build_node false 2048));
      vm_compute; reflexivity.
  - apply (Hpath (demo_completed_reachable 2048) 0%nat);
      vm_compute; reflexivity.
Defined.

Lemma get_conversion_status_progress_witness :
  (∃ st, get_conversion_status Demo.job_id Demo.started = (Ok st, Demo.started)
     ∧ st_status st
       = status_value (ConversionJob.status (heap Demo.started 0))
     ∧ st_progress st = match ConversionJob.status (heap Demo.started 0) with
                        | PENDING => 0
                        | PROCESSING => 50
                        | COMPLETED => 100
                        | FAILED => 0
                        end)
  ∧ (∃ st, get_conversion_status Demo.job_id Demo.submitted
           = (Ok st, Demo.submitted)
       ∧ st_status st = "pending" ∧ st_progress st = 0).
Proof.
  split.
  - apply (proj1 (get_conversion_status_progress Demo.uuid4_at Demo.time_at
                    (Demo.writes 2048)) Demo.started Demo.job_id 0%nat).
    vm_compute. reflexivity.
  - apply (proj2 (proj2 (get_conversion_status_progress Demo.uuid4_at
                           Demo.time_at (Demo.writes 2048)))
             Demo.submitted Demo.job_id 0%nat).
    + apply demo_submitted_reachable.
    + vm_compute. reflexivity.
    + vm_compute. left.
Defined.

Lemma extension_check_case_insensitive_witness :
  ((handle_conversion Demo.uuid4_at Demo.time_at
      {| filename := "a.JPG"; content_length := 1 |} IMAGE_TO_PDF "image" "pdf"
      Demo.world).1 = Raise (invalid_format IMAGE_TO_PDF)
   ↔ (handle_conversion Demo.uuid4_at Demo.time_at
        {| filename := "b.jpg"; content_length := 2 |} IMAGE_TO_PDF "image"
        "pdf" Demo.world).1 = Raise (invalid_format IMAGE_TO_PDF))
  ∧ (handle_conversion Demo.uuid4_at Demo.time_at
       {| filename := "scan.TiFF"; content_length := 1 |} IMAGE_TO_PDF "image"
       "pdf" Demo.world).1 ≠ Raise (invalid_format IMAGE_TO_PDF).
Proof.
  destruct (extension_check_case_insensitive Demo.uuid4_at Demo.time_at
              IMAGE_TO_PDF "image" "pdf" Demo.world)
    as (_ & Hsame & Hcase & _).
  split.
  - apply Hsame. vm_compute. reflexivity.
  - apply (Hcase _ "tiff").
    + vm_compute. do 5 right. left.
    + vm_compute. reflexivity.
Defined.

(** ** Cleanup while the task is suspended *)

Lemma demo_cleaned_step converter_at :
  step Demo.uuid4_at Demo.time_at converter_at Demo.started
    (Request (DeleteCleanup Demo.job_id)) Demo.cleaned.
Proof.
  refine (step_request Demo.uuid4_at Demo.time_at converter_at
            (DeleteCleanup Demo.job_id) Demo.started _).
  intros l Hl. vm_compute in Hl. lia.
Qed.

Lemma demo_resurrected_step size :
  step Demo.uuid4_at Demo.time_at (Demo.writes size) Demo.cleaned
    (TaskResume 0) (Demo.resurrected size).
Proof.
  exact (step_resume Demo.uuid4_at Demo.time_at (Demo.writes size) 0
           (Demo.time_at 1) [] [] Demo.cleaned demo_cleaned_suspended).
Qed.

(** C8, on the code: a job is submitted, its task runs to the [await],
    the client cleans the job up (200, the id leaves the registry, the
    status endpoint answers 404), and the task then ends: its [finally]
    block stores the job again, so the status endpoint answers for the id
    once more, a second cleanup succeeds instead of failing with 404, and
    the artifact written after the cleanup is on disk.  Whatever the
    clock and the capability do, the second half of the coroutine ends
    with the job in the registry under its id. *)
Theorem cleanup_undone_by_suspended_task :
  (∀ time_at converter_at job start_time w,
     conversion_jobs
       (process_conversion_resume time_at converter_at job start_time w).2
     !! ConversionJob.id (heap w job) = Some job)
  ∧ steps Demo.uuid4_at Demo.time_at (Demo.writes 2048) Demo.world
    [Request (PostTxtToPdf Demo.upload); TaskStart 0;
     Request (DeleteCleanup Demo.job_id); TaskResume 0]
    (Demo.resurrected 2048)
  ∧ (cleanup_conversion_files Demo.job_id Demo.started).1
    = Ok "Files cleaned up successfully"
  ∧ conversion_jobs Demo.cleaned !! Demo.job_id = None
  ∧ (get_conversion_status Demo.job_id Demo.cleaned).1
    = Raise (HTTPException 404 "Conversion job not found")
  ∧ conversion_jobs (Demo.resurrected 2048) !! Demo.job_id = Some 0%nat
  ∧ (∃ st, (get_conversion_status Demo.job_id (Demo.resurrected 2048)).1 = Ok st
           ∧ st_status st = "completed")
  ∧ (cleanup_conversion_files Demo.job_id (Demo.resurrected 2048)).1
    = Ok "Files cleaned up successfully"
  ∧ files (Demo.resurrected 2048) !! Demo.converted_path
    = Some (Build_node false 2048).
Proof.
  split.
  { intros time_at converter_at job start_time w.
    destruct (perform_conversion converter_at job w) as [r w1] eqn:Hp.
    destruct (process_conversion_resume_spec time_at converter_at job
                start_time _ _ _ Hp) as (w' & -> & _ & _ & _ & Hreg & _).
    simpl. rewrite Hreg. apply lookup_insert_eq. }
  split.
  { eapply steps_cons; [apply demo_submitted_step|].
    eapply steps_cons; [apply demo_started_step|].
    eapply steps_cons; [apply demo_cleaned_step|].
    eapply steps_cons; [apply demo_resurrected_step | apply steps_nil]. }
  split_and!; try (vm_compute; reflexivity).
  eexists. split; vm_compute; reflexivity.
Qed.


(** * Further properties of the code

    ** The helpers of the service *)

Section ServiceHelpers.

Variable uuid4_at : nat → string.

Implicit Types s t pre : string.

Lemma with_files_same w : with_files (files w) w = w.
Proof. by destruct w. Qed.

(** X1. [cleanup_file] never raises, whatever it is handed: no path,
    a path with nothing at it, a directory, a regular file.  It
    changes nothing but the entry at its path, which it removes when
    that is a regular file and leaves when that is a directory; a
    second call changes nothing. *)
Theorem cleanup_file_never_raises path w :
  ∃ fs, cleanup_file path w = (Ok (), with_files fs w)
    ∧ (∀ q, path ≠ Some q → fs !! q = files w !! q)
    ∧ (∀ q n, path = Some q → files w !! q = Some n →
         fs !! q = if is_dir n then Some n else None)
    ∧ (∀ q, path = Some q → files w !! q = None → fs !! q = None)
    ∧ cleanup_file path (with_files fs w) = (Ok (), with_files fs w).
Proof.
  destruct path as [p|].
  2:{ exists (files w). rewrite !with_files_same, cleanup_file_none.
      by split_and!. }
  destruct (files w !! p) as [n|] eqn:Hp.
  2:{ exists (files w). rewrite !with_files_same, cleanup_file_absent by done.
      split_and!; try done.
      by intros q n [= <-]; rewrite Hp. }
  destruct (is_dir n) eqn:Hd.
  - exists (files w). rewrite !with_files_same.
    rewrite (cleanup_file_directory p n) by done.
    split_and!; try done.
    intros q n' [= <-] Hq. rewrite Hp in Hq. injection Hq as <-.
    by rewrite Hd.
  - exists (delete p (files w)). rewrite (cleanup_file_regular p n) by done.
    split_and!; try done.
    + intros q Hq. apply lookup_delete_ne. congruence.
    + intros q n' [= <-] Hq. rewrite Hp in Hq. injection Hq as <-.
      rewrite Hd. apply lookup_delete_eq.
    + intros q [= <-] _. apply lookup_delete_eq.
    + rewrite cleanup_file_absent; [done|]. simpl. apply lookup_delete_eq.
Qed.

Lemma validate_file_absent path allowed w :
  Py.contains (file_ext path) allowed = true →
  files w !! path = None →
  validate_file path allowed w
  = (Ok (false, "File validation error: "
                  +:+ stat_error (os w) path (files w)), w).
Proof.
  intros Hc Hp. unfold validate_file, os_path_getsize. unfold_M.
  fold (file_ext path). rewrite Hc. cbn [negb]. by rewrite Hp.
Qed.

(** X2. [validate_file] never raises and changes nothing.  It accepts
    exactly a file whose extension is in the list and that is on disk
    with at most 50 MiB (50 MiB itself is accepted).  The answer "File
    not found" is never given: the size of a missing file is asked for
    first, and that raises, so a missing file with a listed extension
    is reported as "File validation error: " followed by the text of
    the error of the operating system. *)
Theorem validate_file_cases file_path allowed_extensions w :
  ∃ is_valid message,
    validate_file file_path allowed_extensions w
    = (Ok (is_valid, message), w)
    ∧ (is_valid = true
       ↔ Py.contains (file_ext file_path) allowed_extensions = true
         ∧ ∃ n, files w !! file_path = Some n
                ∧ st_size n ≤ 50 * 1024 * 1024)
    ∧ (is_valid = true → message = "Valid file")
    ∧ message ≠ "File not found"
    ∧ (Py.contains (file_ext file_path) allowed_extensions = true →
       files w !! file_path = None →
       message = "File validation error: "
                   +:+ stat_error (os w) file_path (files w)).
Proof.
  destruct (files w !! file_path) as [n|] eqn:Hp.
  - rewrite (validate_file_present _ _ n) by done.
    destruct (Py.contains (file_ext file_path) allowed_extensions) eqn:Hc;
      cbn [negb].
    + destruct (Z.ltb_spec max_size (st_size n)) as [Hsz|Hsz];
        unfold max_size in Hsz.
      * do 2 eexists. split; [reflexivity|]. split_and!; try done.
        split; [done|]. intros [_ (n' & [= <-] & ?)]. lia.
      * do 2 eexists. split; [reflexivity|]. split_and!; try done.
        split; [|done]. intros _. split; [done|]. eauto.
    + do 2 eexists. split; [reflexivity|]. split_and!; try done.
      split; [done|]. by intros [? _].
  - destruct (Py.contains (file_ext file_path) allowed_extensions) eqn:Hc.
    + rewrite validate_file_absent by done.
      do 2 eexists. split; [reflexivity|]. split_and!; try done.
      split; [done|]. by intros [_ (n & ? & _)].
    + unfold validate_file. unfold_M. fold (file_ext file_path).
      rewrite Hc. cbn [negb].
      do 2 eexists. split; [reflexivity|]. split_and!; try done.
      split; [done|]. by intros [? _].
Qed.

Lemma take_append pre s : Py.take (String.length pre) (pre +:+ s) = pre.
Proof.
  induction pre as [|c pre IH]; [by destruct s|].
  rewrite append_cons. simpl. by rewrite IH.
Qed.

Lemma free_of_append ch s t :
  free_of ch (s +:+ t) = free_of ch s && free_of ch t.
Proof.
  induction s as [|c s IH]; [done|].
  rewrite append_cons. simpl. rewrite IH. by rewrite andb_assoc.
Qed.

Lemma free_of_take ch n s : free_of ch s = true → free_of ch (Py.take n s) = true.
Proof.
  revert n. induction s as [|c s IH]; intros [|n]; simpl; try done.
  intros [? ?]%andb_true_iff. rewrite IH by done. by rewrite andb_true_r.
Qed.

Lemma free_of_last ch (xs : list string) :
  Forall (λ x, free_of ch x = true) xs → free_of ch (List.last xs "") = true.
Proof.
  induction 1 as [|x xs Hx Hxs IH]; [done|].
  destruct xs as [|y xs]; [done|]. exact IH.
Qed.

Lemma name_free p : free_of "/" (Path.name p) = true.
Proof.
  unfold Path.name. apply free_of_last.
  eapply Forall_impl; [|apply parts_elems]. by intros x [? _].
Qed.

(** a stem holds no slash *)
Lemma stem_free p : free_of "/" (Path.stem p) = true.
Proof.
  unfold Path.stem. destruct (_ && _); [|apply name_free].
  apply free_of_take, name_free.
Qed.

Lemma rfind_free ch s : free_of ch s = true → Py.rfind ch s = -1.
Proof.
  induction s as [|c s IH]; [done|]. simpl.
  intros [Hc Hs]%andb_true_iff. rewrite IH by done. simpl.
  by destruct (Ascii.eqb c ch).
Qed.

Lemma name_of_component s :
  free_of "/" s = true → Path.keep s = true → Path.name s = s.
Proof.
  intros Hs Hk. unfold Path.name, Path.parts.
  rewrite split_free by done. simpl. by rewrite Hk.
Qed.

Lemma keep_append_underscore s t : Path.keep (s +:+ "_" +:+ t) = true.
Proof.
  unfold Path.keep. destruct s as [|c s]; [done|].
  rewrite append_cons. destruct s as [|c' s].
  - rewrite append_nil_l. cbn.
    destruct (Ascii.eqb c "."); [|by rewrite ?andb_false_l].
    done.
  - rewrite append_cons. cbn.
    by destruct (Ascii.eqb c ".").
Qed.

(** the suffix and the stem of [pre.ext] *)
Lemma suffix_stem_of_dotted pre ext :
  free_of "/" pre = true → free_of "/" ext = true →
  free_of "." ext = true → pre ≠ "" → ext ≠ "" →
  Path.keep (pre +:+ "." +:+ ext) = true →
  Path.suffix (pre +:+ "." +:+ ext) = "." +:+ ext
  ∧ Path.stem (pre +:+ "." +:+ ext) = pre.
Proof.
  intros Hpre Hext Hdot Hne Hene Hk.
  assert (Path.name (pre +:+ "." +:+ ext) = pre +:+ "." +:+ ext) as Hname.
  { apply name_of_component; [|done].
    rewrite !free_of_append, Hpre, Hext. done. }
  assert (Py.rfind "." ("." +:+ ext) = 0) as H0.
  { rewrite append_cons, append_nil_l. simpl. by rewrite rfind_free. }
  assert (Py.rfind "." (pre +:+ "." +:+ ext) = Py.len pre) as Hr.
  { rewrite rfind_append by lia. lia. }
  assert (0 < Py.len pre) as Hlen.
  { unfold Py.len. destruct pre; [done|]. simpl. lia. }
  assert (0 < Py.len ext) as Hlen'.
  { unfold Py.len. destruct ext; [done|]. simpl. lia. }
  assert (Py.len (pre +:+ "." +:+ ext) = Py.len pre + 1 + Py.len ext) as Hl.
  { rewrite !len_append. unfold Py.len at 2. simpl. lia. }
  unfold Path.suffix, Path.stem. rewrite Hname, Hr, Hl.
  replace (0 <? Py.len pre) with true by (symmetry; apply Z.ltb_lt; lia).
  replace (Py.len pre <? Py.len pre + 1 + Py.len ext - 1) with true
    by (symmetry; apply Z.ltb_lt; lia).
  cbn [andb]. split.
  - replace (Py.len pre) with (Py.len pre + 0) by lia.
    by rewrite slice_from_append.
  - unfold Py.slice_to, Py.len. rewrite Nat2Z.id. apply take_append.
Qed.

Lemma startswith_slash_free s :
  free_of "/" s = true → Py.startswith "/" s = false.
Proof.
  destruct s as [|c s]; [done|]. cbn [free_of].
  intros [Hc _]%andb_true_iff. unfold Py.startswith. cbn [String.prefix].
  destruct (Ascii.ascii_dec "/" c) as [<-|]; [|done].
  by rewrite Ascii.eqb_refl in Hc.
Qed.

(** a name that is one component is a direct child of the conversion
    directory *)
Lemma div_conversion_dir name :
  free_of "/" name = true → Path.keep name = true →
  Path.div "/tmp/conversions" name = "/tmp/conversions/" +:+ name.
Proof.
  intros Hf Hk. unfold Path.div, Path.join.
  rewrite startswith_slash_free by done. cbn [String.eqb Py.drop].
  change (Py.drop (String.length "/tmp/conversions" - 1) "/tmp/conversions")
    with "s".
  cbn [String.eqb Ascii.eqb Bool.eqb].
  change ("/tmp/conversions" +:+ "/" +:+ name)
    with ("/tmp/conversions/" +:+ name).
  assert (Path.parts ("/tmp/conversions/" +:+ name)
          = ["tmp"; "conversions"; name]) as Hparts.
  { unfold Path.parts.
    change ("/tmp/conversions/" +:+ name)
      with ("" +:+ String "/" ("tmp" +:+ String "/"
              ("conversions" +:+ String "/" name))).
    rewrite !split_append_sep by done. rewrite split_free by done.
    simpl. by rewrite Hk. }
  unfold Path.str. rewrite Hparts.
  change (Path.root ("/tmp/conversions/" +:+ name)) with "/".
  rewrite !join_cons. reflexivity.
Qed.

(** the shape of a generated name *)
Lemma generated_name_shape base u ext :
  free_of "/" base = true → free_of "/" u = true →
  ext ≠ "" → free_of "." ext = true → free_of "/" ext = true →
  let name := base +:+ "_" +:+ u +:+ "." +:+ ext in
  Path.suffix name = "." +:+ ext
  ∧ Path.stem name = base +:+ "_" +:+ u
  ∧ Path.div "/tmp/conversions" name = "/tmp/conversions/" +:+ name.
Proof.
  intros Hbase Hu Hne Hdot Hslash name.
  set (pre := base +:+ "_" +:+ u).
  assert (free_of "/" pre = true) as Hpre.
  { unfold pre. rewrite !free_of_append, Hbase, Hu. done. }
  assert (pre ≠ "") as Hpre'.
  { unfold pre. intros [_ H]%append_eq_nil.
    by apply append_eq_nil in H as [? _]. }
  assert (name = pre +:+ "." +:+ ext) as E.
  { unfold name, pre. by rewrite !append_assoc. }
  assert (Path.keep name = true) as Hk by apply keep_append_underscore.
  rewrite E in Hk |- *.
  destruct (suffix_stem_of_dotted pre ext) as [Hs Ht]; try done.
  split_and!; [done|done|].
  apply div_conversion_dir; [|done].
  rewrite !free_of_append, Hpre, Hslash. done.
Qed.

(** X3. [generate_unique_filename] draws one uuid and returns
    [stem_xxxxxxxx.ext]: for an extension that is not empty and holds
    no dot and no slash, and a uuid whose first eight characters hold
    no slash, the name it returns has the suffix [.ext], its stem is
    the stem of the original name followed by an underscore and the
    eight characters, and joined to the conversion directory it is a
    direct child of it. *)
Theorem generate_unique_filename_extension original_name new_extension w :
  new_extension ≠ "" →
  free_of "." new_extension = true →
  free_of "/" new_extension = true →
  free_of "/" (Py.slice_to 8 (uuid4_at (uuid_calls w))) = true →
  ∃ name,
    generate_unique_filename uuid4_at original_name new_extension w
    = (Ok name,
       with_calls (S (uuid_calls w)) (clock_calls w) (converter_calls w) w)
    ∧ Path.suffix name = "." +:+ new_extension
    ∧ Path.stem name
      = Path.stem original_name +:+ "_"
          +:+ Py.slice_to 8 (uuid4_at (uuid_calls w))
    ∧ Path.div "/tmp/conversions" name = "/tmp/conversions/" +:+ name.
Proof.
  intros Hne Hdot Hslash Hu.
  eexists. split; [reflexivity|].
  apply generated_name_shape; try done. apply stem_free.
Qed.

End ServiceHelpers.

Lemma generate_unique_filename_extension_witness :
  ∃ name,
    generate_unique_filename Demo.uuid4_at "dir/report.final.docx" "pdf"
      Demo.world
    = (Ok name, with_calls 1 0 0 Demo.world)
    ∧ Path.suffix name = ".pdf"
    ∧ Path.stem name = "report.final_3f2b8c1e"
    ∧ Path.div "/tmp/conversions" name = "/tmp/conversions/" +:+ name.
Proof.
  exact (generate_unique_filename_extension Demo.uuid4_at
           "dir/report.final.docx" "pdf" Demo.world
           ltac:(discriminate) eq_refl eq_refl eq_refl).
Defined.


(** ** The path of an upload *)

Section UploadPath.

Variable uuid4_at : nat → string.

(** a relative name is joined below the conversion directory, with
    all its components *)
Lemma parts_div_relative name :
  Py.startswith "/" name = false →
  Path.parts (Path.div "/tmp/conversions" name)
  = "tmp" :: "conversions" :: Path.parts name.
Proof.
  intros Hrel. unfold Path.div. rewrite parts_str. unfold Path.join.
  rewrite Hrel. cbn [String.eqb Py.drop].
  change (Py.drop (String.length "/tmp/conversions" - 1) "/tmp/conversions")
    with "s".
  cbn [String.eqb Ascii.eqb Bool.eqb].
  change ("/tmp/conversions" +:+ "/" +:+ name)
    with ("" +:+ String "/" ("tmp" +:+ String "/"
            ("conversions" +:+ String "/" name))).
  unfold Path.parts. by rewrite !split_append_sep.
Qed.

(** an absolute name replaces the conversion directory *)
Lemma div_absolute dir name :
  Py.startswith "/" name = true → Path.div dir name = Path.str name.
Proof. intros Habs. unfold Path.div, Path.join. by rewrite Habs. Qed.

Lemma startswith_slash_prefixed s t :
  Py.startswith "/" s = false → Py.startswith "/" (s +:+ "_" +:+ t) = false.
Proof.
  destruct s as [|c s]; [done|]. rewrite append_cons.
  unfold Py.startswith. cbn [String.prefix].
  destruct (Ascii.ascii_dec "/" c); [|done]. by destruct s.
Qed.

Lemma save_uploaded_file_ok_inv file name w p w' :
  save_uploaded_file file name w = (Ok p, w') →
  p = Path.div "/tmp/conversions" name
  ∧ open_error (os w) p (files w) = None
  ∧ w' = with_files (<[p := Build_node false (content_length file)]>
                       (files w)) w.
Proof.
  unfold save_uploaded_file, CONVERSION_DIR.
  destruct (open_error _ _ _) eqn:Ho; [done|]. by intros [= <- <-].
Qed.

(** X26. [save_uploaded_file] does not sanitise the name it is given.
    When it returns, the operating system has opened the path
    [CONVERSION_DIR / filename] for writing, the upload is at that
    path, and that path is returned: for a name that does not start
    with a slash it has the components [tmp], [conversions] and then
    every component of the name, [..] included; for a name that starts
    with a slash it is that name alone, outside the conversion
    directory.  [handle_conversion] hands it [<job id>_<upload name>],
    which does not start with a slash when the id does not, so the
    scratch path of a job is always of the first kind, and keeps the
    components of the client's file name. *)
Theorem save_uploaded_file_path file name w p w' :
  save_uploaded_file file name w = (Ok p, w') →
  open_error (os w) p (files w) = None
  ∧ files w' !! p = Some (Build_node false (content_length file))
  ∧ (Py.startswith "/" name = false →
     Path.parts p = "tmp" :: "conversions" :: Path.parts name)
  ∧ (Py.startswith "/" name = true → p = Path.str name)
  ∧ ∀ upload w0,
      Py.startswith "/" (uuid4_at (S (uuid_calls w0))) = false →
      Path.parts (scratch_path uuid4_at w0 upload)
      = "tmp" :: "conversions"
        :: Path.parts (uuid4_at (S (uuid_calls w0)) +:+ "_"
                       +:+ filename upload).
Proof.
  intros (-> & Ho & ->)%save_uploaded_file_ok_inv. cbn [files with_files].
  split_and!.
  - exact Ho.
  - apply lookup_insert_eq.
  - apply parts_div_relative.
  - apply div_absolute.
  - intros upload w0 Hid. unfold scratch_path, CONVERSION_DIR.
    by apply parts_div_relative, startswith_slash_prefixed.
Qed.

End UploadPath.


(** ** The submission routes *)

Section Routes.

Variable uuid4_at : nat → string.
Variable time_at : nat → Q.
Variable converter_at : nat → Converter.




Lemma handle_conversion_ok_inv file conversion_type from_format to_format
    w r w' :
  handle_conversion uuid4_at time_at file conversion_type from_format
    to_format w = (Ok r, w') →
  let j := queued_job uuid4_at time_at w file from_format to_format in
  r = started_response j
  ∧ submission_frame w w'
  ∧ heap w' (next_ref w) = j
  ∧ files w' = <[scratch_path uuid4_at w file
                 := Build_node false (content_length file)]> (files w)
  ∧ conversion_jobs w'
    = <[uuid4_at (S (uuid_calls w)) := next_ref w]> (conversion_jobs w)
  ∧ background_tasks w' = background_tasks w ++ [next_ref w].
Proof.
  intros Hrun j.
  destruct (handle_conversion_cases uuid4_at time_at file conversion_type
              from_format to_format w)
    as [[_ E]|[(_ & msg & w1 & _ & E & _)|[(_ & _ & _ & w1 & E & _)
       |(_ & _ & _ & w1 & E & H)]]];
    rewrite Hrun in E; try discriminate E.
  injection E as -> ->. destruct H as (? & ? & ? & ? & ?). by split_and!.
Qed.

(** X5. An accepted submission answers with the id of its job, the
    size of the upload and a download URL, leaves the upload on disk
    under the scratch path, stores the job and queues one task.  Asked
    right afterwards, the status endpoint reports the same id and file
    names with no download URL, no conversion time and no error, and
    the download endpoint refuses with 400 "Conversion not completed
    yet", although the submission's answer already carries the URL. *)
Theorem accepted_submission_round_trip file conversion_type from_format
    to_format w r w' :
  handle_conversion uuid4_at time_at file conversion_type from_format
    to_format w = (Ok r, w') →
  r = started_response (heap w' (next_ref w))
  ∧ resp_job_id r = uuid4_at (S (uuid_calls w))
  ∧ resp_original_filename r = filename file
  ∧ resp_file_size r = content_length file
  ∧ resp_download_url r = "/api/download/" +:+ resp_job_id r
  ∧ conversion_jobs w' !! resp_job_id r = Some (next_ref w)
  ∧ background_tasks w' = background_tasks w ++ [next_ref w]
  ∧ files w' !! scratch_path uuid4_at w file
    = Some (Build_node false (content_length file))
  ∧ (∃ st, get_conversion_status (resp_job_id r) w' = (Ok st, w')
       ∧ st_job_id st = resp_job_id r
       ∧ st_original_filename st = resp_original_filename r
       ∧ st_converted_filename st = resp_converted_filename r
       ∧ st_download_url st = None
       ∧ st_conversion_time st = None
       ∧ st_error_message st = None)
  ∧ download_converted_file (resp_job_id r) w'
    = (Raise (HTTPException 400 "Conversion not completed yet"), w').
Proof.
  intros Hrun.
  destruct (handle_conversion_ok_inv _ _ _ _ _ _ _ Hrun)
    as (-> & _ & Hj & Hfs & Hreg & Hq).
  assert (conversion_jobs w' !! uuid4_at (S (uuid_calls w))
          = Some (next_ref w)) as Hjob.
  { rewrite Hreg. apply lookup_insert_eq. }
  rewrite Hj. cbn [started_response resp_job_id resp_original_filename
                     resp_file_size resp_download_url resp_converted_filename
                     queued_job saved_job new_job ConversionJob.id
                     ConversionJob.set_converted_file_path
                     ConversionJob.set_file_size ConversionJob.set_file_path
                     ConversionJob.converted_filename
                     ConversionJob.original_filename ConversionJob.file_size].
  split_and!; try done.
  - rewrite Hfs. apply lookup_insert_eq.
  - unfold get_conversion_status. unfold_M.
    rewrite (lookup_job_found _ _ _ Hjob). rewrite Hj.
    eexists. split; [reflexivity|]. by cbn.
  - unfold download_converted_file. unfold_M.
    rewrite (lookup_job_found _ _ _ Hjob). by rewrite Hj.
Qed.

Lemma fmap_ok_inv {A B} (f : A → B) (m : M A) w b w' :
  (f <$> m) w = (Ok b, w') → ∃ a, m w = (Ok a, w') ∧ b = f a.
Proof.
  unfold fmap, M_fmap, bind, ret. destruct (m w) as [[a|e] w1]; [|done].
  intros [= <- <-]. eauto.
Qed.

(** the submission behind an accepted request *)
Lemma serve_conversion_inv r resp w w' :
  serve uuid4_at time_at r w = (Ok (Conversion resp), w') →
  ∃ file conversion_type from_format to_format,
    handle_conversion uuid4_at time_at file conversion_type from_format
      to_format w = (Ok resp, w')
    ∧ (if String.eqb to_format "word" then "docx" else to_format)
      ∈ ["pdf"; "docx"]
    ∧ "." +:+ (if String.eqb to_format "word" then "docx" else to_format)
      = route_suffix r
    ∧ capability_for from_format to_format = route_capability r
    ∧ is_Some (route_capability r).
Proof.
  destruct r as [file|file|file|uploads|file|job_id|job_id|job_id];
    cbn [serve]; intros (a & Hrun & E)%fmap_ok_inv; try discriminate E.
  all: injection E as ->.
  4: destruct uploads as [|file ?]; [discriminate Hrun|].
  all: do 4 eexists; (split; [exact Hrun|]).
  all: split; [cbn; set_solver|]; split; [done|]; split; [done|].
  all: by eexists.
Qed.

(** X6. Whatever the name of the upload, the file an accepted request
    will produce is named with the extension of the target format,
    [.docx] on the PDF-to-Word route and [.pdf] on the four others, and
    its path is a direct child of [/tmp/conversions]; this for a uuid
    whose first eight characters hold no slash. *)
Theorem converted_file_has_target_extension r resp w w' :
  serve uuid4_at time_at r w = (Ok (Conversion resp), w') →
  free_of "/" (Py.slice_to 8 (uuid4_at (uuid_calls w))) = true →
  Path.suffix (resp_converted_filename resp) = route_suffix r
  ∧ ConversionJob.converted_file_path (heap w' (next_ref w))
    = Some ("/tmp/conversions/" +:+ resp_converted_filename resp)
  ∧ conversion_jobs w' !! resp_job_id resp = Some (next_ref w).
Proof.
  intros (file & conversion_type & from_format & to_format & Hrun & He & Hs & _)
    %serve_conversion_inv Hu.
  destruct (handle_conversion_ok_inv _ _ _ _ _ _ _ Hrun)
    as (-> & _ & Hj & _ & Hreg & _).
  rewrite Hj, Hreg. cbn.
  destruct (generated_name_shape (Path.stem (filename file))
              (Py.slice_to 8 (uuid4_at (uuid_calls w)))
              (if String.eqb to_format "word" then "docx" else to_format))
    as (Hsuf & _ & Hdiv); try done.
  - apply stem_free.
  - intros E. rewrite E in He.
    apply elem_of_cons in He as [?|He]; [done|].
    by apply list_elem_of_singleton in He.
  - apply elem_of_cons in He as [->|He]; [done|].
    by apply list_elem_of_singleton in He as ->.
  - apply elem_of_cons in He as [->|He]; [done|].
    by apply list_elem_of_singleton in He as ->.
  - cbv zeta in Hsuf, Hdiv. rewrite Hsuf, Hdiv, Hs.
    split_and!; try done. apply lookup_insert_eq.
Qed.

(** X7. The image route refuses an empty list of files with 400 "No
    files provided" and changes nothing; of a list with several files
    it submits the first and ignores the others, which are neither
    checked nor saved. *)
Theorem convert_image_to_pdf_first_file uploads w :
  match uploads with
  | [] =>
      convert_image_to_pdf uuid4_at time_at uploads w
      = (Raise (HTTPException 400 "No files provided"), w)
  | file :: others =>
      convert_image_to_pdf uuid4_at time_at uploads w
      = handle_conversion uuid4_at time_at file IMAGE_TO_PDF "image" "pdf" w
      ∧ (∀ q, q ≠ scratch_path uuid4_at w file →
              files (convert_image_to_pdf uuid4_at time_at uploads w).2 !! q
              = files w !! q)
      ∧ (next_ref (convert_image_to_pdf uuid4_at time_at uploads w).2
         ≤ S (next_ref w))%nat
  end.
Proof.
  destruct uploads as [|file others]; [done|]. split; [done|].
  cbn [convert_image_to_pdf].
  destruct (handle_conversion_cases uuid4_at time_at file IMAGE_TO_PDF
              "image" "pdf" w)
    as [[_ E]|[(_ & msg & w' & _ & E & Hf & _ & Hfs & _)
       |[(_ & _ & _ & w' & E & Hf & _ & Hfs & _)
        |(_ & _ & _ & w' & E & Hf & _ & Hfs & _)]]];
    rewrite E; cbn [snd]; try rewrite Hfs.
  - split; [done|lia].
  - destruct Hf as [-> _]. split; [done|lia].
  - destruct Hf as [-> _]. split; [|lia].
    intros q Hq. by apply lookup_delete_ne.
  - destruct Hf as [-> _]. split; [|lia].
    intros q Hq. by apply lookup_insert_ne.
Qed.

(** X8. Every route hands [handle_conversion] a pair of formats that
    [process_conversion] knows: for the job of an accepted request the
    task calls the capability of that route, once, on the scratch path
    and the converted path of the job, the upload being on disk at the
    scratch path. *)
Theorem routes_dispatch_to_their_capability r resp w w' :
  serve uuid4_at time_at r w = (Ok (Conversion resp), w') →
  ∃ c scratch converted,
    route_capability r = Some c
    ∧ ConversionJob.file_path (heap w' (next_ref w)) = Some scratch
    ∧ ConversionJob.converted_file_path (heap w' (next_ref w))
      = Some converted
    ∧ (∃ size : N, resp_file_size resp = size
         ∧ files w' !! scratch = Some (Build_node false size))
    ∧ ∀ w2 s,
        heap w2 (next_ref w)
        = ConversionJob.set_status s (heap w' (next_ref w)) →
        perform_conversion converter_at (next_ref w) w2
        = convert converter_at c (Some scratch) (Some converted) w2
        ∧ converter_calls (perform_conversion converter_at (next_ref w) w2).2
          = S (converter_calls w2).
Proof.
  intros (file & conversion_type & from_format & to_format & Hrun & _ & _
          & Hc & [c Hc'])%serve_conversion_inv.
  destruct (handle_conversion_ok_inv _ _ _ _ _ _ _ Hrun)
    as (-> & _ & Hj & Hfs & _).
  exists c. do 2 eexists. rewrite Hj. split; [done|].
  split; [reflexivity|]. split; [reflexivity|].
  split.
  { exists (content_length file). split; [done|].
    rewrite Hfs. apply lookup_insert_eq. }
  intros w2 s Hw2. rewrite perform_conversion_dispatch, Hw2.
  cbn [ConversionJob.file_path ConversionJob.set_status
         ConversionJob.converted_file_path queued_job saved_job new_job
         ConversionJob.from_format ConversionJob.to_format
         ConversionJob.set_converted_file_path
         ConversionJob.set_file_size ConversionJob.set_file_path].
  rewrite Hc, Hc'. split; [done|].
  unfold convert. by destruct (converter_at _ _ _ _ _).
Qed.

(** X9. A job whose pair of formats is none of the five that
    [process_conversion] tests for is failed without any capability
    being called: the task ends with the status FAILED and the message
    "Conversion failed", the files are untouched, and the job is in the
    registry. *)
Theorem unknown_formats_fail job w :
  capability_for (ConversionJob.from_format (heap w job))
    (ConversionJob.to_format (heap w job)) = None →
  ∃ w', process_conversion time_at converter_at job w = (Ok (), w')
    ∧ ConversionJob.status (heap w' job) = FAILED
    ∧ ConversionJob.error_message (heap w' job) = Some "Conversion failed"
    ∧ ConversionJob.download_url (heap w' job)
      = ConversionJob.download_url (heap w job)
    ∧ converter_calls w' = converter_calls w
    ∧ files w' = files w
    ∧ conversion_jobs w' !! ConversionJob.id (heap w job) = Some job.
Proof.
  intros Hu.
  destruct (process_conversion_spec time_at converter_at job w)
    as (start_time & w0 & r & w1 & w' & Hb & _ & Hp & Hrun & Hres & Hj & Hreg).
  destruct (process_conversion_begin_spec time_at job w)
    as (w0' & Hb' & Hj0 & _ & _ & _ & Hfs0 & _ & _ & _ & _ & Hk0).
  rewrite Hb in Hb'. injection Hb' as _ <-.
  assert (perform_conversion converter_at job w0 = (Ok false, w0)) as Hp'.
  { rewrite perform_conversion_dispatch, Hj0. cbn. by rewrite Hu. }
  rewrite Hp' in Hp. injection Hp as <- <-.
  exists w'. split; [done|]. rewrite Hj. cbn.
  split_and!; try done.
  - revert Hres. unfold process_conversion_resume, conversion_attempt.
    rewrite (surjective_pairing (try_finally _ _ w0)).
    unfold try_finally, try_except. unfold_M.
    rewrite Hp'.
    unfold update_job_status, conversion_finally, time_time. unfold_M.
    cbn. intros [= <-]. by cbn.
  - destruct (process_conversion_resume_spec time_at converter_at job
                start_time w0 (Ok false) w0 Hp')
      as (w'' & E & _ & _ & _ & _ & Hfs & _).
    rewrite Hres in E. injection E as <-. by rewrite Hfs.
Qed.

End Routes.


(** ** More invariants of the service *)

Section Outcomes.

Variable uuid4_at : nat → string.
Variable time_at : nat → Q.
Variable converter_at : nat → Converter.

(** the record of a job a request has just constructed *)
Lemma handle_conversion_new_job file conversion_type from_format to_format
    w l :
  let w' := (handle_conversion uuid4_at time_at file conversion_type
               from_format to_format w).2 in
  (next_ref w ≤ l < next_ref w')%nat →
  let j := heap w' l in
  ConversionJob.status j = PENDING
  ∧ ConversionJob.error_message j = None
  ∧ ConversionJob.converted_file_size j = None
  ∧ ConversionJob.conversion_time j = None
  ∧ ConversionJob.completed_at j = None
  ∧ (background_tasks w' = background_tasks w
     ∨ is_Some (ConversionJob.file_path j)
       ∧ is_Some (ConversionJob.converted_file_path j)).
Proof.
  destruct (handle_conversion_cases uuid4_at time_at file conversion_type
              from_format to_format w)
    as [[_ E]|[(_ & msg & w' & _ & E & Hf & Hj & _ & _ & Hq)
       |[(_ & _ & _ & w' & E & Hf & Hj & _ & _ & Hq)
        |(_ & _ & _ & w' & E & Hf & Hj & _ & _ & Hq)]]];
    rewrite E; cbn [snd]; [lia|..].
  all: destruct Hf as [Hn _]; rewrite Hn; intros Hl.
  all: assert (l = next_ref w) as -> by lia.
  all: rewrite Hj; cbn; split_and!; eauto.
Qed.

Lemma serve_new_job r w l :
  let w' := (serve uuid4_at time_at r w).2 in
  (next_ref w ≤ l < next_ref w')%nat →
  let j := heap w' l in
  ConversionJob.status j = PENDING
  ∧ ConversionJob.error_message j = None
  ∧ ConversionJob.converted_file_size j = None
  ∧ ConversionJob.conversion_time j = None
  ∧ ConversionJob.completed_at j = None
  ∧ (background_tasks w' = background_tasks w
     ∨ is_Some (ConversionJob.file_path j)
       ∧ is_Some (ConversionJob.converted_file_path j)).
Proof.
  destruct r as [file|file|file|uploads|file|job_id|job_id|job_id];
    cbn [serve]; rewrite fmap_world.
  1-3,5: apply handle_conversion_new_job.
  - destruct uploads as [|file ?]; [cbn; lia|].
    apply handle_conversion_new_job.
  - rewrite get_conversion_status_pure. lia.
  - rewrite download_converted_file_pure. lia.
  - destruct (conversion_jobs w !! job_id) as [job|] eqn:Hjob.
    + destruct (cleanup_conversion_files_found _ _ _ Hjob) as (fs & -> & _).
      cbn. lia.
    + rewrite cleanup_conversion_files_missing by done. cbn. lia.
Qed.

(** what a request leaves as it was *)
Lemma request_effect_frame w w' :
  request_effect w w' →
  (next_ref w ≤ next_ref w')%nat
  ∧ (∀ l, (l < next_ref w)%nat → heap w' l = heap w l)
  ∧ suspended w' = suspended w
  ∧ (background_tasks w' = background_tasks w
     ∨ background_tasks w' = background_tasks w ++ [next_ref w]
       ∧ next_ref w' = S (next_ref w))
  ∧ (∀ job_id l, conversion_jobs w' !! job_id = Some l →
       conversion_jobs w !! job_id = Some l
       ∨ l = next_ref w
         ∧ background_tasks w' = background_tasks w ++ [next_ref w]).
Proof.
  intros [->|job_id job fs Hjob -> _|(Hn & Hh & Hs & _) _ _ _ Hreg].
  - split_and!; auto.
  - cbn. split_and!; auto.
    intros job_id' l [_ ?]%lookup_delete_Some. by left.
  - split_and!; auto; [lia|intros l Hl; apply Hh; lia|tauto|].
    intros job_id l Hl. destruct Hreg as [[E _]|[E Hq]]; rewrite E in Hl;
      [by left|].
    apply lookup_insert_Some in Hl as [[_ <-]|[_ Hl]]; [by right|by left].
Qed.

Lemma app_singleton_neq {A} (l : list A) x : l ++ [x] ≠ l.
Proof.
  intros H. apply (f_equal length) in H. rewrite length_app in H.
  simpl in H. lia.
Qed.

Lemma settled_outcome j r fs start_time clock :
  ConversionJob.error_message j = None →
  ConversionJob.converted_file_size j = None →
  ConversionJob.conversion_time j = None →
  let j' := settled time_at j r fs start_time clock in
  (ConversionJob.error_message j' ≠ None ↔ ConversionJob.status j' = FAILED)
  ∧ (ConversionJob.converted_file_size j' ≠ None
     ↔ ConversionJob.status j' = COMPLETED)
  ∧ (ConversionJob.conversion_time j' ≠ None
     ↔ ConversionJob.status j' = COMPLETED)
  ∧ (ConversionJob.completed_at j' ≠ None
     ↔ terminal (ConversionJob.status j')).
Proof.
  intros He Hs Ht. unfold settled, terminal.
  destruct r as [[|]|e]; [destruct (ConversionJob.converted_file_path j) as [p|];
                          [destruct (fs !! p)|]|..];
    cbn; rewrite ?He, ?Hs, ?Ht; split_and!; split; intros; try done; auto.
Qed.

Lemma option_not_not_none {A} (o : option A) : ¬ o ≠ None → o = None.
Proof. destruct o; [intros []; done|done]. Qed.

Lemma Outcome_initial w : initial w → Outcome w.
Proof. intros (Hn & _). split; intros l; rewrite Hn; lia. Qed.

Lemma Outcome_step w e w' :
  Inv w → Outcome w → step uuid4_at time_at converter_at w e w' →
  Outcome w'.
Proof.
  intros HI [He Hsz Ht Hc] Hstep.
  destruct Hstep as [r w _|job q1 q2 w Hq|job t s1 s2 w Hs].
  - destruct (request_effect_frame _ _ (serve_effect uuid4_at time_at r w))
      as (Hn & Hh & _).
    pose proof (serve_new_job r w) as Hnew. cbv zeta in Hnew.
    split; intros l Hl.
    all: destruct (decide (l < next_ref w)%nat) as [Hlt|Hge];
      [rewrite Hh by done; auto|].
    all: destruct (Hnew l) as (E1 & E2 & E3 & E4 & E5 & _); [lia|].
    all: rewrite ?E1, ?E2, ?E3, ?E4, ?E5.
    all: unfold terminal; split; intros H; try done; by destruct H.
  - pose proof (start_task_spec time_at job q1 q2 w) as Hspec.
    cbv zeta in Hspec. revert Hspec.
    generalize (start_task time_at job q1 q2 w).
    intros w' (Hj & Hh & Hn & _).
    assert (job ∈ background_tasks w) as Hin.
    { rewrite Hq. apply elem_of_app. right. by left. }
    destruct (inv_queued _ HI _ Hin) as [Hlt Hst].
    split; intros l; rewrite Hn; intros Hl.
    all: destruct (decide (l = job)) as [->|]; [|rewrite Hh by done; auto].
    all: rewrite Hj; cbn; unfold terminal.
    + split; [|done]. intros H%He; [congruence|done].
    + split; [|done]. intros H%Hsz; [congruence|done].
    + split; [|done]. intros H%Ht; [congruence|done].
    + split; [|by intros [?|?]]. intros [H|H]%Hc; [congruence..|done].
  - pose proof (resume_task_spec time_at converter_at job t s1 s2 w)
      as Hspec.
    cbv zeta in Hspec. destruct (perform_conversion _ _ _) as [r w1].
    revert Hspec.
    generalize (resume_task time_at converter_at job t s1 s2 w).
    intros w' (Hj & Hh & Hn & _).
    assert (job ∈ (suspended w).*1) as Hin.
    { rewrite Hs, fmap_app. apply elem_of_app. right. by left. }
    destruct (inv_running _ HI _ Hin) as [Hlt Hst].
    destruct (settled_outcome (heap w job) r (files w1) t (clock_calls w))
      as (H1 & H2 & H3 & H4).
    { apply option_not_not_none. intros H%He; [congruence|done]. }
    { apply option_not_not_none. intros H%Hsz; [congruence|done]. }
    { apply option_not_not_none. intros H%Ht; [congruence|done]. }
    split; intros l; rewrite Hn; intros Hl.
    all: destruct (decide (l = job)) as [->|]; [|rewrite Hh by done; auto].
    all: by rewrite Hj.
Qed.

Lemma Scheduled_initial w : initial w → Scheduled w.
Proof.
  intros (Hn & Hreg & Hq & Hs). split.
  - intros job_id l. by rewrite Hreg, lookup_empty.
  - intros l. rewrite Hn. lia.
  - intros l. rewrite Hq, Hs. cbn. by intros ?%elem_of_nil.
Qed.

Lemma Scheduled_request r w :
  Inv w → Scheduled w → Scheduled (serve uuid4_at time_at r w).2.
Proof.
  intros HI [Hpend Hproc Hpaths].
  pose proof (request_effect_frame _ _ (serve_effect uuid4_at time_at r w))
    as Hframe.
  pose proof (serve_new_job r w) as Hnew. cbv zeta in Hnew.
  revert Hframe Hnew. generalize (serve uuid4_at time_at r w).2.
  intros w' (Hn & Hh & Hs & Hq & Hreg) Hnew.
  split.
  - intros job_id l [Hl|[-> Hq']]%Hreg Hst.
    + destruct (inv_registry _ HI _ _ Hl) as [Hlt _].
      rewrite Hh in Hst by done.
      pose proof (Hpend _ _ Hl Hst) as Hin.
      destruct Hq as [->|[-> _]]; [done|]. apply elem_of_app. by left.
    + rewrite Hq'. apply elem_of_app. right. by left.
  - intros l Hl Hst. rewrite Hs.
    destruct (decide (l < next_ref w)%nat) as [Hlt|Hge].
    + rewrite Hh in Hst by done. by apply Hproc.
    + destruct (Hnew l) as (Hst' & _); [lia|]. congruence.
  - intros l. rewrite Hs. intros Hl.
    assert (∀ l, l ∈ background_tasks w ++ (suspended w).*1 →
                 is_Some (ConversionJob.file_path (heap w' l))
                 ∧ is_Some (ConversionJob.converted_file_path (heap w' l)))
      as Hold.
    { intros l' Hl'. assert (l' < next_ref w)%nat as Hlt.
      { apply elem_of_app in Hl' as [Hin|Hin].
        - by destruct (inv_queued _ HI _ Hin).
        - by destruct (inv_running _ HI _ Hin). }
      rewrite Hh by done. by apply Hpaths. }
    destruct Hq as [Hq|[Hq Hn']]; rewrite Hq in Hl; [by apply Hold|].
    rewrite <- app_assoc in Hl.
    apply elem_of_app in Hl as [Hl|Hl];
      [apply Hold, elem_of_app; by left|].
    apply elem_of_cons in Hl as [->|Hl];
      [|apply Hold, elem_of_app; by right].
    destruct (Hnew (next_ref w)) as (_ & _ & _ & _ & _ & [E|?]);
      [lia| |done].
    rewrite Hq in E. by apply app_singleton_neq in E.
Qed.

Lemma Scheduled_start job q1 q2 w :
  Inv w → Scheduled w → background_tasks w = q1 ++ job :: q2 →
  Scheduled (start_task time_at job q1 q2 w).
Proof.
  intros HI [Hpend Hproc Hpaths] Hq.
  pose proof (start_task_spec time_at job q1 q2 w) as Hspec.
  cbv zeta in Hspec. revert Hspec.
  generalize (start_task time_at job q1 q2 w).
  intros w' (Hj & Hh & Hn & Hreg & _ & Hq' & Hs').
  assert (job ∈ background_tasks w) as Hin.
  { rewrite Hq. apply elem_of_app. right. by left. }
  destruct (inv_queued _ HI _ Hin) as [Hlt Hst].
  split.
  - intros job_id l Hl Hst'.
    destruct (decide (l = job)) as [->|Hne]; [by rewrite Hj in Hst'|].
    rewrite Hh in Hst' by done. rewrite Hreg in Hl.
    apply lookup_insert_Some in Hl as [[_ <-]|[_ Hl]]; [done|].
    pose proof (Hpend _ _ Hl Hst') as Hin'. rewrite Hq in Hin'. rewrite Hq'.
    apply elem_of_app in Hin' as [?|[?|?]%elem_of_cons];
      [apply elem_of_app; by left|done|apply elem_of_app; by right].
  - intros l. rewrite Hn, Hs', fmap_app. intros Hl Hst'.
    apply elem_of_app.
    destruct (decide (l = job)) as [->|Hne]; [right; cbn; by left|].
    rewrite Hh in Hst' by done. left. by apply Hproc.
  - intros l. rewrite Hq', Hs', fmap_app. cbn. intros Hl.
    assert (l ∈ background_tasks w ++ (suspended w).*1) as Hold.
    { rewrite Hq. set_solver. }
    destruct (decide (l = job)) as [->|Hne].
    + rewrite Hj. cbn. by apply Hpaths.
    + rewrite Hh by done. by apply Hpaths.
Qed.

Lemma Scheduled_resume job start_time s1 s2 w :
  Inv w → Scheduled w → suspended w = s1 ++ (job, start_time) :: s2 →
  Scheduled (resume_task time_at converter_at job start_time s1 s2 w).
Proof.
  intros HI [Hpend Hproc Hpaths] Hs.
  pose proof (resume_task_spec time_at converter_at job start_time s1 s2 w)
    as Hspec.
  cbv zeta in Hspec. destruct (perform_conversion _ _ _) as [r w1].
  revert Hspec.
  generalize (resume_task time_at converter_at job start_time s1 s2 w).
  intros w' (Hj & Hh & Hn & Hreg & _ & Hq' & Hs').
  pose proof (settled_terminal time_at (heap w job) r (files w1) start_time
                (clock_calls w)) as Hterm.
  rewrite <- Hj in Hterm.
  pose proof (inv_nodup _ HI) as Hnd.
  rewrite Hs, fmap_app in Hnd. cbn in Hnd.
  assert (NoDup (job :: background_tasks w ++ (s1 ++ s2).*1)) as Hnd'.
  { eapply NoDup_Permutation_proper; [|exact Hnd].
    rewrite fmap_app, !app_assoc. by rewrite Permutation_middle. }
  apply list.NoDup_cons in Hnd' as [Hfresh _].
  split.
  - intros job_id l Hl Hst'.
    destruct (decide (l = job)) as [->|Hne].
    { destruct Hterm; congruence. }
    rewrite Hh in Hst' by done. rewrite Hreg in Hl.
    apply lookup_insert_Some in Hl as [[_ <-]|[_ Hl]]; [done|].
    rewrite Hq'. by eapply Hpend.
  - intros l. rewrite Hn, Hs'. intros Hl Hst'.
    destruct (decide (l = job)) as [->|Hne].
    { destruct Hterm; congruence. }
    rewrite Hh in Hst' by done.
    pose proof (Hproc _ Hl Hst') as Hin. rewrite Hs in Hin.
    rewrite fmap_app in Hin |- *. cbn in Hin. set_solver.
  - intros l. rewrite Hq', Hs'. intros Hl.
    assert (l ≠ job) as Hne by (by intros ->).
    rewrite Hh by done. apply Hpaths. rewrite Hs.
    rewrite fmap_app in Hl |- *. cbn. set_solver.
Qed.

(** the invariants together *)
Lemma invariants_step w e w' :
  Inv w ∧ Outcome w ∧ Scheduled w →
  step uuid4_at time_at converter_at w e w' →
  Inv w' ∧ Outcome w' ∧ Scheduled w'.
Proof.
  intros (HI & HO & HS) Hstep. split_and!.
  - by destruct (Inv_step _ _ _ _ _ _ HI Hstep).
  - by eapply Outcome_step.
  - destruct Hstep as [r w _|job q1 q2 w Hq|job t s1 s2 w Hs].
    + by apply Scheduled_request.
    + by apply Scheduled_start.
    + by apply Scheduled_resume.
Qed.

Lemma invariants_steps w es w' :
  Inv w ∧ Outcome w ∧ Scheduled w →
  steps uuid4_at time_at converter_at w es w' →
  Inv w' ∧ Outcome w' ∧ Scheduled w'.
Proof.
  intros H Hsteps. induction Hsteps as [w|w e w' es w'' Hstep _ IH]; [done|].
  eapply IH, invariants_step; eauto.
Qed.

Lemma invariants_reachable w :
  reachable uuid4_at time_at converter_at w →
  Inv w ∧ Outcome w ∧ Scheduled w.
Proof.
  intros (w0 & es & H0 & Hsteps).
  eapply invariants_steps; [|exact Hsteps].
  split_and!; [by apply Inv_initial|by apply Outcome_initial
              |by apply Scheduled_initial].
Qed.

Lemma steps_app w es w' es' w'' :
  steps uuid4_at time_at converter_at w es w' →
  steps uuid4_at time_at converter_at w' es' w'' →
  steps uuid4_at time_at converter_at w (es ++ es') w''.
Proof.
  induction 1 as [w|w e w1 es w2 Hstep _ IH]; [done|].
  intros H. cbn. eapply steps_cons; eauto.
Qed.

Lemma reachable_steps w es w' :
  reachable uuid4_at time_at converter_at w →
  steps uuid4_at time_at converter_at w es w' →
  reachable uuid4_at time_at converter_at w'.
Proof.
  intros (w0 & es0 & H0 & Hsteps) Hsteps'.
  exists w0, (es0 ++ es). split; [done|]. by eapply steps_app.
Qed.

End Outcomes.


(** ** What holds in every reachable state *)

Section Reachable.

Variable uuid4_at : nat → string.
Variable time_at : nat → Q.
Variable converter_at : nat → Converter.

Notation reachable := (reachable uuid4_at time_at converter_at).
Notation steps := (steps uuid4_at time_at converter_at).
Notation step := (step uuid4_at time_at converter_at).

Lemma get_conversion_status_ok job_id job w :
  conversion_jobs w !! job_id = Some job →
  ∃ st, get_conversion_status job_id w = (Ok st, w)
    ∧ st_job_id st = ConversionJob.id (heap w job)
    ∧ st_status st = status_value (ConversionJob.status (heap w job))
    ∧ st_conversion_time st = ConversionJob.conversion_time (heap w job)
    ∧ st_error_message st = ConversionJob.error_message (heap w job).
Proof.
  intros Hjob. unfold get_conversion_status. unfold_M.
  rewrite (lookup_job_found _ _ _ Hjob). eexists. by split_and!.
Qed.

Lemma status_value_inj s s' : status_value s = status_value s' → s = s'.
Proof. by destruct s, s'. Qed.

(** X10. In every reachable state the outcome fields of a job of the
    registry agree with its status: [error_message] is set exactly when
    it is FAILED, [converted_file_size] and [conversion_time] exactly
    when it is COMPLETED, [completed_at] exactly when it is in one of
    the two.  The status endpoint therefore reports an error message
    exactly with the status "failed", a conversion time exactly with
    "completed", and the id it was asked for. *)
Theorem outcome_fields_match_status w job_id job :
  reachable w →
  conversion_jobs w !! job_id = Some job →
  let j := heap w job in
  (ConversionJob.error_message j ≠ None ↔ ConversionJob.status j = FAILED)
  ∧ (ConversionJob.converted_file_size j ≠ None
     ↔ ConversionJob.status j = COMPLETED)
  ∧ (ConversionJob.conversion_time j ≠ None
     ↔ ConversionJob.status j = COMPLETED)
  ∧ (ConversionJob.completed_at j ≠ None
     ↔ ConversionJob.status j = COMPLETED ∨ ConversionJob.status j = FAILED)
  ∧ ∃ st, get_conversion_status job_id w = (Ok st, w)
      ∧ st_job_id st = job_id
      ∧ (st_error_message st ≠ None ↔ st_status st = "failed")
      ∧ (st_conversion_time st ≠ None ↔ st_status st = "completed").
Proof.
  intros (HI & [He Hsz Ht Hc] & _)%invariants_reachable Hjob j.
  destruct (inv_registry _ HI _ _ Hjob) as [Hlt Hid]. subst j.
  split_and!; [by apply He|by apply Hsz|by apply Ht|by apply Hc|].
  destruct (get_conversion_status_ok _ _ _ Hjob)
    as (st & E & E1 & E2 & E3 & E4).
  exists st. rewrite E1, E2, E3, E4. split_and!; [done|done|..].
  - rewrite (He _ Hlt). split; [by intros ->|].
    apply (status_value_inj _ FAILED).
  - rewrite (Ht _ Hlt). split; [by intros ->|].
    apply (status_value_inj _ COMPLETED).
Qed.

(** X11. In every reachable state the status of a job of the registry
    tells where its task is: the job is PENDING exactly when its task
    is in the queue, PROCESSING exactly when its coroutine is suspended
    at the capability, and COMPLETED or FAILED exactly when it has no
    task any more. *)
Theorem status_mirrors_scheduler w job_id job :
  reachable w →
  conversion_jobs w !! job_id = Some job →
  (ConversionJob.status (heap w job) = PENDING ↔ job ∈ background_tasks w)
  ∧ (ConversionJob.status (heap w job) = PROCESSING
     ↔ job ∈ (suspended w).*1)
  ∧ (terminal (ConversionJob.status (heap w job))
     ↔ job ∉ background_tasks w ∧ job ∉ (suspended w).*1).
Proof.
  intros (HI & _ & [Hpend Hproc _])%invariants_reachable Hjob.
  destruct (inv_registry _ HI _ _ Hjob) as [Hlt _].
  pose proof (inv_queued _ HI job) as Hq.
  pose proof (inv_running _ HI job) as Hr.
  specialize (Hpend _ _ Hjob). specialize (Hproc _ Hlt).
  unfold terminal.
  destruct (ConversionJob.status (heap w job)) eqn:Hst.
  all: split_and!; split; try done; try tauto.
  all: try (intros Hin; apply Hq in Hin as [_ ?]; congruence).
  all: try (intros Hin; apply Hr in Hin as [_ ?]; congruence).
  all: try (intros [? | ?]; congruence).
  all: try (intros _; split; intros Hin;
            [apply Hq in Hin as [_ ?]|apply Hr in Hin as [_ ?]]; congruence).
  all: intros [H1 H2]; exfalso; auto.
Qed.

(** a task step keeps the entries of the registry *)
Lemma task_step_registry w e w' job_id job :
  Inv w → step w e w' → task_event e = true →
  conversion_jobs w !! job_id = Some job →
  conversion_jobs w' !! job_id = Some job.
Proof.
  intros HI Hstep He Hjob.
  destruct (inv_registry _ HI _ _ Hjob) as [Hlt Hid].
  destruct Hstep as [r w _|l q1 q2 w Hq|l t s1 s2 w Hs]; [done|..].
  - destruct (start_task_spec time_at l q1 q2 w) as (_ & _ & _ & -> & _).
    destruct (decide (ConversionJob.id (heap w l) = job_id)) as [E|];
      [|by rewrite lookup_insert_ne].
    rewrite E, lookup_insert_eq. f_equal.
    apply (inv_ids _ HI); [|done|congruence].
    assert (l ∈ background_tasks w) as Hin by (rewrite Hq; set_solver).
    by destruct (inv_queued _ HI _ Hin).
  - pose proof (resume_task_spec time_at converter_at l t s1 s2 w) as Hspec.
    cbv zeta in Hspec. destruct (perform_conversion _ _ _) as [r w1].
    destruct Hspec as (_ & _ & _ & -> & _).
    destruct (decide (ConversionJob.id (heap w l) = job_id)) as [E|];
      [|by rewrite lookup_insert_ne].
    rewrite E, lookup_insert_eq. f_equal.
    apply (inv_ids _ HI); [|done|congruence].
    assert (l ∈ (suspended w).*1) as Hin.
    { rewrite Hs, fmap_app. set_solver. }
    by destruct (inv_running _ HI _ Hin).
Qed.

(** running the tasks that are outstanding, the suspended ones first *)
Lemma drain n w :
  Inv w →
  (2 * length (background_tasks w) + length (suspended w))%nat = n →
  ∃ es w', steps w es w'
    ∧ forallb task_event es = true
    ∧ length es = n
    ∧ background_tasks w' = [] ∧ suspended w' = []
    ∧ ∀ job_id job, conversion_jobs w !! job_id = Some job →
                    conversion_jobs w' !! job_id = Some job.
Proof.
  revert w. induction n as [|n IH]; intros w HI Hn.
  { exists [], w. split; [constructor|].
    destruct (background_tasks w), (suspended w); try done. }
  destruct (suspended w) as [|[job t] s2] eqn:Hs.
  - destruct (background_tasks w) as [|job q2] eqn:Hq; [done|].
    assert (step w (TaskStart job) (start_task time_at job [] q2 w)) as Hstep
      by by apply step_start.
    destruct (Inv_step _ _ _ _ _ _ HI Hstep) as [HI' _].
    pose proof (start_task_spec time_at job [] q2 w) as Hspec.
    cbv zeta in Hspec. revert Hstep HI' Hspec.
    generalize (start_task time_at job [] q2 w).
    intros w1 Hstep HI' (_ & _ & _ & _ & _ & Hq1 & Hs1).
    destruct (IH w1 HI') as (es & w' & Hsteps & Hall & Hlen & Hq' & Hs' & Hreg).
    { rewrite Hq1, Hs1, Hs. cbn in *. lia. }
    exists (TaskStart job :: es), w'. split_and!; try done.
    + by eapply steps_cons.
    + cbn. by rewrite Hlen.
    + intros job_id l Hl. apply Hreg.
      exact (task_step_registry _ _ _ _ _ HI Hstep eq_refl Hl).
  - assert (step w (TaskResume job)
              (resume_task time_at converter_at job t [] s2 w)) as Hstep
      by by apply step_resume.
    destruct (Inv_step _ _ _ _ _ _ HI Hstep) as [HI' _].
    pose proof (resume_task_spec time_at converter_at job t [] s2 w)
      as Hspec.
    cbv zeta in Hspec. destruct (perform_conversion _ _ _) as [r w0].
    revert Hstep HI' Hspec.
    generalize (resume_task time_at converter_at job t [] s2 w).
    intros w1 Hstep HI' (_ & _ & _ & _ & _ & Hq1 & Hs1).
    destruct (IH w1 HI') as (es & w' & Hsteps & Hall & Hlen & Hq' & Hs' & Hreg).
    { rewrite Hq1, Hs1. cbn in *. lia. }
    exists (TaskResume job :: es), w'. split_and!; try done.
    + by eapply steps_cons.
    + cbn. by rewrite Hlen.
    + intros job_id l Hl. apply Hreg.
      exact (task_step_registry _ _ _ _ _ HI Hstep eq_refl Hl).
Qed.

(** X12. No job stays unfinished for want of a step: from every
    reachable state the tasks that are outstanding can be run one after
    another, two steps for each queued task and one for each suspended
    coroutine, whatever the capabilities do; then no task is left,
    every job that was in the registry still is, and every job of the
    registry is COMPLETED or FAILED. *)
Theorem tasks_run_to_completion w :
  reachable w →
  ∃ es w',
    steps w es w'
    ∧ forallb task_event es = true
    ∧ length es
      = (2 * length (background_tasks w) + length (suspended w))%nat
    ∧ background_tasks w' = [] ∧ suspended w' = []
    ∧ (∀ job_id job, conversion_jobs w !! job_id = Some job →
                     conversion_jobs w' !! job_id = Some job)
    ∧ (∀ job_id job, conversion_jobs w' !! job_id = Some job →
                     terminal (ConversionJob.status (heap w' job))).
Proof.
  intros Hw. pose proof (invariants_reachable _ _ _ _ Hw) as (HI & _).
  destruct (drain _ w HI eq_refl)
    as (es & w' & Hsteps & Hall & Hlen & Hq & Hs & Hreg).
  exists es, w'. split_and!; try done.
  intros job_id job Hjob.
  destruct (invariants_reachable _ _ _ _ (reachable_steps _ _ _ _ _ _ Hw Hsteps))
    as (HI' & _ & [Hpend Hproc _]).
  destruct (inv_registry _ HI' _ _ Hjob) as [Hlt _].
  specialize (Hpend _ _ Hjob). specialize (Hproc _ Hlt).
  rewrite Hq in Hpend. rewrite Hs in Hproc. unfold terminal.
  destruct (ConversionJob.status (heap w' job)); auto.
  - by apply elem_of_nil in Hpend.
  - by apply elem_of_nil in Hproc.
Qed.

Lemma terminal_frozen_step w e w' l :
  Inv w → (l < next_ref w)%nat →
  terminal (ConversionJob.status (heap w l)) →
  step w e w' → heap w' l = heap w l.
Proof.
  intros HI Hlt Hterm Hstep.
  destruct Hstep as [r w _|job q1 q2 w Hq|job t s1 s2 w Hs].
  - destruct (request_effect_frame _ _ (serve_effect uuid4_at time_at r w))
      as (_ & Hh & _). by apply Hh.
  - destruct (start_task_spec time_at job q1 q2 w) as (_ & Hh & _).
    apply Hh. intros ->.
    assert (job ∈ background_tasks w) as Hin by (rewrite Hq; set_solver).
    destruct (inv_queued _ HI _ Hin) as [_ Hst].
    destruct Hterm; congruence.
  - pose proof (resume_task_spec time_at converter_at job t s1 s2 w) as Hspec.
    cbv zeta in Hspec. destruct (perform_conversion _ _ _) as [r w1].
    destruct Hspec as (_ & Hh & _).
    apply Hh. intros ->.
    assert (job ∈ (suspended w).*1) as Hin.
    { rewrite Hs, fmap_app. set_solver. }
    destruct (inv_running _ HI _ Hin) as [_ Hst].
    destruct Hterm; congruence.
Qed.

(** X13. A finished job is never written again: once a job is COMPLETED
    or FAILED in a reachable state, its whole record (status, sizes,
    times, message, URL and paths) stays as it is through every later
    step of the service, requests and tasks alike. *)
Theorem terminal_job_frozen w es w' l :
  reachable w →
  (l < next_ref w)%nat →
  terminal (ConversionJob.status (heap w l)) →
  steps w es w' →
  heap w' l = heap w l.
Proof.
  intros HI%Inv_reachable Hlt Hterm Hsteps.
  induction Hsteps as [w|w e w1 es w2 Hstep _ IH]; [done|].
  destruct (Inv_step _ _ _ _ _ _ HI Hstep) as [HI1 [Hn _]].
  pose proof (terminal_frozen_step _ _ _ _ HI Hlt Hterm Hstep) as E.
  rewrite IH; [done|done|lia|by rewrite E].
Qed.

Lemma same_inputs_refl j : same_inputs j j.
Proof. by repeat split. Qed.

Lemma same_inputs_trans j1 j2 j3 :
  same_inputs j1 j2 → same_inputs j2 j3 → same_inputs j1 j3.
Proof. unfold same_inputs. intros ? ?. destruct_and!. split_and!; congruence. Qed.

Lemma settled_same_inputs j r fs start_time clock :
  same_inputs j (settled time_at j r fs start_time clock).
Proof.
  unfold settled.
  destruct r as [[|]|e]; [destruct (ConversionJob.converted_file_path j) as [p|];
                          [destruct (fs !! p)|]|..];
    by repeat split.
Qed.

Lemma same_inputs_step w e w' l :
  (l < next_ref w)%nat → step w e w' →
  same_inputs (heap w l) (heap w' l).
Proof.
  intros Hlt Hstep.
  destruct Hstep as [r w _|job q1 q2 w Hq|job t s1 s2 w Hs].
  - destruct (request_effect_frame _ _ (serve_effect uuid4_at time_at r w))
      as (_ & Hh & _). rewrite Hh by done. apply same_inputs_refl.
  - destruct (start_task_spec time_at job q1 q2 w) as (Hj & Hh & _).
    destruct (decide (l = job)) as [->|];
      [rewrite Hj; by repeat split|rewrite Hh by done; apply same_inputs_refl].
  - pose proof (resume_task_spec time_at converter_at job t s1 s2 w) as Hspec.
    cbv zeta in Hspec. destruct (perform_conversion _ _ _) as [r w1].
    destruct Hspec as (Hj & Hh & _).
    destruct (decide (l = job)) as [->|];
      [rewrite Hj; apply settled_same_inputs
      |rewrite Hh by done; apply same_inputs_refl].
Qed.

(** X14. The inputs of a job are written once: its id, file names,
    formats, upload size, creation time, scratch path and converted
    path are the same after any number of steps of the service; a task
    changes the status and the outcome fields only. *)
Theorem job_inputs_never_change w es w' l :
  reachable w →
  (l < next_ref w)%nat →
  steps w es w' →
  same_inputs (heap w l) (heap w' l).
Proof.
  intros HI%Inv_reachable Hlt Hsteps.
  induction Hsteps as [w|w e w1 es w2 Hstep _ IH]; [apply same_inputs_refl|].
  destruct (Inv_step _ _ _ _ _ _ HI Hstep) as [HI1 [Hn _]].
  eapply same_inputs_trans; [exact (same_inputs_step _ _ _ _ Hlt Hstep)|].
  apply IH; [done|lia].
Qed.

Lemma perform_conversion_never_raises job w :
  never_raises converter_at →
  ∃ b, (perform_conversion converter_at job w).1 = Ok b.
Proof.
  intros Hnr. unfold perform_conversion. unfold_M.
  repeat match goal with
         | |- context [if ?b then _ else _] => destruct b
         end; eauto.
  all: unfold convert.
  all: match goal with
       | |- context [converter_at ?k ?c ?i ?o ?fs] =>
           destruct (Hnr k c i o fs) as [b Hb];
           destruct (converter_at k c i o fs) as [r fs']; cbn in *; eauto
       end.
Qed.

Lemma plain_failures_step w e w' :
  never_raises converter_at →
  Inv w → Scheduled w → plain_failures w → step w e w' →
  plain_failures w'.
Proof.
  intros Hnr HI HS Hpf Hstep.
  destruct Hstep as [r w _|job q1 q2 w Hq|job t s1 s2 w Hs].
  - destruct (request_effect_frame _ _ (serve_effect uuid4_at time_at r w))
      as (_ & Hh & _).
    pose proof (serve_new_job uuid4_at time_at r w) as Hnew.
    cbv zeta in Hnew. intros l Hl Hst.
    destruct (decide (l < next_ref w)%nat) as [Hlt|Hge].
    + rewrite Hh in Hst |- * by done. by apply Hpf.
    + destruct (Hnew l) as (Hst' & _); [lia|]. congruence.
  - destruct (start_task_spec time_at job q1 q2 w) as (Hj & Hh & Hn & _).
    intros l. rewrite Hn. intros Hl Hst.
    destruct (decide (l = job)) as [->|]; [by rewrite Hj in Hst|].
    rewrite Hh in Hst |- * by done. by apply Hpf.
  - pose proof (resume_task_spec time_at converter_at job t s1 s2 w) as Hspec.
    cbv zeta in Hspec.
    destruct (perform_conversion_never_raises job
                (with_tasks (background_tasks w) (s1 ++ s2) w) Hnr) as [b Hb].
    destruct (perform_conversion _ _ _) as [r w1]. cbn in Hb. subst r.
    destruct Hspec as (Hj & Hh & Hn & _).
    intros l. rewrite Hn. intros Hl Hst.
    destruct (decide (l = job)) as [->|];
      [|rewrite Hh in Hst |- * by done; by apply Hpf].
    assert (job ∈ background_tasks w ++ (suspended w).*1) as Hin.
    { rewrite Hs, fmap_app. set_solver. }
    destruct (sched_paths _ HS _ Hin) as [_ [p Hp]].
    rewrite Hj in Hst |- *. revert Hst. unfold settled. rewrite Hp.
    destruct b; [destruct (files w1 !! p)|]; by cbn.
Qed.

Lemma plain_failures_reachable w :
  never_raises converter_at → reachable w → Inv w ∧ plain_failures w.
Proof.
  intros Hnr (w0 & es & H0 & Hsteps).
  assert (Inv w ∧ Scheduled w ∧ plain_failures w) as (HI & _ & Hpf);
    [|done].
  assert (Inv w0 ∧ Scheduled w0 ∧ plain_failures w0) as Hinit.
  { split_and!; [by apply Inv_initial|by apply Scheduled_initial|].
    destruct H0 as (Hn & _). intros l. rewrite Hn. lia. }
  clear H0.
  induction Hsteps as [w|w e w1 es w2 Hstep _ IH]; [done|].
  apply IH. destruct Hinit as (HI & HS & Hpf).
  split_and!.
  - by destruct (Inv_step _ _ _ _ _ _ HI Hstep).
  - destruct Hstep as [r w _|l q1 q2 w Hq|l t s1 s2 w Hs].
    + by apply Scheduled_request.
    + by apply Scheduled_start.
    + by apply Scheduled_resume.
  - by eapply plain_failures_step.
Qed.

(** X15. When no capability ever raises, the only message a failed job
    carries is "Conversion failed": in every reachable state a FAILED
    job of the registry has exactly this [error_message], and the
    status endpoint reports it.  The message "Conversion error: ..." of
    the [except] branch is then never seen, since every job that runs
    has a converted path. *)
Theorem failures_carry_plain_message w job_id job :
  never_raises converter_at →
  reachable w →
  conversion_jobs w !! job_id = Some job →
  ConversionJob.status (heap w job) = FAILED →
  ConversionJob.error_message (heap w job) = Some "Conversion failed"
  ∧ ∃ st, get_conversion_status job_id w = (Ok st, w)
      ∧ st_status st = "failed"
      ∧ st_error_message st = Some "Conversion failed".
Proof.
  intros Hnr Hw Hjob Hst.
  destruct (plain_failures_reachable w Hnr Hw) as [HI Hpf].
  destruct (inv_registry _ HI _ _ Hjob) as [Hlt _].
  pose proof (Hpf _ Hlt Hst) as Hmsg. split; [done|].
  destruct (get_conversion_status_ok _ _ _ Hjob)
    as (st & E & _ & Hs & _ & He).
  exists st. by rewrite Hs, He, Hst, Hmsg.
Qed.

Lemma download_converted_file_ok job_id job p n w :
  conversion_jobs w !! job_id = Some job →
  ConversionJob.status (heap w job) = COMPLETED →
  ConversionJob.converted_file_path (heap w job) = Some p →
  files w !! p = Some n →
  download_converted_file job_id w
  = (Ok {| fr_path := Some p;
           fr_filename := ConversionJob.converted_filename (heap w job);
           fr_media_type := "application/octet-stream" |}, w).
Proof.
  intros Hjob Hst Hp Hfs. unfold download_converted_file. unfold_M.
  rewrite (lookup_job_found _ _ _ Hjob).
  rewrite bool_decide_true by done. simpl. rewrite Hp. simpl.
  rewrite bool_decide_true; [done|]. rewrite Hfs. eauto.
Qed.

(** X16. Cleaning up one job does not touch the artifact of another,
    as long as no two jobs share a working path: in a reachable state
    in which the converted path of a job is no path of another job,
    with capabilities that change no file but their output path and
    the PDF LibreOffice leaves beside it, after [cleanup(id)]
    succeeded every other COMPLETED job of the registry can still be
    downloaded, from the same path and under the same name as
    before. *)
Theorem cleanup_leaves_other_artifacts w job_id other job :
  confined converter_at →
  reachable w →
  distinct_paths w →
  is_Some (conversion_jobs w !! job_id) →
  other ≠ job_id →
  conversion_jobs w !! other = Some job →
  ConversionJob.status (heap w job) = COMPLETED →
  let '(r, w') := cleanup_conversion_files job_id w in
  r = Ok "Files cleaned up successfully"
  ∧ ∃ p, download_converted_file other w
         = (Ok {| fr_path := Some p;
                  fr_filename :=
                    ConversionJob.converted_filename (heap w job);
                  fr_media_type := "application/octet-stream" |}, w)
      ∧ download_converted_file other w'
        = (Ok {| fr_path := Some p;
                 fr_filename :=
                   ConversionJob.converted_filename (heap w job);
                 fr_media_type := "application/octet-stream" |}, w').
Proof.
  intros Hwo Hw Hd [l Hl] Hne Hjob Hst.
  pose proof (Inv_reachable _ _ _ _ Hw) as HI.
  pose proof (FilesInv_reachable _ _ _ Hwo _ Hw Hd) as HF.
  destruct (HF _ _ Hjob Hst) as (p & n & Hp & Hn & _).
  destruct (inv_registry _ HI _ _ Hjob) as [Hlt Hid].
  destruct (inv_registry _ HI _ _ Hl) as [Hlt' Hid'].
  assert (job ≠ l) as Hjl by (intros ->; congruence).
  destruct (Hd job l p Hlt Hlt' Hjl Hp) as (Hp1 & Hp2 & _).
  destruct (cleanup_conversion_files_found _ _ _ Hl) as (fs & -> & Hfs & _).
  split; [done|]. exists p. split.
  - by apply (download_converted_file_ok _ _ _ n).
  - pose proof (download_converted_file_ok other job p n
                  (with_conversion_jobs (delete job_id (conversion_jobs w))
                     (with_files fs w))) as Hdl.
    cbn in Hdl. apply Hdl; try done.
    + by rewrite lookup_delete_ne.
    + cbv zeta in Hfs. by rewrite Hfs.
Qed.

End Reachable.


(** ** A download stays available *)

Section Availability.

Variable uuid4_at : nat → string.
Variable time_at : nat → Q.
Variable converter_at : nat → Converter.

Notation reachable := (reachable uuid4_at time_at converter_at).
Notation steps := (steps uuid4_at time_at converter_at).
Notation step := (step uuid4_at time_at converter_at).

(** a submission keeps the entries of the registry: the id it stores
    its job under is a new one *)
Lemma handle_conversion_keeps_entry file conversion_type from_format
    to_format w job_id job :
  let w' := (handle_conversion uuid4_at time_at file conversion_type
               from_format to_format w).2 in
  Inv w →
  (∀ l, (next_ref w ≤ l < next_ref w')%nat → unused_id w (heap w' l)) →
  conversion_jobs w !! job_id = Some job →
  conversion_jobs w' !! job_id = Some job.
Proof.
  intros w' HI. subst w'.
  destruct (handle_conversion_cases uuid4_at time_at file conversion_type
              from_format to_format w)
    as [[_ E]|[(_ & msg & w' & _ & E & _ & _ & _ & Hreg & _)
       |[(_ & _ & _ & w' & E & _ & _ & _ & Hreg & _)
        |(_ & _ & _ & w' & E & Hf & Hj & _ & Hreg & _)]]];
    rewrite E; cbn [snd]; intros Hfresh Hjob; rewrite ?Hreg; try done.
  destruct (inv_registry _ HI _ _ Hjob) as [Hlt Hid].
  destruct Hf as [Hn _].
  pose proof (Hfresh (next_ref w) ltac:(lia) job Hlt) as Hne.
  rewrite Hj in Hne. rewrite lookup_insert_ne; [done|].
  intros Hu. apply Hne. by rewrite Hid, <- Hu.
Qed.

(** a request other than the cleanup of [job_id] keeps its entry *)
Lemma request_keeps_entry r w job_id job :
  Inv w →
  (∀ l, (next_ref w ≤ l < next_ref (serve uuid4_at time_at r w).2)%nat →
        unused_id w (heap (serve uuid4_at time_at r w).2 l)) →
  r ≠ DeleteCleanup job_id →
  conversion_jobs w !! job_id = Some job →
  conversion_jobs (serve uuid4_at time_at r w).2 !! job_id = Some job.
Proof.
  intros HI. destruct r as [file|file|file|uploads|file|id|id|id];
    cbn [serve]; rewrite fmap_world; intros Hfresh Hne Hjob.
  1-3,5: by apply handle_conversion_keeps_entry.
  - destruct uploads as [|file ?]; [done|].
    by apply handle_conversion_keeps_entry.
  - by rewrite get_conversion_status_pure.
  - by rewrite download_converted_file_pure.
  - destruct (conversion_jobs w !! id) as [l|] eqn:Hl.
    + destruct (cleanup_conversion_files_found _ _ _ Hl) as (fs & -> & _).
      cbn. rewrite lookup_delete_ne; [done|]. congruence.
    + by rewrite cleanup_conversion_files_missing.
Qed.

Lemma step_keeps_entry w e w' job_id job :
  Inv w → step w e w' → e ≠ Request (DeleteCleanup job_id) →
  conversion_jobs w !! job_id = Some job →
  conversion_jobs w' !! job_id = Some job.
Proof.
  intros HI Hstep Hne Hjob.
  destruct (task_event e) eqn:He;
    [exact (task_step_registry uuid4_at time_at converter_at _ _ _ _ _
              HI Hstep He Hjob)|].
  destruct Hstep as [r w Hfresh| |]; [|done..].
  apply request_keeps_entry; [done|done|congruence|done].
Qed.

(** until its cleanup is requested, a finished job of the registry
    stays in the registry, with its record as it is *)
Lemma finished_job_kept w es w' job_id job :
  Inv w → steps w es w' →
  Request (DeleteCleanup job_id) ∉ es →
  conversion_jobs w !! job_id = Some job →
  terminal (ConversionJob.status (heap w job)) →
  conversion_jobs w' !! job_id = Some job ∧ heap w' job = heap w job.
Proof.
  intros HI Hsteps. induction Hsteps as [w|w e w1 es w2 Hstep _ IH]; [done|].
  intros Hes Hjob Hterm.
  apply not_elem_of_cons in Hes as [Hne Hes].
  destruct (Inv_step _ _ _ _ _ _ HI Hstep) as [HI1 _].
  destruct (inv_registry _ HI _ _ Hjob) as [Hlt _].
  pose proof (terminal_frozen_step uuid4_at time_at converter_at _ _ _ _
                HI Hlt Hterm Hstep) as E.
  assert (conversion_jobs w1 !! job_id = Some job) as Hjob1.
  { apply (step_keeps_entry _ _ _ _ _ HI Hstep); [congruence|done]. }
  rewrite <- E in Hterm.
  destruct (IH HI1 Hes Hjob1 Hterm) as [Hreg Hh].
  split; [done|congruence].
Qed.

Lemma download_converted_file_ok_inv job_id fr w :
  (download_converted_file job_id w).1 = Ok fr →
  ∃ job, conversion_jobs w !! job_id = Some job
    ∧ ConversionJob.status (heap w job) = COMPLETED
    ∧ fr = {| fr_path := ConversionJob.converted_file_path (heap w job);
              fr_filename := ConversionJob.converted_filename (heap w job);
              fr_media_type := "application/octet-stream" |}.
Proof.
  unfold download_converted_file, lookup_job, os_path_exists. unfold_M.
  destruct (conversion_jobs w !! job_id) as [job|]; [|done]. cbn.
  destruct (bool_decide _) eqn:Hst; [|done].
  apply bool_decide_eq_true in Hst. cbn.
  destruct (ConversionJob.converted_file_path (heap w job)) as [p|] eqn:Hp;
    [|done].
  cbn. destruct (bool_decide _); [|done]. cbn. intros [= <-].
  exists job. by rewrite Hp.
Qed.

(** X25. A download that succeeds keeps succeeding until the cleanup
    of its job is requested, as long as no two jobs share a working
    path.  With capabilities that change no file but their output
    path and the PDF LibreOffice leaves beside it, if [download(id)]
    answers in a reachable state, then after any further steps of the
    service, submissions, cleanups of other jobs and tasks of other
    jobs among them, but no [cleanup(id)], that end in a state in
    which the converted path of a job is no path of another job, it
    gives the same answer: the same path, still on disk, and the same
    file name; and the status endpoint still reports "completed". *)
Theorem download_stays_available w es w' job_id fr :
  confined converter_at →
  reachable w →
  distinct_paths w' →
  (download_converted_file job_id w).1 = Ok fr →
  steps w es w' →
  Request (DeleteCleanup job_id) ∉ es →
  download_converted_file job_id w' = (Ok fr, w')
  ∧ (∃ p, fr_path fr = Some p ∧ is_Some (files w' !! p))
  ∧ ∃ st, get_conversion_status job_id w' = (Ok st, w')
      ∧ st_status st = "completed".
Proof.
  intros Hwo Hw Hd (job & Hjob & Hst & ->)%download_converted_file_ok_inv
    Hsteps Hes.
  pose proof (Inv_reachable _ _ _ _ Hw) as HI.
  destruct (finished_job_kept _ _ _ _ _ HI Hsteps Hes Hjob) as [Hjob' Hh].
  { left. done. }
  pose proof (reachable_steps _ _ _ _ _ _ Hw Hsteps) as Hw'.
  pose proof (FilesInv_reachable _ _ _ Hwo _ Hw' Hd) as HF.
  rewrite <- Hh in Hst |- *.
  destruct (HF _ _ Hjob' Hst) as (p & n & Hp & Hn & _).
  split_and!.
  - rewrite Hp. by apply (download_converted_file_ok _ _ _ n).
  - exists p. cbn. by rewrite Hn.
  - destruct (get_conversion_status_ok _ _ _ Hjob')
      as (st & E & _ & Hs & _).
    exists st. by rewrite Hs, Hst.
Qed.

End Availability.


(** ** What the converters compute *)

Section Stories.

Implicit Types s t : string.

Lemma lstrip_nil_iff s : PyStr.lstrip s = "" ↔ all_space s = true.
Proof.
  induction s as [|c s IH]; [done|]. simpl.
  destruct (PyStr.isspace c); [done|]. split; discriminate.
Qed.

Lemma lstrip_head s c r :
  PyStr.lstrip s = String c r → PyStr.isspace c = false.
Proof.
  induction s as [|c' s IH]; [done|]. simpl.
  destruct (PyStr.isspace c') eqn:Hc; [done|]. by intros [= <- _].
Qed.

Lemma rstrip_cons c s :
  PyStr.isspace c = false → ∃ r, PyStr.rstrip (String c s) = String c r.
Proof.
  intros Hc. simpl. rewrite Hc. destruct (PyStr.rstrip s); eauto.
Qed.

Lemma rstrip_nil_iff s : PyStr.rstrip s = "" ↔ all_space s = true.
Proof.
  induction s as [|c s IH]; [done|]. simpl.
  destruct (PyStr.rstrip s) as [|c' r].
  - destruct (PyStr.isspace c); [|split; discriminate].
    split; [intros _; by apply IH|done].
  - split; [discriminate|]. intros [_ H]%andb_true_iff.
    apply IH in H. discriminate.
Qed.

Lemma strip_nil_iff s : PyStr.strip s = "" ↔ all_space s = true.
Proof.
  unfold PyStr.strip. rewrite <- lstrip_nil_iff.
  destruct (PyStr.lstrip s) as [|c r] eqn:E; [done|].
  apply lstrip_head in E. destruct (rstrip_cons c r E) as [r' ->].
  split; discriminate.
Qed.

Lemma rstrip_idem s : PyStr.rstrip (PyStr.rstrip s) = PyStr.rstrip s.
Proof.
  induction s as [|c s IH]; [done|]. simpl.
  destruct (PyStr.rstrip s) as [|c' r] eqn:E.
  - destruct (PyStr.isspace c) eqn:Hc; [done|]. simpl. by rewrite Hc.
  - change (PyStr.rstrip (String c (String c' r)))
      with (match PyStr.rstrip (String c' r) with
            | "" => if PyStr.isspace c then "" else String c ""
            | r' => String c r'
            end).
    by rewrite IH.
Qed.

Lemma strip_idem s : PyStr.strip (PyStr.strip s) = PyStr.strip s.
Proof.
  unfold PyStr.strip.
  destruct (PyStr.lstrip s) as [|c r] eqn:E; [done|].
  apply lstrip_head in E. destruct (rstrip_cons c r E) as [r' Hr].
  rewrite Hr. cbn [PyStr.lstrip]. rewrite E, <- Hr. apply rstrip_idem.
Qed.

Lemma truthy_strip s :
  PyStr.truthy (PyStr.strip s) = negb (all_space s).
Proof.
  unfold PyStr.truthy. destruct (all_space s) eqn:E.
  - apply strip_nil_iff in E. by rewrite E.
  - destruct (PyStr.strip s) eqn:E'; [|done].
    apply strip_nil_iff in E'. congruence.
Qed.

Lemma split_from_all_space sep k s :
  all_space s = true →
  Forall (λ x, all_space x = true) (PyStr.split_from sep k s).
Proof.
  revert k. induction s as [|c s IH]; intros k Hs.
  { by repeat constructor. }
  simpl in Hs. apply andb_true_iff in Hs as [Hc Hs]. cbn [PyStr.split_from].
  destruct k as [|k]; [|by apply IH].
  destruct (String.prefix sep (String c s)).
  { constructor; [done|by apply IH]. }
  specialize (IH 0%nat Hs). destruct (PyStr.split_from sep 0 s) as [|h t].
  - repeat constructor. simpl. by rewrite Hc.
  - apply list.Forall_cons in IH as [Hh Ht]. constructor; [|done].
    simpl. by rewrite Hc, Hh.
Qed.

Lemma replace_free ch new s :
  free_of ch new = true → free_of ch (PyStr.replace ch new s) = true.
Proof.
  intros Hnew. induction s as [|c s IH]; [done|]. simpl.
  destruct (Ascii.eqb c ch) eqn:Hc.
  - by rewrite free_of_append, Hnew, IH.
  - simpl. by rewrite Hc, IH.
Qed.

Lemma flat_map_nil {A B} (f : A → list B) xs :
  Forall (λ x, f x = []) xs → flat_map f xs = [].
Proof. induction 1 as [|x xs Hx _ IH]; [done|]. simpl. by rewrite Hx, IH. Qed.

Lemma Forall_flat_map {A B} (P : B → Prop) (f : A → list B) xs :
  (∀ x, Forall P (f x)) → Forall P (flat_map f xs).
Proof.
  intros Hf. induction xs as [|x xs IH]; [constructor|].
  simpl. apply Forall_app. by split.
Qed.

(** X21. The story [text_to_pdf] builds is never empty: a text without
    any paragraph that is not blank (the empty file, white space only)
    gives one paragraph holding the whole text.  Every paragraph of a
    story is in the style Normal and holds no line feed, each being
    replaced by a break tag, and every spacer is 12 points high. *)
Theorem text_story_never_empty text_content :
  text_story text_content ≠ []
  ∧ Forall (flowable_ok "Normal" 12) (text_story text_content)
  ∧ (all_space text_content = true →
     text_story text_content
     = [Paragraph (PyStr.replace PyStr.LF "<br/>" text_content) "Normal"]).
Proof.
  unfold text_story.
  set (f := λ para_text,
         if PyStr.truthy (PyStr.strip para_text)
         then [Paragraph (PyStr.replace PyStr.LF "<br/>" para_text) "Normal";
               Spacer 1 12]
         else []).
  assert (∀ x, Forall (flowable_ok "Normal" 12) (f x)) as Hf.
  { intros x. unfold f. destruct (PyStr.truthy _); repeat constructor.
    by apply replace_free. }
  split_and!.
  - by destruct (flat_map f _).
  - pose proof (Forall_flat_map _ f
                  (PyStr.split PyStr.blank_line text_content) Hf) as H.
    destruct (flat_map f _); [|done].
    repeat constructor. by apply replace_free.
  - intros Hs. rewrite flat_map_nil; [done|].
    eapply Forall_impl; [|by apply split_from_all_space].
    intros x Hx. unfold f. by rewrite truthy_strip, Hx.
Qed.

Lemma page_paragraphs_spec page_text :
  Forall (λ b, match b with
               | add_paragraph text => text ≠ "" ∧ PyStr.strip text = text
               | add_page_break => False
               end) (page_paragraphs page_text).
Proof.
  unfold page_paragraphs. apply Forall_flat_map. intros x.
  destruct (PyStr.truthy (PyStr.strip x)) eqn:E; repeat constructor.
  - intros E'. unfold PyStr.truthy in E. by rewrite E' in E.
  - apply strip_idem.
Qed.

Lemma page_paragraphs_no_break page_text :
  List.filter is_page_break (page_paragraphs page_text) = [].
Proof.
  pose proof (page_paragraphs_spec page_text) as H.
  induction H as [|b bs Hb _ IH]; [done|]. by destruct b.
Qed.

Lemma docx_pages_breaks first text_content :
  length (List.filter is_page_break (docx_pages first text_content))
  = if first then pred (length text_content) else length text_content.
Proof.
  revert first. induction text_content as [|page rest IH]; intros first.
  { by destruct first. }
  cbn [docx_pages]. rewrite !List.filter_app, !length_app.
  rewrite page_paragraphs_no_break, IH. by destruct first.
Qed.

Lemma docx_pages_paragraphs first text_content :
  Forall (λ b, match b with
               | add_paragraph text => text ≠ "" ∧ PyStr.strip text = text
               | add_page_break => True
               end) (docx_pages first text_content).
Proof.
  revert first.
  induction text_content as [|page rest IH]; intros first; [constructor|].
  cbn [docx_pages]. rewrite !Forall_app. split_and!.
  - destruct first; by repeat constructor.
  - eapply Forall_impl; [|apply page_paragraphs_spec]. by intros [].
  - apply IH.
Qed.

Lemma docx_pages_blank first text_content :
  Forall (λ page_text, all_space page_text = true) text_content →
  Forall (λ b, b = add_page_break) (docx_pages first text_content).
Proof.
  intros H. revert first.
  induction H as [|page rest Hp _ IH]; intros first; [constructor|].
  cbn [docx_pages]. rewrite !Forall_app. split_and!.
  - destruct first; by repeat constructor.
  - unfold page_paragraphs. rewrite flat_map_nil; [constructor|].
    eapply Forall_impl; [|by apply split_from_all_space].
    intros x Hx. by rewrite truthy_strip, Hx.
  - apply IH.
Qed.

(** X24. The Word document [pdf_to_word] writes has one page break
    less than the PDF has pages (none for a PDF without pages), and
    every paragraph added to it is a text that is not empty and has no
    white space at either end; blank paragraphs of the extracted text
    are dropped, so that a PDF without text gives a document of page
    breaks only. *)
Theorem docx_body_page_breaks text_content :
  length (List.filter is_page_break (docx_body text_content))
  = pred (length text_content)
  ∧ Forall (λ b, match b with
                 | add_paragraph text => text ≠ "" ∧ PyStr.strip text = text
                 | add_page_break => True
                 end) (docx_body text_content)
  ∧ (Forall (λ page_text, all_space page_text = true) text_content →
     Forall (λ b, b = add_page_break) (docx_body text_content)).
Proof.
  unfold docx_body. split_and!.
  - apply docx_pages_breaks.
  - apply docx_pages_paragraphs.
  - apply docx_pages_blank.
Qed.

End Stories.

Section Sheets.

Local Open Scope Q_scope.

Lemma length_slice_to n s : (String.length (Py.slice_to n s) ≤ Z.to_nat n)%nat.
Proof.
  unfold Py.slice_to. generalize (Z.to_nat n). intros k. revert s.
  induction k as [|k IH]; intros [|c s]; simpl; try lia.
  specialize (IH s). lia.
Qed.

Lemma draw_cells_spec x y row :
  Forall (λ op, cut_to_20 op
                ∧ match op with
                  | drawString x' y' _ => x <= x' ∧ y' = y
                  | _ => True
                  end) (draw_cells x y row).
Proof.
  revert x. induction row as [|cell row IH]; intros x; [constructor|].
  cbn [draw_cells]. apply Forall_app. split.
  - destruct cell as [text|]; [|constructor].
    constructor; [|constructor]. split; [apply (length_slice_to 20)|].
    split; [lra|done].
  - eapply Forall_impl; [|apply (IH (x + 100))].
    intros [| |]; try done. intros (? & ? & ?). split_and!; [done|lra|done].
Qed.

Lemma draw_cells_count x y row :
  length (List.filter is_drawString (draw_cells x y row))
  = length (omap id row).
Proof.
  revert x. induction row as [|cell row IH]; intros x; [done|].
  cbn [draw_cells]. rewrite List.filter_app, length_app, IH.
  by destruct cell.
Qed.

Lemma draw_cells_no_cell x y row :
  Forall (λ op, is_drawString op = true) (draw_cells x y row).
Proof.
  revert x. induction row as [|cell row IH]; intros x; [constructor|].
  cbn [draw_cells]. apply Forall_app. split; [|apply IH].
  destruct cell; by repeat constructor.
Qed.

(** the rows after the 102nd are not looked at *)
Lemma draw_rows_take height row_idx y rows :
  (0 ≤ row_idx ≤ 101)%Z →
  draw_rows height row_idx y rows
  = draw_rows height row_idx y (take (Z.to_nat (102 - row_idx)) rows).
Proof.
  revert row_idx y. induction rows as [|row rows IH]; intros row_idx y Hi.
  { by rewrite take_nil. }
  replace (Z.to_nat (102 - row_idx))
    with (S (Z.to_nat (102 - (row_idx + 1)))) by lia.
  cbn [take draw_rows].
  destruct (Z.ltb_spec 100 row_idx) as [Hlt|Hge]; [done|].
  by rewrite <- IH by lia.
Qed.

Lemma draw_rows_spec height row_idx y rows :
  100 <= height → y <= height - 50 →
  Forall (λ op, on_page height op ∧ cut_to_20 op)
    (draw_rows height row_idx y rows).1.
Proof.
  intros Hh. revert row_idx y.
  induction rows as [|row rows IH]; intros row_idx y Hy; [constructor|].
  cbn [draw_rows].
  set (new_page := negb (Qle_bool 50 y)).
  set (y0 := if new_page then height - 50 else y).
  assert (50 <= y0 ∧ y0 <= height - 50) as [Hlo Hhi].
  { unfold y0, new_page. destruct (Qle_bool 50 y) eqn:E; cbn.
    - apply Qle_bool_iff in E. by split.
    - split; lra. }
  assert (Forall (λ op, on_page height op ∧ cut_to_20 op)
            ((if new_page then [showPage] else []) ++ draw_cells 50 y0 row))
    as Hrow.
  { apply Forall_app. split; [destruct new_page; by repeat constructor|].
    eapply Forall_impl; [|apply draw_cells_spec].
    intros [| |] H; try done. destruct H as (? & ? & ->). by split_and!. }
  destruct (100 <? row_idx)%Z; [done|].
  specialize (IH (row_idx + 1)%Z (y0 - 15)).
  destruct (draw_rows height (row_idx + 1) (y0 - 15) rows) as [rest y'].
  cbn [fst] in *. apply Forall_app. split; [done|]. apply IH. lra.
Qed.

Lemma draw_rows_cut height row_idx y rows :
  Forall cut_to_20 (draw_rows height row_idx y rows).1.
Proof.
  revert row_idx y.
  induction rows as [|row rows IH]; intros row_idx y; [constructor|].
  cbn [draw_rows].
  set (new_page := negb (Qle_bool 50 y)).
  set (y0 := if new_page then height - 50 else y).
  assert (Forall cut_to_20
            ((if new_page then [showPage] else []) ++ draw_cells 50 y0 row))
    as Hrow.
  { apply Forall_app. split; [destruct new_page; by repeat constructor|].
    eapply Forall_impl; [|apply draw_cells_spec]. by intros op [? _]. }
  destruct (100 <? row_idx)%Z; [done|].
  specialize (IH (row_idx + 1)%Z (y0 - 15)).
  destruct (draw_rows height (row_idx + 1) (y0 - 15) rows) as [rest y'].
  cbn [fst] in *. apply Forall_app. by split.
Qed.

Lemma draw_rows_count height row_idx y rows :
  (0 ≤ row_idx ≤ 101)%Z →
  length (List.filter is_drawString (draw_rows height row_idx y rows).1)
  = length (filled_cells (take (Z.to_nat (102 - row_idx)) rows)).
Proof.
  revert row_idx y. induction rows as [|row rows IH]; intros row_idx y Hi.
  { by rewrite take_nil. }
  replace (Z.to_nat (102 - row_idx))
    with (S (Z.to_nat (102 - (row_idx + 1)))) by lia.
  cbn [take draw_rows]. unfold filled_cells. cbn [concat].
  rewrite omap_app, length_app.
  set (new_page := negb (Qle_bool 50 y)).
  set (y0 := if new_page then height - 50 else y).
  assert (length (List.filter is_drawString
                    ((if new_page then [showPage] else [])
                       ++ draw_cells 50 y0 row))
          = length (omap id row)) as Hrow.
  { rewrite List.filter_app, length_app, draw_cells_count.
    by destruct new_page. }
  destruct (Z.ltb_spec 100 row_idx) as [Hlt|Hge].
  - cbn [fst]. rewrite Hrow.
    replace (Z.to_nat (102 - (row_idx + 1))) with 0%nat by lia.
    by rewrite take_0.
  - specialize (IH (row_idx + 1)%Z (y0 - 15)).
    destruct (draw_rows height (row_idx + 1) (y0 - 15) rows) as [rest y'].
    cbn [fst] in *. rewrite List.filter_app, length_app, Hrow, IH by lia.
    done.
Qed.

Lemma draw_rows_take_102 height y rows :
  draw_rows height 0 y rows = draw_rows height 0 y (take 102 rows).
Proof. apply (draw_rows_take height 0 y rows). lia. Qed.

Lemma getitem_first_102 wb sheet_name :
  getitem (first_102_rows wb) sheet_name = take 102 (getitem wb sheet_name).
Proof.
  induction wb as [|[title rows] wb IH]; [done|].
  cbn. by destruct (String.eqb title sheet_name).
Qed.

Lemma sheetnames_first_102 wb : sheetnames (first_102_rows wb) = sheetnames wb.
Proof.
  unfold sheetnames, first_102_rows. rewrite <- list_fmap_compose.
  apply list_fmap_ext. by intros ? [title rows] ?.
Qed.

Lemma draw_sheets_first_102 height wb y names :
  draw_sheets height (first_102_rows wb) y names
  = draw_sheets height wb y names.
Proof.
  revert y. induction names as [|sheet_name names IH]; intros y; [done|].
  cbn [draw_sheets]. rewrite getitem_first_102, sheetnames_first_102.
  rewrite <- (draw_rows_take_102 height (y - 30) (getitem wb sheet_name)).
  destruct (draw_rows height 0 (y - 30) (getitem wb sheet_name)) as [body y'].
  by rewrite !IH.
Qed.

(** X22. The drawing of a sheet stops after its 102nd row (the rows
    are counted from 0 and the loop is left after the row with the
    index 101): the rows after it have no part in the PDF.  Of the
    rows that are drawn every cell that is not empty is drawn, once,
    and its text is cut to twenty characters. *)
Theorem excel_draws_102_rows :
  (∀ wb, excel_canvas (first_102_rows wb) = excel_canvas wb)
  ∧ (∀ height y rows,
       draw_rows height 0 y rows = draw_rows height 0 y (take 102 rows)
       ∧ length (List.filter is_drawString (draw_rows height 0 y rows).1)
         = length (filled_cells (take 102 rows))
       ∧ Forall cut_to_20 (draw_rows height 0 y rows).1).
Proof.
  split.
  - intros wb. unfold excel_canvas.
    by rewrite draw_sheets_first_102, sheetnames_first_102.
  - intros height y rows. split_and!.
    + apply draw_rows_take_102.
    + apply (draw_rows_count height 0 y rows). lia.
    + apply draw_rows_cut.
Qed.

Lemma last_app_cons {A} (pre : list A) x xs d :
  List.last (pre ++ x :: xs) d = List.last (x :: xs) d.
Proof.
  induction pre as [|y pre IH]; [done|].
  cbn [app]. rewrite <- IH. by destruct pre.
Qed.

Lemma last_elem_of {A} (x : A) xs d : List.last (x :: xs) d ∈ x :: xs.
Proof.
  revert x. induction xs as [|y xs IH]; intros x; [by left|].
  right. apply (IH y).
Qed.

Lemma draw_sheets_on_page height wb pre names y :
  100 <= height →
  sheetnames wb = pre ++ names → NoDup (sheetnames wb) →
  y == height - 50 →
  Forall (on_page height) (draw_sheets height wb y names).
Proof.
  intros Hh. revert pre y.
  induction names as [|sheet_name names IH]; intros pre y Hnames Hnd Hy;
    [constructor|].
  cbn [draw_sheets].
  pose proof (draw_rows_spec height 0 (y - 30) (getitem wb sheet_name) Hh)
    as Hrows.
  destruct (draw_rows height 0 (y - 30) (getitem wb sheet_name)) as [body y'].
  cbn [fst] in Hrows.
  constructor; [done|]. constructor.
  { cbn. rewrite Hy. split_and!; lra. }
  constructor; [done|].
  apply Forall_app. split.
  { eapply Forall_impl; [|apply Hrows; lra]. by intros op [? _]. }
  apply Forall_app. split; [by destruct (String.eqb _ _); repeat constructor|].
  destruct names as [|next names]; [constructor|].
  assert (String.eqb sheet_name (List.last (sheetnames wb) "") = false) as E.
  { apply String.eqb_neq. intros E. rewrite Hnames in Hnd.
    apply list.NoDup_app in Hnd as (_ & _ & Hnd).
    apply list.NoDup_cons in Hnd as [Hnot _]. apply Hnot.
    rewrite E at 1. rewrite Hnames.
    rewrite (last_app_cons pre sheet_name (next :: names)).
    change (List.last (sheet_name :: next :: names) "")
      with (List.last (next :: names) "").
    apply last_elem_of. }
  rewrite E. apply (IH (pre ++ [sheet_name])); [|done|reflexivity].
  by rewrite <- app_assoc.
Qed.

(** X23. On the pages [excel_to_pdf] draws itself, nothing is written
    into the top or the bottom margin: for a workbook whose sheets have
    distinct names, every text, the titles of the sheets and the cells,
    is drawn between 50 points from the bottom and 50 points from the
    top of the A4 page, and not left of the left margin. *)
Theorem excel_canvas_on_page wb :
  NoDup (sheetnames wb) →
  Forall (on_page A4.2) (excel_canvas wb).
Proof.
  intros Hnd. unfold excel_canvas.
  by apply (draw_sheets_on_page A4.2 wb []).
Qed.

End Sheets.


(** ** The converters of the service *)

Section ServiceConverters.

Variable lib : Libraries.

Lemma try_except_false (body : M bool) w :
  ∃ b, (try_except body (λ _, mret false) w).1 = Ok b.
Proof.
  unfold try_except. destruct (body w) as [[b|e] w']; cbn; eauto.
Qed.

Lemma try_except_true (body : M bool) w w' :
  try_except body (λ _, mret false) w = (Ok true, w') →
  body w = (Ok true, w').
Proof.
  unfold try_except. destruct (body w) as [[b|e] w1]; [done|].
  by intros [=].
Qed.

Lemma bind_ok_inv {A B} (m : M A) (k : A → M B) w b w' :
  (m ≫= k) w = (Ok b, w') → ∃ a w1, m w = (Ok a, w1) ∧ k a w1 = (Ok b, w').
Proof.
  unfold mbind, M_bind, bind. destruct (m w) as [[a|e] w1]; [eauto|done].
Qed.

Lemma os_path_exists_true path w w' :
  os_path_exists path w = (Ok true, w') →
  w' = w ∧ ∃ p, path = Some p ∧ is_Some (files w !! p).
Proof.
  destruct path as [p|]; [|done]. cbn. intros [= H <-]. split; [done|].
  exists p. split; [done|]. by apply bool_decide_eq_true in H.
Qed.

Lemma service_converter_never_raises c input_path output_path fs :
  ∃ b, (service_converter lib c input_path output_path fs).1 = Ok b.
Proof.
  unfold service_converter.
  destruct c;
    unfold ConversionService.word_to_pdf, ConversionService.pdf_to_word,
      ConversionService.text_to_pdf, ConversionService.image_to_pdf,
      ConversionService.excel_to_pdf;
    match goal with
    | |- context [try_except ?body ?h ?w] =>
        destruct (try_except_false body w) as [b Hb];
        exists b; revert Hb; by destruct (try_except body h w)
    end.
Qed.

Lemma run_true (m : M bool) fs fs' :
  (let '(r, w) := m (only_files fs) in (r, files w)) = (Ok true, fs') →
  ∃ w', m (only_files fs) = (Ok true, w') ∧ files w' = fs'.
Proof. destruct (m (only_files fs)) as [r w']. intros [= -> <-]. eauto. Qed.

(** X18. [word_to_pdf] and [pdf_to_word] answer True only when the
    output is on disk: their last step is [os.path.exists(output_path)],
    whatever LibreOffice, python-docx, reportlab or PyPDF2 did before.
    A job converted by one of them whose capability answered True is
    therefore COMPLETED by [process_conversion], not failed for a
    missing output. *)
Theorem converters_check_their_output c input_path output_path fs fs' :
  c = word_to_pdf ∨ c = pdf_to_word →
  service_converter lib c input_path output_path fs = (Ok true, fs') →
  (∃ p, output_path = Some p ∧ is_Some (fs' !! p))
  ∧ ∀ j, ConversionJob.converted_file_path j = output_path →
         is_Some (converted_output j (Ok true) fs').
Proof.
  intros Hc Hrun.
  assert (∃ p, output_path = Some p ∧ is_Some (fs' !! p))
    as (p & -> & Hp).
  { destruct Hc as [-> | ->]; cbn [service_converter] in Hrun;
      apply run_true in Hrun as (w' & Hrun & <-);
      apply try_except_true in Hrun.
    - apply bind_ok_inv in Hrun as (rc & w1 & _ & Hrun).
      apply bind_ok_inv in Hrun as ([] & w2 & _ & Hrun).
      by apply os_path_exists_true in Hrun as [-> ?].
    - apply bind_ok_inv in Hrun as ([] & w2 & _ & Hrun).
      by apply os_path_exists_true in Hrun as [-> ?]. }
  split; [eauto|]. intros j Hj. cbn. by rewrite Hj.
Qed.

(** X19. When LibreOffice succeeds, its PDF is moved to the output
    path.  LibreOffice names the PDF after the input, in the directory
    of the output; if it returns 0 and that file is there as a regular
    file, is not the output path itself, and no directory is in the
    place of the output, then [word_to_pdf] answers True, the output
    path holds that file, the generated name is gone and nothing else
    has changed.  [excel_to_pdf] does the same on a platform that is
    not Windows. *)
Theorem libreoffice_output_is_moved input output fs fs1 n :
  let generated :=
    Path.div (Path_parent output) (Path.stem input +:+ ".pdf") in
  subprocess_run lib
    [Some "libreoffice"; Some "--headless"; Some "--convert-to";
     Some "pdf"; Some "--outdir"; Some (Path_parent output); Some input] fs
  = (Ok 0, fs1) →
  fs1 !! generated = Some n →
  is_dir n = false →
  generated ≠ output →
  (∀ m, fs1 !! output = Some m → is_dir m = false) →
  service_converter lib word_to_pdf (Some input) (Some output) fs
  = (Ok true, <[output := n]> (delete generated fs1))
  ∧ (platform_system lib ≠ "Windows" →
     service_converter lib excel_to_pdf (Some input) (Some output) fs
     = (Ok true, <[output := n]> (delete generated fs1))).
Proof.
  intros generated Hrun Hgen Hn Hne Hout.
  assert (String.eqb generated output = false) as Hne'
    by by apply String.eqb_neq.
  assert (∀ w, files w = fs1 →
            os_rename generated (Some output) w
            = (Ok (), with_files (<[output := n]> (delete generated fs1)) w))
    as Hmove.
  { intros w Hw. unfold os_rename. rewrite Hw, Hgen.
    destruct (fs1 !! output) as [m|] eqn:Hm; [|done].
    by rewrite (Hout m), Hn. }
  split.
  - cbn [service_converter].
    unfold ConversionService.word_to_pdf, ConversionService.libreoffice,
      ConversionService.move_generated_pdf, call, PurePath.
    unfold_M. cbn [only_files files]. rewrite Hrun. cbn -[os_rename].
    fold generated. rewrite bool_decide_true by (rewrite Hgen; eauto).
    rewrite Hne'. cbn [andb negb]. rewrite Hmove by done. cbn.
    rewrite bool_decide_true; [done|]. rewrite lookup_insert_eq. eauto.
  - intros Hp%String.eqb_neq. cbn [service_converter].
    unfold ConversionService.excel_to_pdf,
      ConversionService.excel_libreoffice, ConversionService.libreoffice,
      ConversionService.move_generated_pdf, call, PurePath.
    rewrite Hp. unfold_M. cbn [only_files files negb]. rewrite Hrun.
    cbn -[os_rename].
    fold generated. rewrite bool_decide_true by (rewrite Hgen; eauto).
    rewrite Hne'. cbn [andb negb]. rewrite Hmove by done. cbn.
    rewrite bool_decide_true; [done|]. rewrite lookup_insert_eq. eauto.
Qed.

(** X20. [image_to_pdf] answers False for an empty list of images,
    without calling PIL and without touching a file: the branch for
    several images takes the first one of none.  It never raises, and
    an answer True means that the list was not empty. *)
Theorem image_to_pdf_empty_list input_paths output_path w :
  ConversionService.image_to_pdf lib [] output_path w = (Ok false, w)
  ∧ (∃ b, (ConversionService.image_to_pdf lib input_paths output_path w).1
          = Ok b)
  ∧ ((ConversionService.image_to_pdf lib input_paths output_path w).1
     = Ok true → input_paths ≠ []).
Proof.
  split; [done|]. split.
  - apply try_except_false.
  - by intros H ->.
Qed.

End ServiceConverters.

(** X17. The converters of the service never raise: each of them is one
    [try] block whose handler answers False, so that whatever the
    libraries do (LibreOffice missing or timing out, a file that cannot
    be read, a path that is None), the capability returns a boolean.
    With them, a job that fails always carries the message "Conversion
    failed": in every reachable state of the service the message
    "Conversion error: ..." is on no job of the registry. *)
Theorem service_converters_never_raise (libs : nat → Libraries) :
  never_raises (λ k, service_converter (libs k))
  ∧ ∀ uuid4_at time_at w job_id job,
      reachable uuid4_at time_at (λ k, service_converter (libs k)) w →
      conversion_jobs w !! job_id = Some job →
      ConversionJob.status (heap w job) = FAILED →
      ConversionJob.error_message (heap w job) = Some "Conversion failed".
Proof.
  assert (never_raises (λ k, service_converter (libs k))) as Hnr.
  { intros k c input_path output_path fs.
    apply service_converter_never_raises. }
  split; [done|]. intros uuid4_at time_at w job_id job Hw Hjob Hst.
  destruct (plain_failures_reachable _ _ _ w Hnr Hw) as [HI Hpf].
  destruct (inv_registry _ HI _ _ Hjob) as [Hlt _]. by apply Hpf.
Qed.


(** ** The further properties on the sample runs *)

Lemma demo_accepted :
  handle_conversion Demo.uuid4_at Demo.time_at Demo.upload TXT_TO_PDF "txt"
    "pdf" Demo.world
  = (Ok (started_response (heap Demo.submitted 0)), Demo.submitted).
Proof. vm_compute. reflexivity. Qed.

Lemma demo_served :
  serve Demo.uuid4_at Demo.time_at (PostTxtToPdf Demo.upload) Demo.world
  = (Ok (Conversion (started_response (heap Demo.submitted 0))),
     Demo.submitted).
Proof. vm_compute. reflexivity. Qed.

Lemma demo_started_reachable converter_at :
  reachable Demo.uuid4_at Demo.time_at converter_at Demo.started.
Proof.
  exists Demo.world, [Request (PostTxtToPdf Demo.upload); TaskStart 0].
  split; [apply demo_initial|].
  eapply steps_cons; [apply demo_submitted_step|].
  eapply steps_cons; [apply demo_started_step|]. constructor.
Qed.

Lemma demo_completed_registry :
  conversion_jobs (Demo.completed 2048) !! Demo.job_id = Some 0%nat.
Proof. vm_compute. reflexivity. Qed.

Lemma demo_started_registry :
  conversion_jobs Demo.started !! Demo.job_id = Some 0%nat.
Proof. vm_compute. reflexivity. Qed.

Lemma sample_failed_reachable :
  reachable Demo.uuid4_at Demo.time_at Demo.returns_false Sample.failed.
Proof.
  exists Demo.world,
    [Request (PostTxtToPdf Demo.upload); TaskStart 0; TaskResume 0].
  split; [apply demo_initial|].
  eapply steps_cons; [apply demo_submitted_step|].
  eapply steps_cons; [apply demo_started_step|].
  eapply steps_cons; [|constructor].
  exact (step_resume Demo.uuid4_at Demo.time_at Demo.returns_false 0
           (Demo.time_at 1) [] [] Demo.started demo_started_suspended).
Qed.

Lemma returns_false_never_raises : never_raises Demo.returns_false.
Proof. intros k c input_path output_path fs. by exists false. Qed.

Lemma sample_two_fresh l :
  (next_ref Sample.one_submitted
   ≤ l < next_ref (serve Sample.uuid4_at Demo.time_at
                     (PostWordToPdf Sample.report) Sample.one_submitted).2)%nat →
  unused_id Sample.one_submitted
    (heap (serve Sample.uuid4_at Demo.time_at (PostWordToPdf Sample.report)
             Sample.one_submitted).2 l).
Proof.
  intros Hl. assert (l = 1%nat) as -> by (vm_compute in Hl; lia).
  intros l' Hl'. assert (l' = 0%nat) as -> by (vm_compute in Hl'; lia).
  vm_compute. discriminate.
Qed.

Lemma sample_two_queue :
  background_tasks Sample.two_submitted = [] ++ 0%nat :: [1%nat].
Proof. vm_compute. reflexivity. Qed.

Lemma sample_first_suspended :
  suspended Sample.first_started = [] ++ (0%nat, Demo.time_at 2) :: [].
Proof. vm_compute. reflexivity. Qed.

Lemma sample_one_step converter_at :
  step Sample.uuid4_at Demo.time_at converter_at Demo.world
    (Request (PostTxtToPdf Demo.upload)) Sample.one_submitted.
Proof.
  exact (step_request Sample.uuid4_at Demo.time_at converter_at
           (PostTxtToPdf Demo.upload) Demo.world
           (demo_fresh Demo.world _ eq_refl)).
Qed.

Lemma sample_two_step converter_at :
  step Sample.uuid4_at Demo.time_at converter_at Sample.one_submitted
    (Request (PostWordToPdf Sample.report)) Sample.two_submitted.
Proof.
  exact (step_request Sample.uuid4_at Demo.time_at converter_at
           (PostWordToPdf Sample.report) Sample.one_submitted
           sample_two_fresh).
Qed.

Lemma sample_first_started_step converter_at :
  step Sample.uuid4_at Demo.time_at converter_at Sample.two_submitted
    (TaskStart 0) Sample.first_started.
Proof.
  exact (step_start Sample.uuid4_at Demo.time_at converter_at 0 []
           [1%nat] Sample.two_submitted sample_two_queue).
Qed.

Lemma sample_first_completed_step :
  step Sample.uuid4_at Demo.time_at (Demo.writes 2048) Sample.first_started
    (TaskResume 0) Sample.first_completed.
Proof.
  exact (step_resume Sample.uuid4_at Demo.time_at (Demo.writes 2048) 0
           (Demo.time_at 2) [] [] Sample.first_started sample_first_suspended).
Qed.

Lemma sample_first_completed_reachable :
  reachable Sample.uuid4_at Demo.time_at (Demo.writes 2048)
    Sample.first_completed.
Proof.
  exists Demo.world,
    [Request (PostTxtToPdf Demo.upload); Request (PostWordToPdf Sample.report);
     TaskStart 0; TaskResume 0].
  split; [apply demo_initial|].
  eapply steps_cons; [exact (sample_one_step _)|].
  eapply steps_cons; [exact (sample_two_step _)|].
  eapply steps_cons; [exact (sample_first_started_step _)|].
  eapply steps_cons; [exact sample_first_completed_step|]. constructor.
Qed.

(** *** The two jobs, converted by the service's own capabilities *)

Lemma written_frame output_path size fs p :
  output_path ≠ Some p → Sample.written output_path size fs !! p = fs !! p.
Proof.
  intros Ho. destruct output_path as [q|]; [|done].
  apply lookup_insert_ne. congruence.
Qed.

Lemma sample_lib_well_behaved : well_behaved Sample.lib.
Proof.
  split; try done.
  - intros outdir input_path fs p Hp. cbn.
    destruct input_path as [i|]; [|done].
    apply lookup_insert_ne. intros <-. by apply (Hp i).
  - intros output_path story fs p Ho. by apply written_frame.
  - intros body output_path fs p Ho. by apply written_frame.
  - intros image output_path save_all append_images fs p Ho.
    by apply written_frame.
  - intros output_path ops fs p Ho. by apply written_frame.
Qed.

Lemma sample_converters_confined : confined Sample.converters.
Proof. exact (service_converter_confined Sample.lib sample_lib_well_behaved). Qed.

Lemma sample_first_converted_queue :
  background_tasks Sample.first_converted = [] ++ 1%nat :: [].
Proof. vm_compute. reflexivity. Qed.

Lemma sample_second_suspended :
  suspended Sample.second_started = [] ++ (1%nat, Demo.time_at 5) :: [].
Proof. vm_compute. reflexivity. Qed.

Lemma sample_first_converted_step :
  step Sample.uuid4_at Demo.time_at Sample.converters Sample.first_started
    (TaskResume 0) Sample.first_converted.
Proof.
  exact (step_resume Sample.uuid4_at Demo.time_at Sample.converters 0
           (Demo.time_at 2) [] [] Sample.first_started sample_first_suspended).
Qed.

Lemma sample_second_started_step :
  step Sample.uuid4_at Demo.time_at Sample.converters Sample.first_converted
    (TaskStart 1) Sample.second_started.
Proof.
  exact (step_start Sample.uuid4_at Demo.time_at Sample.converters 1 [] []
           Sample.first_converted sample_first_converted_queue).
Qed.

Lemma sample_second_converted_step :
  step Sample.uuid4_at Demo.time_at Sample.converters Sample.second_started
    (TaskResume 1) Sample.second_converted.
Proof.
  exact (step_resume Sample.uuid4_at Demo.time_at Sample.converters 1
           (Demo.time_at 5) [] [] Sample.second_started
           sample_second_suspended).
Qed.

Lemma sample_second_converted_reachable :
  reachable Sample.uuid4_at Demo.time_at Sample.converters
    Sample.second_converted.
Proof.
  exists Demo.world,
    [Request (PostTxtToPdf Demo.upload); Request (PostWordToPdf Sample.report);
     TaskStart 0; TaskResume 0; TaskStart 1; TaskResume 1].
  split; [apply demo_initial|].
  eapply steps_cons; [exact (sample_one_step _)|].
  eapply steps_cons; [exact (sample_two_step _)|].
  eapply steps_cons; [exact (sample_first_started_step _)|].
  eapply steps_cons; [exact sample_first_converted_step|].
  eapply steps_cons; [exact sample_second_started_step|].
  eapply steps_cons; [exact sample_second_converted_step|]. constructor.
Qed.

(** two jobs whose paths are all different *)
Lemma two_jobs_distinct_paths w :
  next_ref w = 2%nat →
  (∀ p, ConversionJob.converted_file_path (heap w 0) = Some p →
        ConversionJob.file_path (heap w 1) ≠ Some p
        ∧ ConversionJob.converted_file_path (heap w 1) ≠ Some p
        ∧ libreoffice_pdf (ConversionJob.file_path (heap w 1))
            (ConversionJob.converted_file_path (heap w 1)) ≠ Some p) →
  (∀ p, ConversionJob.converted_file_path (heap w 1) = Some p →
        ConversionJob.file_path (heap w 0) ≠ Some p
        ∧ ConversionJob.converted_file_path (heap w 0) ≠ Some p
        ∧ libreoffice_pdf (ConversionJob.file_path (heap w 0))
            (ConversionJob.converted_file_path (heap w 0)) ≠ Some p) →
  distinct_paths w.
Proof.
  intros Hn H01 H10 l1 l2 p Hl1 Hl2 Hne Hp. rewrite Hn in Hl1, Hl2.
  destruct l1 as [|[|l1]], l2 as [|[|l2]]; try lia; try done.
  - by apply H01.
  - by apply H10.
Qed.

Lemma sample_second_converted_paths : distinct_paths Sample.second_converted.
Proof.
  apply two_jobs_distinct_paths; [vm_compute; reflexivity|..];
    intros p Hp; vm_compute in Hp; injection Hp as <-;
    vm_compute; split_and!; discriminate.
Qed.

Lemma sample_first_cleaned_steps :
  steps Sample.uuid4_at Demo.time_at Sample.converters Sample.second_converted
    [Request (DeleteCleanup Demo.job_id)]
    (serve Sample.uuid4_at Demo.time_at (DeleteCleanup Demo.job_id)
       Sample.second_converted).2.
Proof.
  eapply steps_cons; [|constructor]. apply step_request.
  intros l Hl. vm_compute in Hl. lia.
Qed.

Lemma sample_first_cleaned_paths :
  distinct_paths
    (serve Sample.uuid4_at Demo.time_at (DeleteCleanup Demo.job_id)
       Sample.second_converted).2.
Proof.
  apply two_jobs_distinct_paths; [vm_compute; reflexivity|..];
    intros p Hp; vm_compute in Hp; injection Hp as <-;
    vm_compute; split_and!; discriminate.
Qed.

(** *** Two jobs with one converted path *)

Lemma clash_two_fresh l :
  (next_ref Clash.one_submitted
   ≤ l < next_ref (serve Clash.uuid4_at Demo.time_at
                     (PostTxtToPdf Demo.upload) Clash.one_submitted).2)%nat →
  unused_id Clash.one_submitted
    (heap (serve Clash.uuid4_at Demo.time_at (PostTxtToPdf Demo.upload)
             Clash.one_submitted).2 l).
Proof.
  intros Hl. assert (l = 1%nat) as -> by (vm_compute in Hl; lia).
  intros l' Hl'. assert (l' = 0%nat) as -> by (vm_compute in Hl'; lia).
  vm_compute. discriminate.
Qed.

Lemma clash_two_queue :
  background_tasks Clash.two_submitted = [] ++ 0%nat :: [1%nat].
Proof. vm_compute. reflexivity. Qed.

Lemma clash_first_suspended :
  suspended Clash.first_started = [] ++ (0%nat, Demo.time_at 2) :: [].
Proof. vm_compute. reflexivity. Qed.

Lemma clash_one_step :
  step Clash.uuid4_at Demo.time_at Sample.converters Demo.world
    (Request (PostTxtToPdf Demo.upload)) Clash.one_submitted.
Proof.
  exact (step_request Clash.uuid4_at Demo.time_at Sample.converters
           (PostTxtToPdf Demo.upload) Demo.world
           (demo_fresh Demo.world _ eq_refl)).
Qed.

Lemma clash_two_step :
  step Clash.uuid4_at Demo.time_at Sample.converters Clash.one_submitted
    (Request (PostTxtToPdf Demo.upload)) Clash.two_submitted.
Proof.
  exact (step_request Clash.uuid4_at Demo.time_at Sample.converters
           (PostTxtToPdf Demo.upload) Clash.one_submitted clash_two_fresh).
Qed.

Lemma clash_first_started_step :
  step Clash.uuid4_at Demo.time_at Sample.converters Clash.two_submitted
    (TaskStart 0) Clash.first_started.
Proof.
  exact (step_start Clash.uuid4_at Demo.time_at Sample.converters 0 []
           [1%nat] Clash.two_submitted clash_two_queue).
Qed.

Lemma clash_first_converted_step :
  step Clash.uuid4_at Demo.time_at Sample.converters Clash.first_started
    (TaskResume 0) Clash.first_converted.
Proof.
  exact (step_resume Clash.uuid4_at Demo.time_at Sample.converters 0
           (Demo.time_at 2) [] [] Clash.first_started clash_first_suspended).
Qed.

Lemma clash_second_cleaned_step :
  step Clash.uuid4_at Demo.time_at Sample.converters Clash.first_converted
    (Request (DeleteCleanup Sample.second_id)) Clash.second_cleaned.
Proof.
  apply step_request. intros l Hl. vm_compute in Hl. lia.
Qed.

Lemma clash_second_cleaned_reachable :
  reachable Clash.uuid4_at Demo.time_at Sample.converters Clash.second_cleaned.
Proof.
  exists Demo.world,
    [Request (PostTxtToPdf Demo.upload); Request (PostTxtToPdf Demo.upload);
     TaskStart 0; TaskResume 0; Request (DeleteCleanup Sample.second_id)].
  split; [apply demo_initial|].
  eapply steps_cons; [exact clash_one_step|].
  eapply steps_cons; [exact clash_two_step|].
  eapply steps_cons; [exact clash_first_started_step|].
  eapply steps_cons; [exact clash_first_converted_step|].
  eapply steps_cons; [exact clash_second_cleaned_step|]. constructor.
Qed.

(** Jobs can share a converted path, and then an artifact can be lost
    while its job is COMPLETED.  The converted name of a job is the stem
    of the upload's name and eight characters of a uuid, so two uploads
    of [notes.txt] can be given one converted path.  The first job is converted by the service's own capability;
    the cleanup of the second job, still PENDING, then removes the file
    at the converted path they share: the status endpoint reports the
    first job as "completed" and nothing is at its converted path. *)
Lemma shared_converted_path_loses_artifact :
  reachable Clash.uuid4_at Demo.time_at Sample.converters Clash.second_cleaned
  ∧ confined Sample.converters
  ∧ Clash.uuid4_at 1 ≠ Clash.uuid4_at 3
  ∧ Clash.uuid4_at 0 ≠ Clash.uuid4_at 2
  ∧ ¬ distinct_paths Clash.second_cleaned
  ∧ (∃ st, get_conversion_status Demo.job_id Clash.second_cleaned
           = (Ok st, Clash.second_cleaned)
      ∧ st_status st = "completed"
      ∧ st_download_url st ≠ None)
  ∧ ConversionJob.converted_file_path (heap Clash.second_cleaned 0)
    = Some Demo.converted_path
  ∧ files Clash.second_cleaned !! Demo.converted_path = None
  ∧ download_converted_file Demo.job_id Clash.second_cleaned
    = (Raise (HTTPException 404 "Converted file not found"),
       Clash.second_cleaned).
Proof.
  split; [exact clash_second_cleaned_reachable|].
  split; [exact sample_converters_confined|].
  split; [discriminate|]. split; [discriminate|].
  split.
  { intros Hd.
    destruct (Hd 0%nat 1%nat Demo.converted_path) as (_ & Hc & _);
      [vm_compute; lia|vm_compute; lia|done|vm_compute; reflexivity|].
    apply Hc. vm_compute. reflexivity. }
  split; [eexists; split; [vm_compute; reflexivity|split; [reflexivity|discriminate]]|].
  split; [vm_compute; reflexivity|].
  split; vm_compute; reflexivity.
Qed.

Lemma accepted_submission_round_trip_witness :
  resp_file_size (started_response (heap Demo.submitted 0)) = 10240
  ∧ conversion_jobs Demo.submitted !! Demo.job_id = Some 0%nat
  ∧ download_converted_file Demo.job_id Demo.submitted
    = (Raise (HTTPException 400 "Conversion not completed yet"),
       Demo.submitted).
Proof.
  destruct (accepted_submission_round_trip _ _ _ _ _ _ _ _ _ demo_accepted)
    as (_ & _ & _ & Hsz & _ & Hreg & _ & _ & _ & Hd).
  split_and!; [exact Hsz|exact Hreg|exact Hd].
Defined.

Lemma converted_file_has_target_extension_witness :
  Path.suffix "notes_3f2b8c1e.pdf" = ".pdf"
  ∧ ConversionJob.converted_file_path (heap Demo.submitted 0)
    = Some "/tmp/conversions/notes_3f2b8c1e.pdf".
Proof.
  destruct (converted_file_has_target_extension _ _ _ _ _ _ demo_served
              eq_refl) as (Hs & Hp & _).
  split; [exact Hs|exact Hp].
Defined.

Lemma routes_dispatch_to_their_capability_witness :
  ∃ c, route_capability (PostTxtToPdf Demo.upload) = Some c
    ∧ converter_calls
        (perform_conversion (Demo.writes 2048) 0 Demo.started).2
      = 1%nat.
Proof.
  destruct (routes_dispatch_to_their_capability _ _ (Demo.writes 2048) _ _ _ _
              demo_served) as (c & scratch & converted & Hc & _ & _ & _ & Hp).
  exists c. split; [exact Hc|].
  destruct (Hp Demo.started PROCESSING) as [_ Hk].
  - vm_compute. reflexivity.
  - exact Hk.
Defined.

Lemma unknown_formats_fail_witness :
  ∃ w', process_conversion Demo.time_at (Demo.writes 2048) 0 Sample.odd_world
        = (Ok (), w')
    ∧ ConversionJob.status (heap w' 0) = FAILED
    ∧ ConversionJob.error_message (heap w' 0) = Some "Conversion failed"
    ∧ converter_calls w' = 0%nat.
Proof.
  destruct (unknown_formats_fail Demo.time_at (Demo.writes 2048) 0
              Sample.odd_world eq_refl)
    as (w' & H1 & H2 & H3 & _ & H4 & _).
  exists w'. split_and!; [exact H1|exact H2|exact H3|exact H4].
Defined.

Lemma outcome_fields_match_status_witness :
  (ConversionJob.conversion_time (heap (Demo.completed 2048) 0) ≠ None
   ↔ ConversionJob.status (heap (Demo.completed 2048) 0) = COMPLETED)
  ∧ ∃ st, get_conversion_status Demo.job_id (Demo.completed 2048)
          = (Ok st, Demo.completed 2048)
      ∧ st_job_id st = Demo.job_id.
Proof.
  destruct (outcome_fields_match_status _ _ _ _ _ _
              (demo_completed_reachable 2048) demo_completed_registry)
    as (_ & _ & Ht & _ & st & E & Hid & _).
  split; [exact Ht|]. exists st. split; [exact E|exact Hid].
Defined.

Lemma status_mirrors_scheduler_witness :
  ConversionJob.status (heap Demo.started 0) = PROCESSING
  ↔ 0%nat ∈ (suspended Demo.started).*1.
Proof.
  destruct (status_mirrors_scheduler _ _ _ _ _ _
              (demo_started_reachable (Demo.writes 2048))
              demo_started_registry) as (_ & H & _).
  exact H.
Defined.

Lemma tasks_run_to_completion_witness :
  ∃ es w',
    steps Demo.uuid4_at Demo.time_at (Demo.writes 2048) Demo.submitted es w'
    ∧ length es = 2%nat
    ∧ background_tasks w' = [] ∧ suspended w' = []
    ∧ ∀ job_id job, conversion_jobs w' !! job_id = Some job →
                    terminal (ConversionJob.status (heap w' job)).
Proof.
  destruct (tasks_run_to_completion _ _ _ _
              (demo_submitted_reachable (Demo.writes 2048)))
    as (es & w' & Hsteps & _ & Hlen & Hq & Hs & _ & Hterm).
  exists es, w'.
  split_and!; [exact Hsteps|exact Hlen|exact Hq|exact Hs|exact Hterm].
Defined.

Lemma demo_cleanup_after_completion :
  steps Demo.uuid4_at Demo.time_at (Demo.writes 2048) (Demo.completed 2048)
    [Request (DeleteCleanup Demo.job_id)]
    (serve Demo.uuid4_at Demo.time_at (DeleteCleanup Demo.job_id)
       (Demo.completed 2048)).2.
Proof.
  eapply steps_cons; [|constructor]. apply step_request.
  intros l Hl. vm_compute in Hl. lia.
Qed.

Lemma terminal_job_frozen_witness :
  heap (serve Demo.uuid4_at Demo.time_at (DeleteCleanup Demo.job_id)
          (Demo.completed 2048)).2 0
  = heap (Demo.completed 2048) 0.
Proof.
  apply (terminal_job_frozen Demo.uuid4_at Demo.time_at (Demo.writes 2048)
           (Demo.completed 2048) [Request (DeleteCleanup Demo.job_id)]).
  - apply demo_completed_reachable.
  - vm_compute. lia.
  - left. vm_compute. reflexivity.
  - apply demo_cleanup_after_completion.
Defined.

Lemma job_inputs_never_change_witness :
  same_inputs (heap Demo.submitted 0) (heap (Demo.completed 2048) 0).
Proof.
  apply (job_inputs_never_change Demo.uuid4_at Demo.time_at (Demo.writes 2048)
           Demo.submitted [TaskStart 0; TaskResume 0]).
  - apply demo_submitted_reachable.
  - vm_compute. lia.
  - apply demo_run_from_submitted.
Defined.

Lemma failures_carry_plain_message_witness :
  ConversionJob.error_message (heap Sample.failed 0)
  = Some "Conversion failed".
Proof.
  destruct (failures_carry_plain_message Demo.uuid4_at Demo.time_at
              Demo.returns_false Sample.failed Demo.job_id 0
              returns_false_never_raises sample_failed_reachable)
    as [H _].
  - vm_compute. reflexivity.
  - vm_compute. reflexivity.
  - exact H.
Defined.

Lemma cleanup_leaves_other_artifacts_witness :
  (cleanup_conversion_files Demo.job_id Sample.second_converted).1
  = Ok "Files cleaned up successfully"
  ∧ ∃ p, download_converted_file Sample.second_id Sample.first_cleaned
         = (Ok {| fr_path := Some p;
                  fr_filename :=
                    ConversionJob.converted_filename
                      (heap Sample.second_converted 1);
                  fr_media_type := "application/octet-stream" |},
            Sample.first_cleaned).
Proof.
  pose proof (cleanup_leaves_other_artifacts Sample.uuid4_at Demo.time_at
                Sample.converters Sample.second_converted Demo.job_id
                Sample.second_id 1 sample_converters_confined
                sample_second_converted_reachable
                sample_second_converted_paths) as H.
  unfold Sample.first_cleaned.
  destruct (cleanup_conversion_files Demo.job_id Sample.second_converted)
    as [r w'].
  destruct H as (Hr & p & _ & Hd).
  - vm_compute. eauto.
  - discriminate.
  - vm_compute. reflexivity.
  - vm_compute. reflexivity.
  - split; [exact Hr|]. exists p. exact Hd.
Defined.

Lemma sample_pdf_to_word :
  service_converter Sample.lib pdf_to_word
    (Some "/tmp/conversions/c41d7a90_scan.pdf")
    (Some "/tmp/conversions/scan_5b1e77a0.docx") ∅
  = (Ok true,
     (service_converter Sample.lib pdf_to_word
        (Some "/tmp/conversions/c41d7a90_scan.pdf")
        (Some "/tmp/conversions/scan_5b1e77a0.docx") ∅).2).
Proof. vm_compute. reflexivity. Qed.

Lemma converters_check_their_output_witness :
  ∃ p, Some "/tmp/conversions/scan_5b1e77a0.docx" = Some p
    ∧ is_Some ((service_converter Sample.lib pdf_to_word
                  (Some "/tmp/conversions/c41d7a90_scan.pdf")
                  (Some "/tmp/conversions/scan_5b1e77a0.docx") ∅).2 !! p).
Proof.
  destruct (converters_check_their_output Sample.lib pdf_to_word _ _ _ _
              (or_intror eq_refl) sample_pdf_to_word) as [H _].
  exact H.
Defined.

Lemma libreoffice_output_is_moved_witness :
  service_converter Sample.lib word_to_pdf (Some Sample.docx)
    (Some Sample.pdf) ∅
  = (Ok true,
     <[Sample.pdf := Build_node false 4096]>
       (delete Sample.generated_pdf
          {[Sample.generated_pdf := Build_node false 4096]})).
Proof.
  destruct (libreoffice_output_is_moved Sample.lib Sample.docx Sample.pdf ∅
              {[Sample.generated_pdf := Build_node false 4096]}
              (Build_node false 4096)) as [H _].
  - vm_compute. reflexivity.
  - vm_compute. reflexivity.
  - reflexivity.
  - vm_compute. discriminate.
  - intros m Hm. vm_compute in Hm. discriminate.
  - exact H.
Defined.

Lemma excel_canvas_on_page_witness :
  Forall (on_page A4.2) (excel_canvas Sample.sales).
Proof.
  apply excel_canvas_on_page.
  apply (bool_decide_unpack _). vm_compute. exact I.
Defined.


Lemma download_stays_available_witness :
  (download_converted_file Sample.second_id
     (serve Sample.uuid4_at Demo.time_at (DeleteCleanup Demo.job_id)
        Sample.second_converted).2).1
  = Ok {| fr_path := Some "/tmp/conversions/report_c41d7a90.pdf";
          fr_filename := "report_c41d7a90.pdf";
          fr_media_type := "application/octet-stream" |}.
Proof.
  destruct (download_stays_available Sample.uuid4_at Demo.time_at
              Sample.converters Sample.second_converted
              [Request (DeleteCleanup Demo.job_id)]
              (serve Sample.uuid4_at Demo.time_at
                 (DeleteCleanup Demo.job_id) Sample.second_converted).2
              Sample.second_id
              {| fr_path := Some "/tmp/conversions/report_c41d7a90.pdf";
                 fr_filename := "report_c41d7a90.pdf";
                 fr_media_type := "application/octet-stream" |}
              sample_converters_confined
              sample_second_converted_reachable
              sample_first_cleaned_paths)
    as [H _].
  - vm_compute. reflexivity.
  - exact sample_first_cleaned_steps.
  - intros Hin. apply list_elem_of_singleton in Hin. discriminate Hin.
  - rewrite H. reflexivity.
Defined.

Lemma save_uploaded_file_path_witness :
  save_uploaded_file Demo.upload "/tmp/notes.txt" Demo.world
  = (Ok "/tmp/notes.txt",
     (save_uploaded_file Demo.upload "/tmp/notes.txt" Demo.world).2)
  ∧ files (save_uploaded_file Demo.upload "/tmp/notes.txt" Demo.world).2
      !! "/tmp/notes.txt"
    = Some (Build_node false 10240)
  ∧ Path.parts (scratch_path Demo.uuid4_at Demo.world Demo.upload)
    = ["tmp"; "conversions";
       "9a7d4e52-1c3b-4f68-8e2a-6b0f1d3c5a77_notes.txt"].
Proof.
  assert (save_uploaded_file Demo.upload "/tmp/notes.txt" Demo.world
          = (Ok "/tmp/notes.txt",
             (save_uploaded_file Demo.upload "/tmp/notes.txt" Demo.world).2))
    as Hrun by (vm_compute; reflexivity).
  destruct (save_uploaded_file_path Demo.uuid4_at Demo.upload
              "/tmp/notes.txt" Demo.world "/tmp/notes.txt" _ Hrun)
    as (_ & Hfile & _ & _ & Hscratch).
  split; [exact Hrun|]. split; [exact Hfile|].
  rewrite (Hscratch Demo.upload Demo.world eq_refl).
  vm_compute. reflexivity.
Defined.
